(** * x402 payment protocol: verifier, settler, client, facilitator and
      resource-server middleware.

    Shallow embedding of [src/backend/protocol.py], [verification.py],
    [settlement.py], [client.py], [facilitator_server.py] and
    [resource_server.py].

    Conventions.
    - A Python [str] is a [string], one character per code point; text
      with a code point from 256 up is outside the model.
    - A Python [bytes] is a [list Z] of values in [0, 256).
    - A Python [int] is a [Z].
    - Code that may raise lives in the error monad [Exc]; a [try]/[except]
      is [try_except].
    - Calls that leave the repository and depend on the outside world or on
      key material (base64/JSON decoding of the header, the chain tip, the
      elliptic-curve recovery) are parameters of the sections that use them.
      Deterministic library helpers the claims depend on (EIP-55 checksums,
      EIP-712 hashing, Keccak-256, [int()]/[str()]) are written out. *)

From Stdlib Require Import ZArith List String Ascii Bool Lia.
From Stdlib Require Import Floats.SpecFloat.
From Bignums Require Import BigZ.
Import ListNotations.
Open Scope string_scope.
Open Scope Z_scope.

(* ================================================================== *)
(** * Exceptions as values *)
(* ================================================================== *)

(** The exception classes that the modelled code can meet.  All of them
    derive from [Exception]; [JSONDecodeError], [BinasciiError] and
    [ValidationError] derive from [ValueError] as they do in Python. *)
Inductive exn_class : Type :=
| ValueError
| JSONDecodeError
| BinasciiError
| ValidationError
| TypeError
| IndexError
| OverflowError
| Timeout
| OtherError.

(** An exception instance: its class and [str(e)]. *)
Record exn : Type := Exn { exn_cls : exn_class; exn_str : string }.

Inductive Exc (A : Type) : Type :=
| Return (a : A)
| Raise (e : exn).
Arguments Return {A} a.
Arguments Raise {A} e.

Definition bind {A B : Type} (m : Exc A) (k : A -> Exc B) : Exc B :=
  match m with
  | Return a => k a
  | Raise e => Raise e
  end.

Notation "x <- m ;; k" := (bind m (fun x => k))
  (at level 61, m at next level, right associativity).

Notation "' pat <- m ;; k" :=
  (bind m (fun x => match x with pat => k end))
  (at level 61, pat pattern, m at next level, right associativity).

(** [try: body except <classes matched by handles> as e: handler e];
    an exception the clause does not match propagates. *)
Definition try_except {A : Type} (body : Exc A)
           (handles : exn_class -> bool) (handler : exn -> Exc A) : Exc A :=
  match body with
  | Return a => Return a
  | Raise e => if handles (exn_cls e) then handler e else Raise e
  end.

(** A [try] with several [except] clauses: the first clause whose class
    test accepts the exception handles it. *)
Fixpoint first_clause {A : Type} (e : exn)
         (clauses : list ((exn_class -> bool) * (exn -> Exc A))) : Exc A :=
  match clauses with
  | [] => Raise e
  | (handles, handler) :: rest =>
      if handles (exn_cls e) then handler e else first_clause e rest
  end.

Definition try_clauses {A : Type} (body : Exc A)
           (clauses : list ((exn_class -> bool) * (exn -> Exc A))) : Exc A :=
  match body with
  | Return a => Return a
  | Raise e => first_clause e clauses
  end.

Definition exn_class_eqb (a b : exn_class) : bool :=
  match a, b with
  | ValueError, ValueError | JSONDecodeError, JSONDecodeError
  | BinasciiError, BinasciiError | ValidationError, ValidationError
  | TypeError, TypeError | IndexError, IndexError
  | OverflowError, OverflowError | Timeout, Timeout
  | OtherError, OtherError => true
  | _, _ => false
  end.

(** [isinstance(e, ValueError)]. *)
Definition is_ValueError (c : exn_class) : bool :=
  match c with
  | ValueError | JSONDecodeError | BinasciiError | ValidationError => true
  | _ => false
  end.

(** [isinstance(e, Exception)]: every modelled class. *)
Definition is_Exception (c : exn_class) : bool := true.

(* ================================================================== *)
(** * Python primitives *)
(* ================================================================== *)

Module Py.

(** Dynamic values, as they come out of a JSON document. *)
#[local] Set Warnings "-register-all".
Inductive pyval : Type :=
| PyNone
| PyBool (b : bool)
| PyInt (z : Z)
| PyFloat (f : spec_float)
| PyStr (s : string)
| PyList (l : list pyval)
| PyDict (d : list (string * pyval)).

Definition dict : Type := list (string * pyval).

(** [d.get(key)] on a dict with unique keys. *)
Fixpoint dict_get (d : dict) (key : string) : option pyval :=
  match d with
  | [] => None
  | (k, v) :: rest => if String.eqb k key then Some v else dict_get rest key
  end.

(** Truth value testing ([if not x]). *)
Definition truthy (v : pyval) : bool :=
  match v with
  | PyNone => false
  | PyBool b => b
  | PyInt z => negb (z =? 0)
  | PyFloat f => match f with S754_zero _ => false | _ => true end
  | PyStr s => negb (String.eqb s "")
  | PyList l => match l with [] => false | _ => true end
  | PyDict d => match d with [] => false | _ => true end
  end.

(** Text.  A [string] stands for a Python [str] whose code points are all
    below 256, one [ascii] per code point; its bytes on the wire are its
    UTF-8 encoding ([bytes_of_str]). *)
Definition chars (s : string) : list ascii := list_ascii_of_string s.
Definition str_of_chars (l : list ascii) : string := string_of_list_ascii l.

Definition code (c : ascii) : Z := Z.of_nat (nat_of_ascii c).
Definition chr (z : Z) : ascii := ascii_of_nat (Z.to_nat z).

Definition is_nil {A : Type} (l : list A) : bool :=
  match l with [] => true | _ :: _ => false end.

(** [Py_ISSPACE]: the blanks that [int()] and [float()] skip at both ends
    of the text they are given. *)
Definition is_space (c : ascii) : bool :=
  let n := code c in
  ((9 <=? n) && (n <=? 13)) || (n =? 32).

(** [str.isspace()] for one code point. *)
Definition is_unicode_space (c : ascii) : bool :=
  let n := code c in
  ((9 <=? n) && (n <=? 13)) || ((28 <=? n) && (n <=? 32))
  || (n =? 133) || (n =? 160).

(** [_PyUnicode_TransformDecimalAndSpaceToASCII], the first step of
    [int()] and [float()] on text: ASCII text is taken as it is; in other
    text a blank from 127 up becomes a space, and the text is cut at the
    first other character from 127 up, with [?] in its place (no decimal
    digit lies between 127 and 255). *)
Fixpoint transform_chars (l : list ascii) : list ascii :=
  match l with
  | [] => []
  | c :: r =>
      if code c <? 127 then c :: transform_chars r
      else if is_unicode_space c then " "%char :: transform_chars r
      else ["?"%char]
  end.

Definition to_ascii_number (l : list ascii) : list ascii :=
  if forallb (fun c => code c <? 128) l then l else transform_chars l.

Fixpoint lstrip (l : list ascii) : list ascii :=
  match l with
  | c :: r => if is_space c then lstrip r else l
  | [] => []
  end.

Definition strip (l : list ascii) : list ascii :=
  rev (lstrip (rev (lstrip l))).

(** Value of a character as a digit in some base up to 36. *)
Definition digit_val (base : Z) (c : ascii) : option Z :=
  let n := code c in
  let d := if (48 <=? n) && (n <=? 57) then n - 48
           else if (97 <=? n) && (n <=? 122) then n - 87
           else if (65 <=? n) && (n <=? 90) then n - 55
           else 36 in
  if d <? base then Some d else None.

(** Digits with single underscores between them; [prev] tells whether
    the previous character was a digit. *)
Fixpoint digits_acc (base acc : Z) (prev : bool) (l : list ascii) : option Z :=
  match l with
  | [] => if prev then Some acc else None
  | c :: r =>
      if Ascii.eqb c "_"
      then (if prev then digits_acc base acc false r else None)
      else match digit_val base c with
           | Some d => digits_acc base (acc * base + d) true r
           | None => None
           end
  end.

(** The run of digits and underscores that the scan of a number covers,
    and what follows it. *)
Fixpoint span_number (base : Z) (l : list ascii) : list ascii * list ascii :=
  match l with
  | c :: r =>
      if Ascii.eqb c "_" || match digit_val base c with Some _ => true | None => false end
      then let '(num, rest) := span_number base r in (c :: num, rest)
      else ([], l)
  | [] => ([], [])
  end.

Definition count_digits (l : list ascii) : Z :=
  Z.of_nat (List.length (filter (fun c => negb (Ascii.eqb c "_")) l)).

Definition split_sign (l : list ascii) : bool * list ascii :=
  match l with
  | c :: r => if Ascii.eqb c "-" then (true, r)
              else if Ascii.eqb c "+" then (false, r)
              else (false, l)
  | [] => (false, [])
  end.

Definition apply_sign (neg : bool) (z : Z) : Z := if neg then - z else z.

(** Decimal digits of a non-negative integer, least significant first. *)
Fixpoint le_digits (fuel : nat) (n : Z) : list Z :=
  match fuel with
  | O => []
  | S f => if n <? 10 then [n] else (n mod 10) :: le_digits f (n / 10)
  end.

Definition dec_chars (n : Z) : list ascii :=
  map (fun d => chr (48 + d)) (rev (le_digits (S (Z.to_nat (Z.log2 n))) n)).

(** The decimal rendering of an [int]: what [str(z)] gives when it gives
    something (see [format_int]). *)
Definition str (z : Z) : string :=
  if z <? 0 then String "-" (str_of_chars (dec_chars (- z)))
  else str_of_chars (dec_chars z).

(** [sys.int_max_str_digits] as CPython sets it. *)
Definition max_str_digits : Z := 4300.

(** [str(z)] and [f"{z}"] for an [int]: an integer of more than 4300
    digits is refused. *)
Definition format_int (z : Z) : Exc string :=
  if Z.abs z <? 10 ^ max_str_digits then Return (str z)
  else Raise (Exn ValueError
         ("Exceeds the limit (4300 digits) for integer string conversion; "
          ++ "use sys.set_int_max_str_digits() to increase the limit")).

Definition hex_digit (n : Z) : ascii :=
  if n <? 10 then chr (48 + n) else chr (87 + n).

(** [str.isprintable()] for one code point. *)
Definition is_printable (c : ascii) : bool :=
  let n := code c in
  ((32 <=? n) && (n <? 127)) || ((161 <=? n) && negb (n =? 173)).

Definition quote1 : ascii := chr 39.
Definition quote2 : ascii := chr 34.
Definition backslash : ascii := chr 92.

(** [repr(s)] for text: single quotes unless the text holds a single
    quote and no double quote. *)
Definition repr_char (quote c : ascii) : list ascii :=
  let n := code c in
  if Ascii.eqb c quote || Ascii.eqb c backslash then [backslash; c]
  else if n =? 9 then [backslash; "t"%char]
  else if n =? 10 then [backslash; "n"%char]
  else if n =? 13 then [backslash; "r"%char]
  else if is_printable c then [c]
  else [backslash; "x"%char; hex_digit (n / 16); hex_digit (n mod 16)].

Definition repr_chars (l : list ascii) : list ascii :=
  let quote := if existsb (Ascii.eqb quote1) l && negb (existsb (Ascii.eqb quote2) l)
               then quote2 else quote1 in
  (quote :: flat_map (repr_char quote) l ++ [quote])%list.

Definition repr (s : string) : string := str_of_chars (repr_chars (chars s)).

(** The format [%.200R]: the first 200 characters of [repr(s)]. *)
Definition repr200 (s : string) : string :=
  str_of_chars (firstn 200 (repr_chars (chars s))).

Definition invalid_literal (base : string) (s : string) : exn :=
  Exn ValueError ("invalid literal for int() with base " ++ base ++ ": " ++ repr200 s).

(** [int(s)]: base 10.  Blanks at both ends, a sign, then digits with
    single underscores between them; more than 4300 digits are refused
    as soon as the digits have been scanned. *)
Definition int (s : string) : Exc Z :=
  let '(neg, body) := split_sign (lstrip (to_ascii_number (chars s))) in
  let '(num, rest) := span_number 10 body in
  match digits_acc 10 0 false num with
  | Some z =>
      if max_str_digits <? count_digits num
      then Raise (Exn ValueError
             ("Exceeds the limit (4300 digits) for integer string conversion: "
              ++ "value has " ++ str (count_digits num) ++ " digits; "
              ++ "use sys.set_int_max_str_digits() to increase the limit"))
      else if is_nil (lstrip rest) then Return (apply_sign neg z)
      else Raise (invalid_literal "10" s)
  | None => Raise (invalid_literal "10" s)
  end.

(** [int(s, 16)]: an optional [0x] prefix, which one underscore may follow. *)
Definition skip_0x (l : list ascii) : list ascii :=
  match l with
  | z :: x :: r =>
      if Ascii.eqb z "0" && (Ascii.eqb x "x" || Ascii.eqb x "X")
      then match r with
           | u :: r' => if Ascii.eqb u "_" then r' else r
           | [] => r
           end
      else l
  | _ => l
  end.

Definition int16 (s : string) : Exc Z :=
  let '(neg, body) := split_sign (lstrip (to_ascii_number (chars s))) in
  let '(num, rest) := span_number 16 (skip_0x body) in
  match digits_acc 16 0 false num with
  | Some z =>
      if is_nil (lstrip rest) then Return (apply_sign neg z)
      else Raise (invalid_literal "16" s)
  | None => Raise (invalid_literal "16" s)
  end.

(** [s.lower()]: the capital letters below 256 are [A-Z] and [192-222]
    without the multiplication sign. *)
Definition lower_char (c : ascii) : ascii :=
  let n := code c in
  if ((65 <=? n) && (n <=? 90)) || ((192 <=? n) && (n <=? 222) && negb (n =? 215))
  then chr (n + 32) else c.
Definition lower (s : string) : string := str_of_chars (map lower_char (chars s)).

(** [c.upper()] for an ASCII character (a hex digit, where it is used). *)
Definition upper_char (c : ascii) : ascii :=
  let n := code c in if (97 <=? n) && (n <=? 122) then chr (n - 32) else c.

(** [s.replace(c, "")] for a one-character pattern. *)
Definition remove_char (c : ascii) (s : string) : string :=
  str_of_chars (filter (fun x => negb (Ascii.eqb x c)) (chars s)).

(** [s.split(sep)[-1]] for a one-character separator: the text after the
    last separator (the whole string when there is none). *)
Fixpoint last_field_acc (sep : ascii) (cur : list ascii) (l : list ascii) : list ascii :=
  match l with
  | [] => rev cur
  | c :: r => if Ascii.eqb c sep then last_field_acc sep [] r
              else last_field_acc sep (c :: cur) r
  end.
Definition split_last (sep : ascii) (s : string) : string :=
  str_of_chars (last_field_acc sep [] (chars s)).

(** Bytes. *)
Definition bytes : Type := list Z.

Definition is_byte (b : Z) : Prop := 0 <= b < 256.

(** [s.encode("utf-8")]: two bytes for a code point from 128 up. *)
Definition utf8_char (c : ascii) : bytes :=
  let n := code c in
  if n <? 128 then [n] else [192 + n / 64; 128 + n mod 64].

Definition bytes_of_str (s : string) : bytes := flat_map utf8_char (chars s).

(** [bytes([v])]. *)
Definition bytes_of_int_list1 (v : Z) : Exc bytes :=
  if (0 <=? v) && (v <? 256) then Return [v]
  else Raise (Exn ValueError "bytes must be in range(0, 256)").

Fixpoint be_bytes (n : nat) (z : Z) : bytes :=
  match n with
  | O => []
  | S n' => (be_bytes n' (z / 256) ++ [z mod 256])%list
  end.

(** [z.to_bytes(n, 'big')]. *)
Definition to_bytes_big (n : nat) (z : Z) : Exc bytes :=
  if z <? 0 then Raise (Exn OverflowError "can't convert negative int to unsigned")
  else if z <? 256 ^ Z.of_nat n then Return (be_bytes n z)
  else Raise (Exn OverflowError "int too big to convert").

Fixpoint be_val (acc : Z) (bs : bytes) : Z :=
  match bs with
  | [] => acc
  | b :: r => be_val (acc * 256 + b) r
  end.

Fixpoint hex_chars (bs : bytes) : list ascii :=
  match bs with
  | [] => []
  | b :: r => hex_digit (b / 16) :: hex_digit (b mod 16) :: hex_chars r
  end.

(** [bs.hex()]. *)
Definition hex (bs : bytes) : string := str_of_chars (hex_chars bs).

(** [repr(bs)] for bytes. *)
Definition repr_byte (quote : ascii) (b : Z) : list ascii :=
  if (b =? code quote) || (b =? 92) then [backslash; chr b]
  else if b =? 9 then [backslash; "t"%char]
  else if b =? 10 then [backslash; "n"%char]
  else if b =? 13 then [backslash; "r"%char]
  else if (32 <=? b) && (b <? 127) then [chr b]
  else [backslash; "x"%char; hex_digit (b / 16); hex_digit (b mod 16)].

Definition repr_bytes (bs : bytes) : string :=
  let quote := if existsb (Z.eqb 39) bs && negb (existsb (Z.eqb 34) bs)
               then quote2 else quote1 in
  str_of_chars ("b"%char :: quote :: flat_map (repr_byte quote) bs ++ [quote])%list.

End Py.

(* ================================================================== *)
(** * Keccak-256 *)
(* ================================================================== *)

(** The hash behind [eth_utils.keccak]: Keccak-f[1600] with rate 136 and
    the original Keccak padding.  The state is 25 lanes of 64 bits, lane
    [(x, y)] at index [x + 5 y]. *)
Module Keccak.

Definition mask64 : Z := Z.ones 64.

Definition rotl64 (x n : Z) : Z :=
  Z.land (Z.lor (Z.shiftl x n) (Z.shiftr x (64 - n))) mask64.

Definition lane (st : list Z) (x y : Z) : Z :=
  nth (Z.to_nat ((x mod 5) + 5 * (y mod 5))) st 0.

Definition coords : list (Z * Z) :=
  flat_map (fun y => map (fun x => (x, y)) [0; 1; 2; 3; 4]) [0; 1; 2; 3; 4].

Definition rotation_offsets : list Z :=
  [ 0;  1; 62; 28; 27;
   36; 44;  6; 55; 20;
    3; 10; 43; 25; 39;
   41; 45; 15; 21;  8;
   18;  2; 61; 56; 14].

Definition round_constants : list Z :=
  [0x0000000000000001; 0x0000000000008082; 0x800000000000808A;
   0x8000000080008000; 0x000000000000808B; 0x0000000080000001;
   0x8000000080008081; 0x8000000000008009; 0x000000000000008A;
   0x0000000000000088; 0x0000000080008009; 0x000000008000000A;
   0x000000008000808B; 0x800000000000008B; 0x8000000000008089;
   0x8000000000008003; 0x8000000000008002; 0x8000000000000080;
   0x000000000000800A; 0x800000008000000A; 0x8000000080008081;
   0x8000000000008080; 0x0000000080000001; 0x8000000080008008].

Definition theta (st : list Z) : list Z :=
  let C x := fold_left Z.lxor (map (lane st x) [0; 1; 2; 3; 4]) 0 in
  let D x := Z.lxor (C (x + 4)) (rotl64 (C (x + 1)) 1) in
  map (fun '(x, y) => Z.lxor (lane st x y) (D x)) coords.

Definition rho_pi (st : list Z) : list Z :=
  map (fun '(X, Y) =>
         let x := (X + 3 * Y) mod 5 in
         rotl64 (lane st x X) (lane rotation_offsets x X)) coords.

Definition chi (st : list Z) : list Z :=
  map (fun '(x, y) =>
         Z.lxor (lane st x y)
                (Z.land (Z.lxor (lane st (x + 1) y) mask64) (lane st (x + 2) y)))
      coords.

Definition iota (rc : Z) (st : list Z) : list Z :=
  match st with
  | [] => []
  | a :: rest => Z.lxor a rc :: rest
  end.

Definition keccak_round (st : list Z) (rc : Z) : list Z :=
  iota rc (chi (rho_pi (theta st))).

Definition keccak_f (st : list Z) : list Z :=
  fold_left keccak_round round_constants st.

Definition rate : nat := 136.

Fixpoint le_val (bs : list Z) : Z :=
  match bs with
  | [] => 0
  | b :: rest => b + 256 * le_val rest
  end.

Fixpoint le_bytes (n : nat) (z : Z) : list Z :=
  match n with
  | O => []
  | S n' => (z mod 256) :: le_bytes n' (z / 256)
  end.

Fixpoint lanes_of_block (n : nat) (bs : list Z) : list Z :=
  match n with
  | O => []
  | S n' => le_val (firstn 8 bs) :: lanes_of_block n' (skipn 8 bs)
  end.

Fixpoint xor_into (st block : list Z) : list Z :=
  match st, block with
  | x :: st', y :: block' => Z.lxor x y :: xor_into st' block'
  | _, [] => st
  | [], _ => []
  end.

Definition pad (msg : list Z) : list Z :=
  let q := (rate - (List.length msg mod rate))%nat in
  match q with
  | 1%nat => msg ++ [0x81]
  | _ => msg ++ [0x01] ++ repeat 0 (q - 2) ++ [0x80]
  end%list.

Fixpoint absorb (fuel : nat) (st : list Z) (bs : list Z) : list Z :=
  match fuel with
  | O => st
  | S fuel' =>
      match bs with
      | [] => st
      | _ => absorb fuel'
                    (keccak_f (xor_into st (lanes_of_block 17 (firstn rate bs))))
                    (skipn rate bs)
      end
  end.

Definition keccak256 (msg : Py.bytes) : Py.bytes :=
  let p := pad msg in
  let st := absorb (S (List.length p / rate)) (repeat 0 25%nat) p in
  firstn 32 (flat_map (le_bytes 8) st).

End Keccak.

(* ================================================================== *)
(** * eth_utils: hex strings and addresses *)
(* ================================================================== *)

Module EthUtils.
Import Py.

Definition is_hex_char (c : ascii) : bool :=
  match digit_val 16 c with Some _ => true | None => false end.

(** [remove_0x_prefix]: drops a leading [0x] or [0X]. *)
Definition remove_0x_prefix (l : list ascii) : list ascii :=
  match l with
  | z :: x :: r =>
      if Ascii.eqb z "0" && (Ascii.eqb x "x" || Ascii.eqb x "X") then r else l
  | _ => l
  end.

Definition is_0x_prefixed (l : list ascii) : bool :=
  match l with
  | z :: x :: _ => Ascii.eqb z "0" && (Ascii.eqb x "x" || Ascii.eqb x "X")
  | _ => false
  end.

(** [add_0x_prefix]. *)
Definition add_0x_prefix (s : string) : string :=
  if is_0x_prefixed (chars s) then s else "0x" ++ s.

(** [is_hexstr]: text that is not empty, an optional prefix followed by
    hex digits only. *)
Definition is_hexstr (s : string) : bool :=
  negb (String.eqb s "") && forallb is_hex_char (remove_0x_prefix (chars s)).

(** [is_hex_address]: an optional prefix and exactly 40 hex digits. *)
Definition is_hex_address (s : string) : bool :=
  let u := remove_0x_prefix (chars s) in
  forallb is_hex_char u && (List.length u =? 40)%nat.

(** [is_address] on text: a hex address, whatever the case of its
    letters. *)
Definition is_address (s : string) : bool := is_hex_address s.

(** [to_normalized_address]: [0x] and the 40 digits in lower case.  Text
    that is not a hex string is refused by [hexstr_if_str], a hex string
    of another length after it has been normalised. *)
Definition to_normalized_address (s : string) : Exc string :=
  if negb (is_nil (remove_0x_prefix (chars s))) && negb (is_hexstr s)
  then Raise (Exn ValueError
         ("when sending a str, it must be a hex string. Got: " ++ repr s))
  else
    let hex_address := lower (add_0x_prefix (lower s)) in
    if is_address hex_address then Return hex_address
    else Raise (Exn ValueError
           ("Unknown format " ++ repr s ++ ", attempted to normalize to "
            ++ repr hex_address)).

(** One character of the EIP-55 rendering: upper case where the matching
    nibble of the hash exceeds 7. *)
Definition checksum_char (c h : ascii) : ascii :=
  match digit_val 16 h with
  | Some d => if 7 <? d then upper_char c else c
  | None => c
  end.

Fixpoint checksum_chars (body hash : list ascii) : list ascii :=
  match body, hash with
  | c :: body', h :: hash' => checksum_char c h :: checksum_chars body' hash'
  | _, _ => []
  end.

(** The EIP-55 rendering of 40 lower-case hex digits. *)
Definition checksum_encode (body : list ascii) : string :=
  String "0" (String "x"
    (str_of_chars
       (checksum_chars body (hex_chars (Keccak.keccak256 (map code body)))))).

(** [to_checksum_address]. *)
Definition to_checksum_address (s : string) : Exc string :=
  norm_address <- to_normalized_address s ;;
  Return (checksum_encode (remove_0x_prefix (chars norm_address))).

(** Bytes of an even-length hex digit string. *)
Fixpoint unhexlify (l : list ascii) : option bytes :=
  match l with
  | [] => Some []
  | a :: b :: r =>
      match digit_val 16 a, digit_val 16 b, unhexlify r with
      | Some x, Some y, Some bs => Some (16 * x + y :: bs)
      | _, _, _ => None
      end
  | _ => None
  end.

(** [to_canonical_address]: the 20 bytes of the normalised address. *)
Definition to_canonical_address (s : string) : Exc bytes :=
  norm_address <- to_normalized_address s ;;
  match unhexlify (remove_0x_prefix (chars norm_address)) with
  | Some bs => Return bs
  | None => Raise (Exn BinasciiError "Non-hexadecimal digit found")
  end.

(** [to_bytes(hexstr=s)]: an odd number of digits gets a leading zero. *)
Definition to_bytes_hexstr (s : string) : option bytes :=
  let u := remove_0x_prefix (chars s) in
  if Nat.even (List.length (chars s)) then unhexlify u
  else unhexlify ("0"%char :: u).

End EthUtils.

(* ================================================================== *)
(** * protocol.py: the wire data model *)
(* ================================================================== *)

Module Protocol.
Import Py.

(** [PaymentScheme.EXACT]. *)
Definition EXACT : string := "exact".

Definition X402_VERSION : Z := 1.
Definition X_PAYMENT_HEADER : string := "X-PAYMENT".
Definition X_PAYMENT_RESPONSE_HEADER : string := "X-PAYMENT-RESPONSE".

Record PaymentRequirements : Type := {
  scheme : string;
  network : string;
  maxAmountRequired : string;
  resource : string;
  description : string;
  mimeType : string;
  outputSchema : option dict;
  payTo : string;
  maxTimeoutSeconds : Z;
  asset : string;
  extra : option dict
}.

Record ExactPaymentPayload : Type := {
  from_ : string;
  to : string;
  value : string;
  validAfter : string;
  validBefore : string;
  nonce : string;
  v : Z;
  r : string;
  s : string
}.

Record PaymentPayload : Type := {
  p_x402Version : Z;
  p_scheme : string;
  p_network : string;
  payload : dict
}.

Record SettlementResponse : Type := {
  success : bool;
  error : option string;
  txHash : option string;
  networkId : option string
}.

Definition validation_error (model field : string) : exn :=
  Exn ValidationError ("1 validation error for " ++ model ++ ": " ++ field).

Section Validation.
(** Pydantic's conversion of a value that is not an [int] for an [int]
    field (numeric strings, booleans, whole floats). *)
Variable lax_int : pyval -> Exc Z.

(** A required [str] field: the input must be a string. *)
Definition str_field (model : string) (d : dict) (key : string) : Exc string :=
  match dict_get d key with
  | Some (PyStr x) => Return x
  | _ => Raise (validation_error model key)
  end.

(** A required [int] field. *)
Definition int_field (model : string) (d : dict) (key : string) : Exc Z :=
  match dict_get d key with
  | Some (PyInt z) => Return z
  | Some x => lax_int x
  | None => Raise (validation_error model key)
  end.

(** [ExactPaymentPayload] built from the keyword dict [d]: nine required fields, [from_] filled
    from the key [from]; keys the model does not declare are ignored. *)
Definition ExactPaymentPayload_init (d : dict) : Exc ExactPaymentPayload :=
  let m := "ExactPaymentPayload" in
  f <- str_field m d "from" ;;
  t <- str_field m d "to" ;;
  val <- str_field m d "value" ;;
  va <- str_field m d "validAfter" ;;
  vb <- str_field m d "validBefore" ;;
  n <- str_field m d "nonce" ;;
  v0 <- int_field m d "v" ;;
  r0 <- str_field m d "r" ;;
  s0 <- str_field m d "s" ;;
  Return {| from_ := f; to := t; value := val; validAfter := va;
            validBefore := vb; nonce := n; v := v0; r := r0; s := s0 |}.
End Validation.

(** [exact_payload.model_dump(by_alias=True)]. *)
Definition ExactPaymentPayload_dump (p : ExactPaymentPayload) : dict :=
  [("from", PyStr (from_ p)); ("to", PyStr (to p)); ("value", PyStr (value p));
   ("validAfter", PyStr (validAfter p)); ("validBefore", PyStr (validBefore p));
   ("nonce", PyStr (nonce p)); ("v", PyInt (v p)); ("r", PyStr (r p));
   ("s", PyStr (s p))].

End Protocol.

(* ================================================================== *)
(** * eth_account: EIP-712 typed data and signer recovery *)
(* ================================================================== *)

Module EthAccount.
Import Py EthUtils.

Definition field : Type := (string * string)%type.   (* name, type *)
Definition types_table : Type := list (string * list field).

(** The [full_message] argument of [encode_typed_data]. *)
Record typed_data : Type := {
  types : types_table;
  primaryType : string;
  domain : dict;
  message : dict
}.

Record SignableMessage : Type := {
  version : bytes;
  header : bytes;
  body : bytes
}.

Definition encoding_error (msg : string) : exn := Exn OtherError msg.

(** The error of an [eth_abi] encoder for a value it does not take. *)
Definition not_encodable (shown type_name encoder msg : string) : exn :=
  encoding_error ("Value `" ++ shown ++ "` of type <class '" ++ type_name
                  ++ "'> cannot be encoded by " ++ encoder ++ msg).

Fixpoint join_fields (fs : list field) : string :=
  match fs with
  | [] => ""
  | [(n, t)] => t ++ " " ++ n
  | (n, t) :: rest => t ++ " " ++ n ++ "," ++ join_fields rest
  end.

(** [encode_type] for a struct whose members are all atomic. *)
Definition encode_type (name : string) (fs : list field) : string :=
  name ++ "(" ++ join_fields fs ++ ")".

Definition hash_type (name : string) (fs : list field) : bytes :=
  Keccak.keccak256 (bytes_of_str (encode_type name fs)).

Definition zeros (n : nat) : bytes := repeat 0 n.

Definition pad_right32 (bs : bytes) : bytes :=
  (bs ++ zeros (32 - List.length bs))%list.

(** The bytes a string stands for under a [bytesN] member: the digits of
    a [0x]-prefixed hex string, the text itself otherwise. *)
Definition bytes_value (t : string) : option bytes :=
  if is_0x_prefixed (chars t) && is_hexstr t
  then to_bytes_hexstr t
  else Some (bytes_of_str t).

Section Encode.
(** Encoding of a value whose Python type is not the usual one for the
    member type (a non-string under [string], ...), and of member types
    other than the four used here. *)
Variable encode_other : string -> pyval -> Exc bytes.

(** The 32-byte word of one struct member. *)
Definition encode_field (name type_ : string) (value : option pyval) : Exc bytes :=
  match value with
  | None | Some PyNone =>
      if String.eqb type_ "string" || String.eqb type_ "bytes"
      then Return (zeros 32)
      else Raise (Exn ValueError
             ("Missing value for field `" ++ name ++ "` of type `" ++ type_ ++ "`"))
  | Some x =>
      if String.eqb type_ "string" then
        match x with
        | PyStr t => Return (Keccak.keccak256 (bytes_of_str t))
        | _ => encode_other type_ x
        end
      else if String.eqb type_ "uint256" then
        match x with
        | PyInt z =>
            if (0 <=? z) && (z <? 2 ^ 256) then Return (be_bytes 32 z)
            else
              shown <- format_int z ;;
              Raise (not_encodable shown "int" "UnsignedIntegerEncoder"
                       (": Cannot be encoded in 256 bits. Must be bounded between [0, "
                        ++ Py.str (2 ^ 256 - 1) ++ "]."))
        | _ => encode_other type_ x
        end
      else if String.eqb type_ "address" then
        match x with
        | PyStr t =>
            if is_address t then
              bs <- to_canonical_address t ;;
              Return (zeros 12 ++ bs)%list
            else Raise (not_encodable (repr t) "str" "AddressEncoder" "")
        | _ => encode_other type_ x
        end
      else if String.eqb type_ "bytes32" then
        match x with
        | PyStr t =>
            match bytes_value t with
            | Some bs =>
                if (List.length bs <=? 32)%nat then Return (pad_right32 bs)
                else Raise (not_encodable (repr_bytes bs) "bytes" "BytesEncoder"
                              ": exceeds total byte size for bytes32 encoding")
            | None => Raise (Exn BinasciiError "Non-hexadecimal digit found")
            end
        | _ => encode_other type_ x
        end
      else encode_other type_ x
  end.

Fixpoint encode_fields (fs : list field) (data : dict) : Exc bytes :=
  match fs with
  | [] => Return []
  | (n, t) :: rest =>
      w <- encode_field n t (dict_get data n) ;;
      ws <- encode_fields rest data ;;
      Return (w ++ ws)%list
  end.

(** [hash_struct]: [keccak(typeHash || members)]. *)
Definition hash_struct (name : string) (fs : list field) (data : dict) : Exc bytes :=
  ws <- encode_fields fs data ;;
  Return (Keccak.keccak256 (hash_type name fs ++ ws)%list).

Definition eip712_domain_map : list field :=
  [("name", "string"); ("version", "string"); ("chainId", "uint256");
   ("verifyingContract", "address"); ("salt", "bytes32")].

Definition has_key (d : dict) (k : string) : bool :=
  match dict_get d k with Some _ => true | None => false end.

Definition mem_str (k : string) (l : list string) : bool :=
  existsb (String.eqb k) l.

(** [hash_domain]: the domain type is made of the standard members for
    which the domain data has a key, in the standard order. *)
Definition hash_domain (d : dict) : Exc bytes :=
  if forallb (fun kv => mem_str (fst kv) (map fst eip712_domain_map)) d
  then hash_struct "EIP712Domain"
                   (filter (fun f => has_key d (fst f)) eip712_domain_map) d
  else Raise (Exn ValueError "Invalid domain key").

Definition remove_type (name : string) (t : types_table) : types_table :=
  filter (fun e => negb (String.eqb (fst e) name)) t.

Fixpoint lookup_type (t : types_table) (name : string) : option (list field) :=
  match t with
  | [] => None
  | (k, fs) :: rest => if String.eqb k name then Some fs else lookup_type rest name
  end.

(** [get_primary_type]: the one type no other type refers to. *)
Definition is_dependency (t : types_table) (name : string) : bool :=
  existsb (fun e => negb (String.eqb (fst e) name) &&
                    existsb (fun f => String.eqb (snd f) name) (snd e)) t.

Definition get_primary_type (t : types_table) : Exc string :=
  match filter (fun e => negb (is_dependency t (fst e))) t with
  | [(name, _)] => Return name
  | _ => Raise (Exn ValueError "Unable to determine primary type")
  end.

Definition same_keys (a b : list string) : bool :=
  forallb (fun k => mem_str k b) a && forallb (fun k => mem_str k a) b.

(** [encode_typed_data(full_message=td)]. *)
Definition encode_typed_data (td : typed_data) : Exc SignableMessage :=
  let domain_ok :=
    match lookup_type (types td) "EIP712Domain" with
    | Some fs => same_keys (map fst (domain td)) (map fst fs)
    | None => true
    end in
  if negb domain_ok
  then Raise (Exn OtherError "The fields provided in `domain` do not match `types.EIP712Domain`")
  else
    let t := remove_type "EIP712Domain" (types td) in
    derived <- get_primary_type t ;;
    if negb (String.eqb derived (primaryType td))
    then Raise (Exn OtherError "The provided `primaryType` does not match the derived one")
    else
      h <- hash_domain (domain td) ;;
      fs <- match lookup_type t derived with
            | Some fs => Return fs
            | None => Raise (Exn OtherError "KeyError")
            end ;;
      b <- hash_struct derived fs (message td) ;;
      Return {| version := [1]; header := h; body := b |}.
End Encode.

(** [_hash_eip191_message]: [keccak(0x19 || version || header || body)]. *)
Definition hash_eip191_message (m : SignableMessage) : bytes :=
  Keccak.keccak256 ([0x19] ++ version m ++ header m ++ body m)%list.

(** [to_standard_v] with [extract_chain_id]: 0 and 1 are taken as they
    are, 27 and 28 lose the offset, 35 and above keep their parity. *)
Definition to_standard_v (raw_v : Z) : Exc Z :=
  if raw_v - 35 <? 0 then
    if (raw_v =? 0) || (raw_v =? 1) then Return raw_v
    else if (raw_v =? 27) || (raw_v =? 28) then Return (raw_v - 27)
    else
      shown <- format_int raw_v ;;
      Raise (Exn ValueError ("v " ++ shown ++ " is invalid, must be one of: 0, 1, 27, 28, 35+"))
  else Return ((raw_v - 35) mod 2).

(** The address of a public key: the last 20 bytes of its hash, EIP-55. *)
Definition address_of_pubkey (pub : bytes) : string :=
  checksum_encode (hex_chars (skipn 12 (Keccak.keccak256 pub))).

Section Recover.
(** The curve backend: public key (64 bytes) recovered from a 32-byte
    hash and a signature [(v, r, s)] with [v] in standard form. *)
Variable ecdsa_recover : bytes -> Z -> Z -> Z -> Exc bytes.

(** [Account.recover_message(m, signature=sig)]. *)
Definition recover_message (m : SignableMessage) (sig : bytes) : Exc string :=
  let hash := hash_eip191_message m in
  let rs := removelast sig in
  v_std <- to_standard_v (last sig 0) ;;
  if negb (List.length (rs ++ [v_std])%list =? 65)%nat
  then Raise (Exn OtherError "Unexpected recoverable signature length")
  else
    pub <- ecdsa_recover hash v_std (be_val 0 (firstn 32 rs))
                         (be_val 0 (firstn 32 (skipn 32 rs))) ;;
    Return (address_of_pubkey pub).
End Recover.

End EthAccount.

(* ================================================================== *)
(** * The outside world of the verifier and the client *)
(* ================================================================== *)

(** What the code calls outside the repository and cannot compute by
    itself: the header codecs, the chain tip behind the RPC handle, and
    the elliptic-curve backend. *)
Record World : Type := {
  (** [base64.b64decode]. *)
  b64decode : string -> Exc Py.bytes;
  (** [PaymentPayload.model_validate_json]. *)
  model_validate_json : Py.bytes -> Exc Protocol.PaymentPayload;
  (** Pydantic's lax conversion to [int] of a value that is not one. *)
  lax_int : Py.pyval -> Exc Z;
  (** [web3.eth.get_block('latest')['timestamp']]. *)
  get_block_timestamp : Exc Z;
  (** See [EthAccount.encode_field]. *)
  encode_other : string -> Py.pyval -> Exc Py.bytes;
  (** See [EthAccount.recover_message]. *)
  ecdsa_recover : Py.bytes -> Z -> Z -> Z -> Exc Py.bytes
}.

(** The two type tables that both [client.py] and [verification.py]
    write out literally. *)
Definition domain_fields : list EthAccount.field :=
  [("name", "string"); ("version", "string"); ("chainId", "uint256");
   ("verifyingContract", "address")].

Definition transfer_fields : list EthAccount.field :=
  [("from", "address"); ("to", "address"); ("value", "uint256");
   ("validAfter", "uint256"); ("validBefore", "uint256");
   ("nonce", "bytes32")].

Definition message_types : EthAccount.types_table :=
  [("EIP712Domain", domain_fields);
   ("TransferWithAuthorization", transfer_fields)].

(** [None] prints as [None] in an f-string. *)
Definition fmt_opt (o : option string) : string :=
  match o with Some x => x | None => "None" end.

(** [extra.get(key)]; a missing key gives [None]. *)
Definition extra_get (d : Py.dict) (key : string) : Py.pyval :=
  match Py.dict_get d key with Some x => x | None => Py.PyNone end.

(** [int(network.split(":")[-1])]. *)
Definition parse_chain_id (network : string) : Exc Z :=
  Py.int (Py.split_last ":" network).

(* ================================================================== *)
(** * verification.py *)
(* ================================================================== *)

(** The two decoding steps that open [verify_payment] and that
    [settle_payment] repeats: base64, then the JSON envelope. *)
Definition decode_header (W : World) (payment_header : string)
  : Exc Protocol.PaymentPayload :=
  payment_data <- b64decode W payment_header ;;
  model_validate_json W payment_data.

Module Verifier.
Import Py Protocol EthUtils EthAccount.

Definition verdict : Type := (bool * option string)%type.

Section PaymentVerifier.
Variable W : World.

(** The typed data rebuilt by the verifier (lines 179-219). *)
Definition typed_data_of (name version : pyval) (chain_id : Z)
           (exact_payload : ExactPaymentPayload)
           (payment_requirements : PaymentRequirements) : Exc typed_data :=
  let domain_data :=
    [("name", name); ("version", version); ("chainId", PyInt chain_id);
     ("verifyingContract", PyStr (asset payment_requirements))] in
  val <- Py.int (value exact_payload) ;;
  va <- Py.int (validAfter exact_payload) ;;
  vb <- Py.int (validBefore exact_payload) ;;
  let message_data :=
    [("from", PyStr (from_ exact_payload)); ("to", PyStr (to exact_payload));
     ("value", PyInt val); ("validAfter", PyInt va); ("validBefore", PyInt vb);
     ("nonce", PyStr (nonce exact_payload))] in
  Return {| types := message_types;
            primaryType := "TransferWithAuthorization";
            domain := domain_data;
            message := message_data |}.

(** The 65 signature bytes [r || s || v] (lines 226-232). *)
Definition signature_bytes_of (exact_payload : ExactPaymentPayload) : Exc bytes :=
  let v0 := v exact_payload in
  r0 <- Py.int16 (r exact_payload) ;;
  s0 <- Py.int16 (s exact_payload) ;;
  rb <- to_bytes_big 32 r0 ;;
  sb <- to_bytes_big 32 s0 ;;
  vb <- bytes_of_int_list1 v0 ;;
  Return (rb ++ sb ++ vb)%list.

Definition _verify_eip3009_signature (exact_payload : ExactPaymentPayload)
           (payment_requirements : PaymentRequirements)
           (from_address : string) : Exc verdict :=
  try_except
    (match extra payment_requirements with
     | None | Some [] =>
         Return (false, Some "Missing EIP-712 domain parameters in extra")
     | Some ex =>
         let name := extra_get ex "name" in
         let version := extra_get ex "version" in
         if negb (truthy name) || negb (truthy version)
         then Return (false, Some "Missing name or version in extra")
         else
           match parse_chain_id (network payment_requirements) with
           | Raise e =>
               if is_ValueError (exn_cls e) || exn_class_eqb (exn_cls e) IndexError
               then Return (false, Some ("Invalid network format: "
                                           ++ network payment_requirements))
               else Raise e
           | Return chain_id =>
               td <- typed_data_of name version chain_id exact_payload
                                   payment_requirements ;;
               encoded_data <- encode_typed_data (encode_other W) td ;;
               signature_bytes <- signature_bytes_of exact_payload ;;
               recovered_address <- recover_message (ecdsa_recover W)
                                                    encoded_data signature_bytes ;;
               if negb (String.eqb (lower recovered_address) (lower from_address))
               then Return (false, Some ("Signature verification failed: recovered "
                                           ++ recovered_address ++ ", expected "
                                           ++ from_address))
               else Return (true, None)
           end
     end)
    is_Exception
    (fun e => Return (false, Some ("Signature verification error: " ++ exn_str e))).

(** The two timestamp tests of lines 123-127: the reason for a
    rejection, or nothing when the window holds the current time. *)
Definition check_time_window (current_time valid_after valid_before : Z)
  : Exc (option string) :=
  if current_time <? valid_after
  then
    now <- format_int current_time ;;
    bound <- format_int valid_after ;;
    Return (Some ("Payment not yet valid: current time "
                    ++ now ++ " < validAfter " ++ bound))
  else if current_time >? valid_before
  then
    now <- format_int current_time ;;
    bound <- format_int valid_before ;;
    Return (Some ("Payment expired: current time "
                    ++ now ++ " > validBefore " ++ bound))
  else Return None.

(** The three checksum conversions of lines 103-108, under their own
    [except ValueError]. *)
Definition checksum_addresses (exact_payload : ExactPaymentPayload)
           (payment_requirements : PaymentRequirements)
  : Exc (string * string * string) :=
  from_address <- to_checksum_address (from_ exact_payload) ;;
  to_address <- to_checksum_address (to exact_payload) ;;
  required_to_address <- to_checksum_address (payTo payment_requirements) ;;
  Return (from_address, to_address, required_to_address).

Definition _verify_exact_scheme (payment_payload : PaymentPayload)
           (payment_requirements : PaymentRequirements) : Exc verdict :=
  try_except
    (exact_payload <- ExactPaymentPayload_init (lax_int W) (payload payment_payload) ;;
     match checksum_addresses exact_payload payment_requirements with
     | Raise e =>
         if is_ValueError (exn_cls e)
         then Return (false, Some ("Invalid address format: " ++ exn_str e))
         else Raise e
     | Return (from_address, to_address, required_to_address) =>
         if negb (String.eqb to_address required_to_address)
         then Return (false, Some ("Recipient mismatch: expected "
                                     ++ required_to_address ++ ", got " ++ to_address))
         else if negb (String.eqb (value exact_payload)
                                  (maxAmountRequired payment_requirements))
         then Return (false, Some ("Amount mismatch: expected "
                                     ++ maxAmountRequired payment_requirements
                                     ++ ", got " ++ value exact_payload))
         else
           current_time <- get_block_timestamp W ;;
           valid_after <- Py.int (validAfter exact_payload) ;;
           valid_before <- Py.int (validBefore exact_payload) ;;
           window <- check_time_window current_time valid_after valid_before ;;
           match window with
           | Some reason => Return (false, Some reason)
           | None =>
               '(is_valid_sig, sig_error) <-
                  _verify_eip3009_signature exact_payload payment_requirements
                                            from_address ;;
               if negb is_valid_sig then Return (false, sig_error)
               else Return (true, None)
           end
     end)
    is_Exception
    (fun e => Return (false, Some ("Exact scheme verification error: " ++ exn_str e))).

Definition verify_payment (payment_header : string)
           (payment_requirements : PaymentRequirements) : Exc verdict :=
  try_clauses
    (payment_payload <- decode_header W payment_header ;;
     if negb (p_x402Version payment_payload =? 1)
     then
       shown <- format_int (p_x402Version payment_payload) ;;
       Return (false, Some ("Unsupported protocol version: " ++ shown))
     else if negb (String.eqb (p_scheme payment_payload)
                              (scheme payment_requirements))
     then Return (false, Some ("Scheme mismatch: expected "
                                 ++ scheme payment_requirements ++ ", got "
                                 ++ p_scheme payment_payload))
     else if negb (String.eqb (p_network payment_payload)
                              (network payment_requirements))
     then Return (false, Some ("Network mismatch: expected "
                                 ++ network payment_requirements ++ ", got "
                                 ++ p_network payment_payload))
     else if String.eqb (p_scheme payment_payload) EXACT
     then _verify_exact_scheme payment_payload payment_requirements
     else Return (false, Some ("Unsupported payment scheme: "
                                 ++ p_scheme payment_payload)))
    [ (fun c => exn_class_eqb c JSONDecodeError,
       fun e => Return (false, Some ("Invalid JSON in payment header: " ++ exn_str e)));
      (fun c => exn_class_eqb c BinasciiError,
       fun e => Return (false, Some ("Invalid base64 encoding: " ++ exn_str e)));
      (is_Exception,
       fun e => Return (false, Some ("Verification error: " ++ exn_str e))) ].
End PaymentVerifier.

End Verifier.

(* ================================================================== *)
(** * client.py *)
(* ================================================================== *)

Module Client.
Import Py Protocol EthUtils EthAccount.

(** The state and surroundings of one [X402Client] call. *)
Record ClientEnv : Type := {
  (** [self.account.address]. *)
  account_address : string;
  (** The key backend: [(v_raw, r, s)] for a 32-byte hash, [v_raw] 0 or 1. *)
  sign_msg_hash : bytes -> Z * Z * Z;
  (** The reference time: the chain tip's timestamp or [int(time.time())]. *)
  current_time : Z;
  (** [secrets.token_hex(32)]. *)
  token_hex32 : string;
  (** [base64.b64encode(payment_payload.model_dump_json().encode()).decode()]. *)
  dump_header : PaymentPayload -> string
}.

Section X402Client.
Variable W : World.
Variable C : ClientEnv.

(** [self.account.sign_message(m)]: Ethereum's [v] is the raw one plus 27. *)
Definition sign_message (m : SignableMessage) : Z * Z * Z :=
  let '(v_raw, r0, s0) := sign_msg_hash C (hash_eip191_message m) in
  (v_raw + 27, r0, s0).

(** The typed data built by the client (lines 170-216). *)
Definition typed_data_of (name version : pyval) (chain_id : Z)
           (from_address to_address verifying_contract nonce0 : string)
           (valid_after valid_before : Z)
           (payment_requirements : PaymentRequirements) : Exc typed_data :=
  let domain_data :=
    [("name", name); ("version", version); ("chainId", PyInt chain_id);
     ("verifyingContract", PyStr verifying_contract)] in
  val <- Py.int (maxAmountRequired payment_requirements) ;;
  let message_data :=
    [("from", PyStr from_address); ("to", PyStr to_address);
     ("value", PyInt val); ("validAfter", PyInt valid_after);
     ("validBefore", PyInt valid_before); ("nonce", PyStr nonce0)] in
  Return {| types := message_types;
            primaryType := "TransferWithAuthorization";
            domain := domain_data;
            message := message_data |}.

(** Lines 140-244 of [_create_exact_payment]: the signed message and the
    envelope about to be serialised. *)
Definition exact_payment_parts (payment_requirements : PaymentRequirements)
           (valid_duration : Z) : Exc (SignableMessage * PaymentPayload) :=
  let nonce0 := "0x" ++ token_hex32 C in
  let valid_after := current_time C - 10 in
  let valid_before := current_time C + valid_duration in
  match extra payment_requirements with
  | None | Some [] =>
      Raise (Exn ValueError "Missing EIP-712 domain parameters in extra")
  | Some ex =>
      let name := extra_get ex "name" in
      let version := extra_get ex "version" in
      if negb (truthy name) || negb (truthy version)
      then Raise (Exn ValueError "Missing name or version in extra")
      else
        chain_id <-
          try_except (parse_chain_id (network payment_requirements))
            (fun c => is_ValueError c || exn_class_eqb c IndexError)
            (fun _ => Raise (Exn ValueError ("Invalid network format: "
                                               ++ network payment_requirements))) ;;
        from_address <- to_checksum_address (account_address C) ;;
        to_address <- to_checksum_address (payTo payment_requirements) ;;
        verifying_contract <- to_checksum_address (asset payment_requirements) ;;
        td <- typed_data_of name version chain_id from_address to_address
                            verifying_contract nonce0 valid_after valid_before
                            payment_requirements ;;
        encoded_data <- encode_typed_data (encode_other W) td ;;
        let '(v0, r0, s0) := sign_message encoded_data in
        valid_after_text <- format_int valid_after ;;
        valid_before_text <- format_int valid_before ;;
        rb <- to_bytes_big 32 r0 ;;
        sb <- to_bytes_big 32 s0 ;;
        exact_payload <-
          ExactPaymentPayload_init (lax_int W)
            [("from", PyStr from_address); ("to", PyStr to_address);
             ("value", PyStr (maxAmountRequired payment_requirements));
             ("validAfter", PyStr valid_after_text);
             ("validBefore", PyStr valid_before_text);
             ("nonce", PyStr nonce0); ("v", PyInt v0);
             ("r", PyStr ("0x" ++ hex rb)); ("s", PyStr ("0x" ++ hex sb))] ;;
        Return (encoded_data,
                {| p_x402Version := 1;
                   p_scheme := scheme payment_requirements;
                   p_network := network payment_requirements;
                   payload := ExactPaymentPayload_dump exact_payload |})
  end.

Definition _create_exact_payment (payment_requirements : PaymentRequirements)
           (valid_duration : Z) : Exc string :=
  '(_, payment_payload) <- exact_payment_parts payment_requirements valid_duration ;;
  Return (dump_header C payment_payload).

Definition create_payment (payment_requirements : PaymentRequirements)
           (valid_duration : Z) : Exc string :=
  if String.eqb (scheme payment_requirements) "exact"
  then _create_exact_payment payment_requirements valid_duration
  else Raise (Exn ValueError ("Unsupported payment scheme: "
                                ++ scheme payment_requirements)).
End X402Client.

End Client.

(* ================================================================== *)
(** * facilitator_server.py: POST /settle *)
(* ================================================================== *)

Module Facilitator.
Import Py Protocol.

(** What an endpoint hands back to the web framework: a body served with
    status 200, or an [HTTPException]. *)
Inductive endpoint_result (A : Type) : Type :=
| Ok200 (body : A)
| HTTPException (status_code : Z) (detail : string).
Arguments Ok200 {A} body.
Arguments HTTPException {A} status_code detail.

(** Calls made on the two service objects, in order. *)
Inductive call : Type :=
| CallVerify (payment_header : string)
| CallSettle (payment_payload : PaymentPayload).

(** [PaymentSettler.settle_payment(payload, requirements,
    wait_for_confirmation, timeout)]: builds and sends the transaction. *)
Definition settler : Type :=
  PaymentPayload -> PaymentRequirements -> bool -> Z ->
  Exc (bool * option string * option string).

(** The module globals set at startup. *)
Record Services : Type := {
  payment_verifier : option World;
  payment_settler : option settler
}.

Record SettlementRequest : Type := {
  x402Version : Z;
  paymentHeader : string;
  paymentRequirements : PaymentRequirements
}.

(** The [try] body of [settle_payment], with the calls it makes.  An
    [HTTPException] raised inside is an exception like any other. *)
Definition settle_body (sv : Services) (request : SettlementRequest)
  : Exc SettlementResponse * list call :=
  match payment_verifier sv, payment_settler sv with
  | Some W, Some settle =>
      let hdr := paymentHeader request in
      let req := paymentRequirements request in
      match Verifier.verify_payment W hdr req with
      | Raise e => (Raise e, [CallVerify hdr])
      | Return (is_valid, err) =>
          if negb is_valid
          then (Return {| success := false;
                          error := Some ("Verification failed: " ++ fmt_opt err);
                          txHash := None;
                          networkId := None |},
                [CallVerify hdr])
          else
            match decode_header W hdr with
            | Raise e => (Raise e, [CallVerify hdr])
            | Return payment_payload =>
                ('(ok, err', tx_hash) <- settle payment_payload req true 120 ;;
                 Return {| success := ok;
                           error := err';
                           txHash := tx_hash;
                           networkId := if ok then Some (network req) else None |},
                 [CallVerify hdr; CallSettle payment_payload])
            end
      end
  | _, _ => (Raise (Exn OtherError "503: Services not initialized"), [])
  end.

(** [settle_payment]: any exception becomes a 500. *)
Definition settle_payment (sv : Services) (request : SettlementRequest)
  : endpoint_result SettlementResponse * list call :=
  let '(res, calls) := settle_body sv request in
  (match res with
   | Return resp => Ok200 resp
   | Raise e => HTTPException 500 ("Settlement failed: " ++ exn_str e)
   end, calls).

End Facilitator.

(* ================================================================== *)
(** * Python floats (IEEE 754 binary64) *)
(* ================================================================== *)

Module PyFloat.
Import Py.

Definition prec : Z := 53.
Definition emax : Z := 1024.

Definition is_digit (c : ascii) : bool := (48 <=? code c) && (code c <=? 57).

(** Underscores are accepted between two digits only. *)
Fixpoint strip_underscores (prev_digit : bool) (l : list ascii) : option (list ascii) :=
  match l with
  | [] => Some []
  | c :: rest =>
      if Ascii.eqb c "_" then
        if prev_digit && match rest with d :: _ => is_digit d | [] => false end
        then strip_underscores false rest
        else None
      else option_map (cons c) (strip_underscores (is_digit c) rest)
  end.

Fixpoint span_digits (l : list ascii) : list ascii * list ascii :=
  match l with
  | c :: rest =>
      if is_digit c then let '(ds, tl) := span_digits rest in (c :: ds, tl)
      else ([], l)
  | [] => ([], [])
  end.

Definition digits_val (ds : list ascii) : Z :=
  fold_left (fun acc c => acc * 10 + (code c - 48)) ds 0.

(** The double nearest to [n * 10 ^ e10] (ties to even), [n >= 0]. *)
Definition of_decimal (neg : bool) (n e10 : Z) : spec_float :=
  if n =? 0 then S754_zero neg
  else if 0 <=? e10
  then binary_normalize prec emax (apply_sign neg (n * 10 ^ e10)) 0 neg
  else
    let d := 10 ^ (- e10) in
    let shift := Z.max 0 (64 + Z.log2 d - Z.log2 n) in
    let q := (n * 2 ^ shift) / d in
    let sticky := if (n * 2 ^ shift) mod d =? 0 then 0 else 1 in
    binary_normalize prec emax (apply_sign neg (2 * q + sticky)) (- shift - 1) neg.

Definition lower_chars (l : list ascii) : list ascii := map lower_char l.

Definition chars_eqb (a : list ascii) (b : string) : bool :=
  String.eqb (str_of_chars a) b.

Definition parse (l : list ascii) : option spec_float :=
  let '(neg, l1) := split_sign l in
  if chars_eqb (lower_chars l1) "inf" || chars_eqb (lower_chars l1) "infinity"
  then Some (S754_infinity neg)
  else if chars_eqb (lower_chars l1) "nan" then Some S754_nan
  else
    let '(ip, l2) := span_digits l1 in
    let '(fp, l3) := match l2 with
                     | c :: rest => if Ascii.eqb c "." then span_digits rest
                                    else ([], l2)
                     | [] => ([], [])
                     end in
    match (ip ++ fp)%list with
    | [] => None
    | ds =>
        let frac_len := Z.of_nat (List.length fp) in
        match l3 with
        | [] => Some (of_decimal neg (digits_val ds) (- frac_len))
        | c :: rest =>
            if Ascii.eqb c "e" || Ascii.eqb c "E" then
              let '(eneg, r1) := split_sign rest in
              let '(ed, r2) := span_digits r1 in
              match ed, r2 with
              | _ :: _, [] =>
                  Some (of_decimal neg (digits_val ds)
                                   (apply_sign eneg (digits_val ed) - frac_len))
              | _, _ => None
              end
            else None
        end
    end.

(** [float(s)] for a string. *)
Definition float (s : string) : Exc spec_float :=
  match strip_underscores false (strip (to_ascii_number (chars s))) with
  | Some l =>
      match parse l with
      | Some f => Return f
      | None => Raise (Exn ValueError ("could not convert string to float: " ++ repr s))
      end
  | None => Raise (Exn ValueError ("could not convert string to float: " ++ repr s))
  end.

(** Conversion of an [int] operand in mixed arithmetic. *)
Definition of_int (z : Z) : Exc spec_float :=
  match binary_normalize prec emax z 0 false with
  | S754_infinity _ => Raise (Exn OverflowError "int too large to convert to float")
  | f => Return f
  end.

Definition mul (a b : spec_float) : spec_float := SFmul prec emax a b.

(** [int(f)]: truncation toward zero. *)
Definition to_int (f : spec_float) : Exc Z :=
  match f with
  | S754_zero _ => Return 0
  | S754_finite sg m e =>
      let a := if 0 <=? e then Zpos m * 2 ^ e else Zpos m / 2 ^ (- e) in
      Return (apply_sign sg a)
  | S754_infinity _ => Raise (Exn OverflowError "cannot convert float infinity to integer")
  | S754_nan => Raise (Exn ValueError "cannot convert float NaN to integer")
  end.

End PyFloat.

(* ================================================================== *)
(** * resource_server.py *)
(* ================================================================== *)

Module ResourceServer.
Import Py Protocol.

(** The module-level configuration read from the environment. *)
Record Config : Type := {
  FACILITATOR_URL : string;
  RESOURCE_SERVER_ADDRESS : option string;
  TOKEN_CONTRACT_ADDRESS : option string;
  NETWORK : string;
  CHAIN_ID : string;
  TOKEN_DECIMALS : Z
}.

Record response : Type := {
  status_code : Z;
  body : pyval;
  headers : list (string * string)
}.

(** What a wrapped view returns. *)
Inductive view_result : Type :=
| ViewResponse (resp : response)
| ViewTuple (data : pyval) (status : Z)
| ViewOther (data : pyval).

(** The facilitator's HTTP reply as [requests] presents it. *)
Record reply : Type := {
  reply_status_code : Z;
  reply_text : string;
  reply_json : Exc pyval
}.

Record request : Type := {
  path : string;
  request_headers : list (string * string)
}.

Fixpoint header_get (hs : list (string * string)) (name : string) : option string :=
  match hs with
  | [] => None
  | (k, x) :: rest => if String.eqb k name then Some x else header_get rest name
  end.

Definition opt_str (o : option string) : pyval :=
  match o with Some x => PyStr x | None => PyNone end.

Definition opt_dict (o : option dict) : pyval :=
  match o with Some d => PyDict d | None => PyNone end.

(** [PaymentRequirements.model_dump(by_alias=True)]. *)
Definition requirements_dump (q : PaymentRequirements) : pyval :=
  PyDict [("scheme", PyStr (scheme q)); ("network", PyStr (network q));
          ("maxAmountRequired", PyStr (maxAmountRequired q));
          ("resource", PyStr (resource q)); ("description", PyStr (description q));
          ("mimeType", PyStr (mimeType q)); ("outputSchema", opt_dict (outputSchema q));
          ("payTo", PyStr (payTo q)); ("maxTimeoutSeconds", PyInt (maxTimeoutSeconds q));
          ("asset", PyStr (asset q)); ("extra", opt_dict (extra q))].

(** [PaymentRequiredResponse(x402Version=1, accepts=[q], error=err)
     .model_dump(by_alias=True)]. *)
Definition payment_required_dump (q : PaymentRequirements) (err : option string) : pyval :=
  PyDict [("x402Version", PyInt 1); ("accepts", PyList [requirements_dump q]);
          ("error", opt_str err)].

Definition jsonify (data : pyval) (status : Z) : response :=
  {| status_code := status; body := data; headers := [] |}.

Definition with_header (resp : response) (name val : string) : response :=
  {| status_code := status_code resp; body := body resp;
     headers := (name, val) :: filter (fun h => negb (String.eqb (fst h) name))
                                       (headers resp) |}.

(** What the framework makes of a view's return value. *)
Definition response_of_view (v : view_result) : response :=
  match v with
  | ViewResponse resp => resp
  | ViewTuple data status => jsonify data status
  | ViewOther data => jsonify data 200
  end.

Section Server.
Variable cfg : Config.
(** [10 ** d] for a negative [d]: a float from the C library's [pow]. *)
Variable pow10_negative : Z -> spec_float.
(** [requests.post(FACILITATOR_URL + "/settle", json=..., timeout=120)]
    for a payment header and the requirements sent with it. *)
Variable post_settle : string -> PaymentRequirements -> Exc reply.
(** [base64.b64encode(json.dumps(x).encode()).decode()]. *)
Variable b64_json : pyval -> string.

Definition required (name : string) (o : option string) : Exc string :=
  match o with
  | Some x => Return x
  | None => Raise (validation_error "PaymentRequirements" name)
  end.

Definition create_payment_requirements (amount_usd resource_path description0 mime_type : string)
  : Exc PaymentRequirements :=
  amount_float <- PyFloat.float (remove_char "$" amount_usd) ;;
  scale <- (if 0 <=? TOKEN_DECIMALS cfg
            then PyFloat.of_int (10 ^ TOKEN_DECIMALS cfg)
            else Return (pow10_negative (TOKEN_DECIMALS cfg))) ;;
  amount_atomic <- PyFloat.to_int (PyFloat.mul amount_float scale) ;;
  let network_id := "eip155:" ++ CHAIN_ID cfg in
  amount_text <- format_int amount_atomic ;;
  pay_to <- required "payTo" (RESOURCE_SERVER_ADDRESS cfg) ;;
  asset0 <- required "asset" (TOKEN_CONTRACT_ADDRESS cfg) ;;
  Return {| scheme := "exact";
            network := network_id;
            maxAmountRequired := amount_text;
            resource := resource_path;
            description := description0;
            mimeType := mime_type;
            outputSchema := None;
            payTo := pay_to;
            maxTimeoutSeconds := 60;
            asset := asset0;
            extra := Some [("name", PyStr "USDC"); ("version", PyStr "2")] |}.

(** [settle_data.get(key)] on the decoded JSON body. *)
Definition json_get (data : pyval) (key : string) : Exc (option pyval) :=
  match data with
  | PyDict d => Return (dict_get d key)
  | _ => Raise (Exn OtherError "object has no attribute 'get'")
  end.

Definition truthy_opt (o : option pyval) : bool :=
  match o with Some x => truthy x | None => false end.

Definition val_or_none (o : option pyval) : pyval :=
  match o with Some x => x | None => PyNone end.

(** The [error] argument of [PaymentRequiredResponse]: an optional string. *)
Definition error_field (o : option pyval) : Exc (option string) :=
  match o with
  | None => Return (Some "Payment failed")
  | Some PyNone => Return None
  | Some (PyStr x) => Return (Some x)
  | Some _ => Raise (validation_error "PaymentRequiredResponse" "error")
  end.

(** The body of [decorated_function] for a view [f] and a request. *)
Definition decorated_function (amount_usd description0 : string)
           (f : Exc view_result) (rq : request) : Exc response :=
  match header_get (request_headers rq) X_PAYMENT_HEADER with
  | None | Some "" =>
      payment_reqs <- create_payment_requirements amount_usd (path rq) description0
                                                  "application/json" ;;
      Return (jsonify (payment_required_dump payment_reqs None) 402)
  | Some payment_header =>
      payment_reqs <- create_payment_requirements amount_usd (path rq) description0
                                                  "application/json" ;;
      try_clauses
        (settle_response <- post_settle payment_header payment_reqs ;;
         if negb (reply_status_code settle_response =? 200)
         then Return (jsonify (PyDict [("error", PyStr "Payment settlement failed");
                                       ("details", PyStr (reply_text settle_response))])
                              402)
         else
           settle_data <- reply_json settle_response ;;
           ok <- json_get settle_data "success" ;;
           if negb (truthy_opt ok)
           then
             err <- json_get settle_data "error" ;;
             err' <- error_field err ;;
             Return (jsonify (payment_required_dump payment_reqs err') 402)
           else
             result <- f ;;
             tx <- json_get settle_data "txHash" ;;
             if truthy_opt tx
             then
               net <- json_get settle_data "networkId" ;;
               let payment_response :=
                 PyDict [("txHash", val_or_none tx); ("networkId", val_or_none net)] in
               Return (with_header (response_of_view result)
                                   X_PAYMENT_RESPONSE_HEADER
                                   (b64_json payment_response))
             else Return (response_of_view result))
        [ (fun c => exn_class_eqb c Timeout,
           fun _ => Return (jsonify (PyDict [("error", PyStr "Payment verification timeout")])
                                    408));
          (is_Exception,
           fun e => Return (jsonify (PyDict [("error",
                              PyStr ("Payment verification failed: " ++ exn_str e))])
                                    500)) ]
  end.
End Server.

End ResourceServer.

(* ================================================================== *)
(** * settlement.py *)
(* ================================================================== *)

Module Settlement.
Import Py Protocol EthUtils.

(** What [settle_payment] returns: [(success, error_message, tx_hash)]. *)
Definition outcome : Type := (bool * option string * option string)%type.

(** The arguments of the token's [transferWithAuthorization]. *)
Record transfer_args : Type := {
  arg_from : string;
  arg_to : string;
  arg_value : Z;
  arg_validAfter : Z;
  arg_validBefore : Z;
  arg_nonce : bytes;
  arg_v : Z;
  arg_r : bytes;
  arg_s : bytes
}.

(** [signed_tx] as the two generations of web3.py present it: the raw
    bytes sit under one attribute or the other. *)
Record signed_transaction : Type := {
  raw_transaction : option bytes;
  rawTransaction : option bytes
}.

(** The state of a [PaymentSettler] and what it reaches through its
    [web3] handle and its account. *)
Record Chain : Type := {
  (** [self.account.address]. *)
  account_address : string;
  (** [self.max_gas_price_gwei]. *)
  max_gas_price_gwei : option spec_float;
  (** Pydantic's lax conversion to [int] (see [Protocol.int_field]). *)
  chain_lax_int : pyval -> Exc Z;
  (** [contract.functions.authorizationState(authorizer, nonce).call()]
      on the token at the given address. *)
  authorizationState : string -> string -> bytes -> Exc bool;
  (** [contract.functions.transferWithAuthorization(...)]: the call object,
      made after the arguments are checked against the ABI. *)
  contract_function : string -> transfer_args -> Exc unit;
  (** [web3.eth.get_transaction_count(address)]. *)
  get_transaction_count : string -> Exc Z;
  (** [call.build_transaction(params)]. *)
  build_transaction : string -> transfer_args -> dict -> Exc dict;
  (** [web3.eth.estimate_gas(tx)]. *)
  estimate_gas : dict -> Exc Z;
  (** [web3.eth.gas_price]. *)
  gas_price : Exc Z;
  (** [web3.to_wei(x, 'gwei')]. *)
  to_wei_gwei : spec_float -> Exc Z;
  (** [web3.from_wei(x, 'gwei')], as an f-string prints it. *)
  from_wei_gwei : Z -> Exc string;
  (** [self.account.sign_transaction(tx)]. *)
  sign_transaction : dict -> Exc signed_transaction;
  (** [web3.eth.send_raw_transaction(raw)]: the transaction hash. *)
  send_raw_transaction : bytes -> Exc bytes;
  (** [web3.eth.wait_for_transaction_receipt(tx_hash, timeout)['status']]. *)
  receipt_status : bytes -> Z -> Exc Z;
  (** [tx_hash.hex()]. *)
  hexbytes_hex : bytes -> string
}.

(** What the settler did to the outside: transactions it had signed, and
    raw transactions it handed to [send_raw_transaction] (recorded when
    the call is made, whatever becomes of it). *)
Inductive event : Type :=
| Signed (tx : dict)
| Sent (raw : bytes).

(** A block of the function body either goes on with a value, leaves the
    function through [return], or raises; the events of the block come
    with it. *)
Inductive flow (A : Type) : Type :=
| Continue (a : A)
| Returned (o : outcome)
| Raised (e : exn).
Arguments Continue {A} a.
Arguments Returned {A} o.
Arguments Raised {A} e.

Definition M (A : Type) : Type := (flow A * list event)%type.

Definition ret {A : Type} (a : A) : M A := (Continue a, []).

Definition return_ {A : Type} (o : outcome) : M A := (Returned o, []).

Definition emit (ev : event) : M unit := (Continue tt, [ev]).

Definition lift {A : Type} (x : Exc A) : M A :=
  match x with
  | Return a => (Continue a, [])
  | Raise e => (Raised e, [])
  end.

Definition mbind {A B : Type} (m : M A) (k : A -> M B) : M B :=
  match m with
  | (Continue a, evs) => let '(f, evs') := k a in (f, evs ++ evs')%list
  | (Returned o, evs) => (Returned o, evs)
  | (Raised e, evs) => (Raised e, evs)
  end.

Notation "x <~ m ;; k" := (mbind m (fun x => k))
  (at level 61, m at next level, right associativity).

(** [try: block except Exception as e: handler e]. *)
Definition try_ {A : Type} (block : M A) (handler : exn -> M A) : M A :=
  match block with
  | (Raised e, evs) => let '(f, evs') := handler e in (f, evs ++ evs')%list
  | other => other
  end.

(** The value of the function: what it returned, or its exception. *)
Definition run (m : M outcome) : Exc outcome * list event :=
  match m with
  | (Continue o, evs) => (Return o, evs)
  | (Returned o, evs) => (Return o, evs)
  | (Raised e, evs) => (Raise e, evs)
  end.

(** [web3.to_bytes(hexstr=s)]. *)
Definition to_bytes (s : string) : Exc bytes :=
  match to_bytes_hexstr s with
  | Some bs => Return bs
  | None => Raise (Exn BinasciiError "Non-hexadecimal digit found")
  end.

(** [d[key] = x]. *)
Fixpoint dict_set (d : dict) (key : string) (x : pyval) : dict :=
  match d with
  | [] => [(key, x)]
  | (k, y) :: rest =>
      if String.eqb k key then (k, x) :: rest else (k, y) :: dict_set rest key x
  end.

(** The float literal [1.2]. *)
Definition buffer_factor : spec_float := PyFloat.of_decimal false 12 (-1).

(** Lines 178-179: the estimate with a 20% buffer, written into [tx]. *)
Definition with_estimated_gas (ch : Chain) (tx : dict) : Exc dict :=
  estimated_gas <- estimate_gas ch tx ;;
  as_float <- PyFloat.of_int estimated_gas ;;
  gas <- PyFloat.to_int (PyFloat.mul as_float buffer_factor) ;;
  Return (dict_set tx "gas" (PyInt gas)).

(** Lines 184-188: the reason to stop when a cap is set and the current
    gas price is above it. *)
Definition gas_price_check (ch : Chain) : M unit :=
  match max_gas_price_gwei ch with
  | None => ret tt
  | Some cap =>
      if truthy (PyFloat cap) then
        current_gas_price <~ lift (gas_price ch) ;;
        max_gas_price <~ lift (to_wei_gwei ch cap) ;;
        if current_gas_price >? max_gas_price then
          shown <~ lift (from_wei_gwei ch current_gas_price) ;;
          return_ (false, Some ("Gas price too high: " ++ shown ++ " Gwei"), None)
        else ret tt
      else ret tt
  end.

(** [getattr(s, 'raw_transaction', None) or getattr(s, 'rawTransaction', None)]. *)
Definition raw_of (signed_tx : signed_transaction) : option bytes :=
  match raw_transaction signed_tx with
  | Some (b :: bs) => Some (b :: bs)
  | _ => rawTransaction signed_tx
  end.

(** Lines 202-219. *)
Definition confirmation (ch : Chain) (wait_for_confirmation : bool) (timeout : Z)
           (tx_hash : bytes) : M outcome :=
  let tx_hash_hex := hexbytes_hex ch tx_hash in
  if wait_for_confirmation then
    try_
      (status <~ lift (receipt_status ch tx_hash timeout) ;;
       if status =? 1 then return_ (true, None, Some tx_hash_hex)
       else return_ (false, Some "Transaction reverted", Some tx_hash_hex))
      (fun e => return_ (false, Some ("Transaction confirmation timeout: " ++ exn_str e),
                         Some tx_hash_hex))
  else return_ (true, None, Some tx_hash_hex).

Definition _settle_exact_scheme (ch : Chain) (payment_payload : PaymentPayload)
           (payment_requirements : PaymentRequirements)
           (wait_for_confirmation : bool) (timeout : Z) : M outcome :=
  try_
    (exact_payload <~ lift (ExactPaymentPayload_init (chain_lax_int ch)
                                                     (payload payment_payload)) ;;
     token_address <~ lift (to_checksum_address (asset payment_requirements)) ;;
     nonce_bytes <~ lift (to_bytes (nonce exact_payload)) ;;
     from_address <~ lift (to_checksum_address (from_ exact_payload)) ;;
     _ <~ try_
            (is_used <~ lift (authorizationState ch token_address from_address
                                                 nonce_bytes) ;;
             if is_used
             then return_ (false, Some "Authorization nonce already used", None)
             else ret tt)
            (fun _ => ret tt) ;;
     a_from <~ lift (to_checksum_address (from_ exact_payload)) ;;
     a_to <~ lift (to_checksum_address (to exact_payload)) ;;
     a_value <~ lift (Py.int (value exact_payload)) ;;
     a_validAfter <~ lift (Py.int (validAfter exact_payload)) ;;
     a_validBefore <~ lift (Py.int (validBefore exact_payload)) ;;
     a_r <~ lift (to_bytes (r exact_payload)) ;;
     a_s <~ lift (to_bytes (s exact_payload)) ;;
     let args := {| arg_from := a_from; arg_to := a_to; arg_value := a_value;
                    arg_validAfter := a_validAfter;
                    arg_validBefore := a_validBefore;
                    arg_nonce := nonce_bytes; arg_v := v exact_payload;
                    arg_r := a_r; arg_s := a_s |} in
     _ <~ lift (contract_function ch token_address args) ;;
     count <~ lift (get_transaction_count ch (account_address ch)) ;;
     tx <~ lift (build_transaction ch token_address args
                   [("from", PyStr (account_address ch)); ("nonce", PyInt count);
                    ("gas", PyInt 200000)]) ;;
     tx' <~ try_ (lift (with_estimated_gas ch tx))
                 (fun e => return_ (false, Some ("Gas estimation failed: " ++ exn_str e),
                                    None)) ;;
     _ <~ gas_price_check ch ;;
     signed_tx <~ lift (sign_transaction ch tx') ;;
     _ <~ emit (Signed tx') ;;
     match raw_of signed_tx with
     | None =>
         return_ (false, Some "Failed to get raw transaction from signed transaction",
                  None)
     | Some raw_tx =>
         _ <~ emit (Sent raw_tx) ;;
         tx_hash <~ lift (send_raw_transaction ch raw_tx) ;;
         confirmation ch wait_for_confirmation timeout tx_hash
     end)
    (fun e => return_ (false, Some ("Exact scheme settlement error: " ++ exn_str e),
                       None)).

(** [PaymentSettler.settle_payment], with what it did. *)
Definition settle_payment (ch : Chain) (payment_payload : PaymentPayload)
           (payment_requirements : PaymentRequirements)
           (wait_for_confirmation : bool) (timeout : Z)
  : Exc outcome * list event :=
  run (try_
         (if String.eqb (p_scheme payment_payload) EXACT
          then _settle_exact_scheme ch payment_payload payment_requirements
                                    wait_for_confirmation timeout
          else return_ (false,
                        Some ("Unsupported payment scheme: " ++ p_scheme payment_payload),
                        None))
         (fun e => return_ (false, Some ("Settlement error: " ++ exn_str e), None))).

(** The settler as the facilitator holds it. *)
Definition as_settler (ch : Chain) : Facilitator.settler :=
  fun payment_payload payment_requirements wait_for_confirmation timeout =>
    fst (settle_payment ch payment_payload payment_requirements
                        wait_for_confirmation timeout).

End Settlement.

(* ================================================================== *)
(** * facilitator_server.py: POST /verify and GET /supported *)
(* ================================================================== *)

Module FacilitatorEndpoints.
Import Py Protocol Facilitator.

Record VerificationRequest : Type := {
  v_x402Version : Z;
  v_paymentHeader : string;
  v_paymentRequirements : PaymentRequirements
}.

Record VerificationResponse : Type := {
  isValid : bool;
  invalidReason : option string
}.

(** The [try] body of the [/verify] endpoint. *)
Definition verify_body (sv : Services) (request : VerificationRequest)
  : Exc VerificationResponse :=
  match payment_verifier sv with
  | None => Raise (Exn OtherError "503: Payment verifier not initialized")
  | Some W =>
      '(is_valid, err) <- Verifier.verify_payment W (v_paymentHeader request)
                                                  (v_paymentRequirements request) ;;
      Return {| isValid := is_valid; invalidReason := err |}
  end.

(** The [/verify] endpoint: any exception becomes a 500. *)
Definition verify_payment (sv : Services) (request : VerificationRequest)
  : endpoint_result VerificationResponse :=
  match verify_body sv request with
  | Return resp => Ok200 resp
  | Raise e => HTTPException 500 ("Verification failed: " ++ exn_str e)
  end.

(** [os.getenv(name, default)]. *)
Definition getenv (env : string -> option string) (name default : string) : string :=
  match env name with Some x => x | None => default end.

(** The [/supported] endpoint: the list of [(scheme, network)] kinds. *)
Definition get_supported (env : string -> option string)
  : endpoint_result (list (string * string)) :=
  let chain_id := getenv env "CHAIN_ID" "84532" in
  let network_id := "eip155:" ++ chain_id in
  Ok200 [("exact", network_id)].

End FacilitatorEndpoints.

(* ================================================================== *)
(** * client.py: request_resource *)
(* ================================================================== *)

Module ClientHTTP.
Import Py Protocol.

Definition headers : Type := list (string * string).

Record http_response : Type := {
  status_code : Z;
  text : string;
  response_headers : headers
}.

(** One call of [requests.request]: the method, the URL and the
    [headers] keyword, if it is there. *)
Record http_call : Type := {
  call_method : string;
  call_url : string;
  call_headers : option headers
}.

(** The network as the client meets it. *)
Record Http : Type := {
  (** [requests.request(method, url, **kwargs)], by the number of calls
      made before this one. *)
  requests_request : nat -> http_call -> Exc http_response;
  (** [PaymentRequiredResponse.model_validate_json(text).accepts]. *)
  accepts_of_json : string -> Exc (list PaymentRequirements)
}.

(** [h[name] = x] on a header dict. *)
Fixpoint headers_set (h : headers) (name x : string) : headers :=
  match h with
  | [] => [(name, x)]
  | (k, y) :: rest =>
      if String.eqb k name then (k, x) :: rest else (k, y) :: headers_set rest name x
  end.

Section X402Client.
Variable W : World.
Variable C : Client.ClientEnv.
Variable H : Http.

(** Lines 82-91: the payment header for a 402 reply. *)
Definition payment_for (response : http_response) : Exc string :=
  accepts <- accepts_of_json H (text response) ;;
  match accepts with
  | [] => Raise (Exn ValueError "No payment methods accepted")
  | payment_req :: _ => Client.create_payment W C payment_req 300
  end.

(** [request_resource(url, auto_pay, method, headers=h)]: the response or
    the exception, the calls made on the network in order, and the
    caller's [headers] dict as the call leaves it. *)
Definition request_resource (url : string) (auto_pay : bool) (method : string)
           (h : option headers)
  : Exc http_response * list http_call * option headers :=
  let first := {| call_method := method; call_url := url; call_headers := h |} in
  match requests_request H 0 first with
  | Raise e => (Raise e, [first], h)
  | Return response =>
      if (status_code response =? 402) && auto_pay then
        match payment_for response with
        | Raise e => (Raise (Exn OtherError ("Payment failed: " ++ exn_str e)), [first], h)
        | Return payment_header =>
            let paid := headers_set (match h with Some x => x | None => [] end)
                                    X_PAYMENT_HEADER payment_header in
            let second := {| call_method := method; call_url := url;
                             call_headers := Some paid |} in
            let h' := match h with Some _ => Some paid | None => None end in
            match requests_request H 1 second with
            | Raise e =>
                (Raise (Exn OtherError ("Payment failed: " ++ exn_str e)),
                 [first; second], h')
            | Return response' => (Return response', [first; second], h')
            end
        end
      else (Return response, [first], h)
  end.
End X402Client.

End ClientHTTP.

(* ================================================================== *)
(** * The secp256k1 backend *)
(* ================================================================== *)

(** The curve arithmetic behind [eth_keys] (Jacobian coordinates over the
    field of order [P]), on machine-word integers so that it can be run.
    It serves as the concrete [ecdsa_recover] of a [World] and as the
    signer of a client in the worked examples. *)
Module Secp256k1.
Import Py.

Definition P : bigZ :=
  BigZ.of_Z 0xFFFFFFFFFFFFFFFFFFFFFFFFFFFFFFFFFFFFFFFFFFFFFFFFFFFFFFFEFFFFFC2F.
Definition N : bigZ :=
  BigZ.of_Z 0xFFFFFFFFFFFFFFFFFFFFFFFFFFFFFFFEBAAEDCE6AF48A03BBFD25E8CD0364141.
Definition Gx : bigZ :=
  BigZ.of_Z 0x79BE667EF9DCBBAC55A06295CE870B07029BFCDB2DCE28D959F2815B16F81798.
Definition Gy : bigZ :=
  BigZ.of_Z 0x483ADA7726A3C4655DA4FBFC0E1108A8FD17B448A68554199C47D08FFB10D4B8.

Local Open Scope bigZ_scope.

Fixpoint pow_mod_pos (b : bigZ) (e : positive) (m : bigZ) : bigZ :=
  match e with
  | xH => b mod m
  | xO e' => let h := pow_mod_pos b e' m in (h * h) mod m
  | xI e' => let h := pow_mod_pos b e' m in (((h * h) mod m) * b) mod m
  end.

Definition pow_mod (b e m : bigZ) : bigZ :=
  match BigZ.to_Z e with
  | Zpos p => pow_mod_pos b p m
  | _ => 1 mod m
  end.

(** Inverse modulo a prime. *)
Definition inv (a m : bigZ) : bigZ := pow_mod a (m - 2) m.

Definition jacobian : Type := (bigZ * bigZ * bigZ)%type.

Definition jacobian_double (p : jacobian) : jacobian :=
  let '(x, y, z) := p in
  if y =? 0 then (0, 0, 0)
  else
    let ysq := (y * y) mod P in
    let S := (4 * x * ysq) mod P in
    let M := (3 * x * x) mod P in
    let nx := (M * M - 2 * S) mod P in
    let ny := (M * (S - nx) - 8 * ysq * ysq) mod P in
    let nz := (2 * y * z) mod P in
    (nx, ny, nz).

Definition jacobian_add (p q : jacobian) : jacobian :=
  let '(x1, y1, z1) := p in
  let '(x2, y2, z2) := q in
  if y1 =? 0 then q
  else if y2 =? 0 then p
  else
    let U1 := (x1 * z2 * z2) mod P in
    let U2 := (x2 * z1 * z1) mod P in
    let S1 := (y1 * z2 * z2 * z2) mod P in
    let S2 := (y2 * z1 * z1 * z1) mod P in
    if U1 =? U2 then
      if negb (S1 =? S2) then (0, 0, 1) else jacobian_double p
    else
      let H := U2 - U1 in
      let R := S2 - S1 in
      let H2 := (H * H) mod P in
      let H3 := (H * H2) mod P in
      let U1H2 := (U1 * H2) mod P in
      let nx := (R * R - H3 - 2 * U1H2) mod P in
      let ny := (R * (U1H2 - nx) - S1 * H3) mod P in
      let nz := (H * z1 * z2) mod P in
      (nx, ny, nz).

Fixpoint jacobian_multiply_pos (a : jacobian) (n : positive) : jacobian :=
  match n with
  | xH => a
  | xO n' => jacobian_double (jacobian_multiply_pos a n')
  | xI n' => jacobian_add (jacobian_double (jacobian_multiply_pos a n')) a
  end.

Definition jacobian_multiply (a : jacobian) (n : bigZ) : jacobian :=
  let '(_, y, _) := a in
  match BigZ.to_Z (n mod N) with
  | Zpos p => if y =? 0 then (0, 0, 1) else jacobian_multiply_pos a p
  | _ => (0, 0, 1)
  end.

Definition from_jacobian (p : jacobian) : bigZ * bigZ :=
  let '(x, y, z) := p in
  let zi := inv z P in
  ((x * zi * zi) mod P, (y * zi * zi * zi) mod P).

(** [ecdsa_raw_recover]: the public key of a signature with [v] 0 or 1. *)
Definition ecdsa_raw_recover (z v r s : bigZ) : option (bigZ * bigZ) :=
  let x := r in
  let xcubedaxb := (x * x * x + 7) mod P in
  let beta := pow_mod xcubedaxb ((P + 1) / 4) P in
  let y := if ((v + 27) mod 2 =? 1) && (beta mod 2 =? 1) then P - beta
           else if ((v + 27) mod 2 =? 0) && (beta mod 2 =? 0) then P - beta
           else beta in
  if negb ((xcubedaxb - y * y) mod P =? 0) || (r mod N =? 0) || (s mod N =? 0)
  then None
  else
    let Gz := jacobian_multiply (Gx, Gy, 1) ((N - z) mod N) in
    let XY := jacobian_multiply (x, y, 1) s in
    let Qr := jacobian_add Gz XY in
    let Q := jacobian_multiply Qr (inv r N) in
    Some (from_jacobian Q).

Local Close Scope bigZ_scope.

Definition in_range (lo hi x : Z) : bool := (lo <=? x) && (x <? hi).

(** The backend as [eth_keys] exposes it: [v] must be 0 or 1, [r] and [s]
    below the group order; the result is the 64-byte public key. *)
Definition ecdsa_recover (hash : bytes) (v r s : Z) : Exc bytes :=
  if negb (in_range 0 2 v && in_range 0 (BigZ.to_Z N) r && in_range 0 (BigZ.to_Z N) s)
  then Raise (Exn OtherError "invalid signature component")
  else
    match ecdsa_raw_recover (BigZ.of_Z (be_val 0 hash)) (BigZ.of_Z v)
                            (BigZ.of_Z r) (BigZ.of_Z s) with
    | Some (x, y) => Return (be_bytes 32 (BigZ.to_Z x) ++ be_bytes 32 (BigZ.to_Z y))%list
    | None => Raise (Exn OtherError "Invalid signature")
    end.

(** Public key of a private key. *)
Definition public_key (d : Z) : bytes :=
  let '(x, y) := from_jacobian (jacobian_multiply (Gx, Gy, 1%bigZ) (BigZ.of_Z d)) in
  (be_bytes 32 (BigZ.to_Z x) ++ be_bytes 32 (BigZ.to_Z y))%list.

(** ECDSA signature of a hash with private key [d] and per-message secret
    [k]; the result is [(v, r, s)] with [v] the parity of the nonce point
    and [s] in the lower half. *)
Definition ecdsa_sign (d k : Z) (hash : bytes) : Z * Z * Z :=
  let n := BigZ.to_Z N in
  let '(x, y) := from_jacobian (jacobian_multiply (Gx, Gy, 1%bigZ) (BigZ.of_Z k)) in
  let r := BigZ.to_Z x mod n in
  let kinv := BigZ.to_Z (inv (BigZ.of_Z k) N) in
  let s := (kinv * (be_val 0 hash + r * d)) mod n in
  let v := BigZ.to_Z y mod 2 in
  if s * 2 <? n then (v, r, s) else (1 - v, r, n - s).

End Secp256k1.

(* ================================================================== *)
(** * Worked data: one world, one client, a few payment headers *)
(* ================================================================== *)

Module Examples.
Import Py Protocol.

Definition payee : string := "0x5aAeb6053F3E94C9b9A09f33669435E7Ef1BeAed".
Definition stranger : string := "0xfB6916095ca1df60bB79Ce92cE3Ea74c37c5d359".
Definition token : string := "0x036cbd53842c5426634e7929541ec2318f3dcf7e".

(** The challenge of spec scenario 1. *)
Definition requirements0 : PaymentRequirements :=
  {| scheme := "exact";
     network := "eip155:84532";
     maxAmountRequired := "10000";
     resource := "/weather";
     description := "Current weather information";
     mimeType := "application/json";
     outputSchema := None;
     payTo := payee;
     maxTimeoutSeconds := 60;
     asset := token;
     extra := Some [("name", PyStr "USDC"); ("version", PyStr "2")] |}.

(** A world whose header codec is a finite table from header text to the
    envelope it decodes to, whose chain tip shows [now], and whose curve
    backend is secp256k1. *)
Fixpoint lookup_header (table : list (string * PaymentPayload)) (data : bytes)
  : Exc PaymentPayload :=
  match table with
  | [] => Raise (Exn ValidationError "1 validation error for PaymentPayload")
  | (h, pp) :: rest =>
      if String.eqb (str_of_chars (map chr data)) h then Return pp
      else lookup_header rest data
  end.

Definition table_world (table : list (string * PaymentPayload)) (now : Z) : World :=
  {| b64decode := fun h => Return (bytes_of_str h);
     model_validate_json := lookup_header table;
     lax_int := fun _ => Raise (Exn ValidationError "Input should be a valid integer");
     get_block_timestamp := Return now;
     encode_other := fun _ _ => Raise (Exn TypeError "unsupported value");
     ecdsa_recover := Secp256k1.ecdsa_recover |}.

Definition client_key : Z :=
  0xac0974bec39a17e36ba4a6b4d238ff944bacb478cbed5efcae784d7bf4f2ff80.

(** A client holding [client_key], at time 1700000000. *)
Definition client_env (token_hex : string) : Client.ClientEnv :=
  {| Client.account_address := "0xf39fd6e51aad88f6f4ce6ab8827279cfffb92266";
     Client.sign_msg_hash :=
       Secp256k1.ecdsa_sign client_key 0x1234567890abcdef1234567890abcdef;
     Client.current_time := 1700000000;
     Client.token_hex32 := token_hex;
     Client.dump_header := fun _ => "header-signed" |}.

Definition nonce_hex : string :=
  "a3f1c2d4e5b60718293a4b5c6d7e8f90112233445566778899aabbccddeeff00".

Definition empty_envelope : PaymentPayload :=
  {| p_x402Version := 1; p_scheme := ""; p_network := ""; payload := [] |}.

Definition envelope_of (parts : Exc (EthAccount.SignableMessage * PaymentPayload))
  : PaymentPayload :=
  match parts with
  | Return (_, pp) => pp
  | Raise _ => empty_envelope
  end.

(** What the client makes of [requirements0]. *)
Definition signed_envelope : PaymentPayload :=
  Eval vm_compute in
    envelope_of (Client.exact_payment_parts (table_world [] 0) (client_env nonce_hex)
                                            requirements0 300).

Definition message_of (parts : Exc (EthAccount.SignableMessage * PaymentPayload))
  : EthAccount.SignableMessage :=
  match parts with
  | Return (m, _) => m
  | Raise _ => {| EthAccount.version := []; EthAccount.header := [];
                  EthAccount.body := [] |}
  end.

(** The message the client signs for it. *)
Definition signed_message : EthAccount.SignableMessage :=
  Eval vm_compute in
    message_of (Client.exact_payment_parts (table_world [] 0) (client_env nonce_hex)
                                           requirements0 300).

(** The public key of [client_key]. *)
Definition client_public_key : bytes :=
  Eval vm_compute in Secp256k1.public_key client_key.

(** [requirements0] with the token address in mixed case that is not its
    EIP-55 rendering. *)
Definition miscased_token : string := "0x036CBD53842c5426634e7929541ec2318f3dcf7e".

Definition miscased_requirements : PaymentRequirements :=
  {| scheme := "exact";
     network := "eip155:84532";
     maxAmountRequired := "10000";
     resource := "/weather";
     description := "Current weather information";
     mimeType := "application/json";
     outputSchema := None;
     payTo := payee;
     maxTimeoutSeconds := 60;
     asset := miscased_token;
     extra := Some [("name", PyStr "USDC"); ("version", PyStr "2")] |}.

(** What the client makes of it. *)
Definition miscased_envelope : PaymentPayload :=
  Eval vm_compute in
    envelope_of (Client.exact_payment_parts (table_world [] 0) (client_env nonce_hex)
                                            miscased_requirements 300).

(** The same, signed over a two-byte nonce. *)
Definition short_nonce_envelope : PaymentPayload :=
  Eval vm_compute in
    envelope_of (Client.exact_payment_parts (table_world [] 0) (client_env "1234")
                                            requirements0 300).

(** [requirements0] with another amount, token address or [extra]. *)
Definition requirements_with (amount asset0 : string) (extra0 : option dict)
  : PaymentRequirements :=
  {| scheme := "exact";
     network := "eip155:84532";
     maxAmountRequired := amount;
     resource := "/weather";
     description := "Current weather information";
     mimeType := "application/json";
     outputSchema := None;
     payTo := payee;
     maxTimeoutSeconds := 60;
     asset := asset0;
     extra := extra0 |}.

(** The amount zero, written with two digits. *)
Definition double_zero_requirements : PaymentRequirements :=
  requirements_with "00" token (Some [("name", PyStr "USDC"); ("version", PyStr "2")]).

(** What the client makes of it. *)
Definition double_zero_envelope : PaymentPayload :=
  Eval vm_compute in
    envelope_of (Client.exact_payment_parts (table_world [] 0) (client_env nonce_hex)
                                            double_zero_requirements 300).

(** Requirements that name no token domain. *)
Definition bare_requirements : PaymentRequirements :=
  requirements_with "10000" token None.

(** [d] with the value under [key] replaced. *)
Fixpoint dict_set (d : dict) (key : string) (x : pyval) : dict :=
  match d with
  | [] => [(key, x)]
  | (k, y) :: rest =>
      if String.eqb k key then (k, x) :: rest else (k, y) :: dict_set rest key x
  end.

Definition with_field (pp : PaymentPayload) (key : string) (x : pyval) : PaymentPayload :=
  {| p_x402Version := p_x402Version pp; p_scheme := p_scheme pp;
     p_network := p_network pp; payload := dict_set (payload pp) key x |}.

(** Recipient and amount both changed. *)
Definition tampered_envelope : PaymentPayload :=
  with_field (with_field signed_envelope "to" (PyStr stranger)) "value" (PyStr "20000").

(** The amount written with a leading zero. *)
Definition leading_zero_envelope : PaymentPayload :=
  with_field signed_envelope "value" (PyStr "010000").

(** The same under protocol version 2. *)
Definition version2_envelope : PaymentPayload :=
  {| p_x402Version := 2; p_scheme := "exact"; p_network := "eip155:84532";
     payload := payload leading_zero_envelope |}.

(** The signed payload with [v] moved from 27/28 to 0/1. *)
Definition raw_v_envelope : PaymentPayload :=
  match dict_get (payload signed_envelope) "v" with
  | Some (PyInt v0) => with_field signed_envelope "v" (PyInt (v0 - 27))
  | _ => signed_envelope
  end.

(** Half the amount. *)
Definition underpaid_envelope : PaymentPayload :=
  with_field signed_envelope "value" (PyStr "5000").

(** The signed payload with [v] set to 29. *)
Definition v29_envelope : PaymentPayload :=
  with_field signed_envelope "v" (PyInt 29).

(** The signed payload with one more byte in the nonce. *)
Definition long_nonce_envelope : PaymentPayload :=
  with_field signed_envelope "nonce" (PyStr ("0x" ++ nonce_hex ++ "ff")).

(** The signed payload with a window that ends before it starts. *)
Definition inverted_window_envelope : PaymentPayload :=
  with_field (with_field signed_envelope "validAfter" (PyStr "1700000400"))
             "validBefore" (PyStr "1700000300").

Definition headers : list (string * PaymentPayload) :=
  [("header-signed", signed_envelope);
   ("header-tampered", tampered_envelope);
   ("header-leading-zero", leading_zero_envelope);
   ("header-version-2", version2_envelope);
   ("header-raw-v", raw_v_envelope);
   ("header-short-nonce", short_nonce_envelope);
   ("header-underpaid", underpaid_envelope);
   ("header-v29", v29_envelope);
   ("header-long-nonce", long_nonce_envelope);
   ("header-double-zero", double_zero_envelope);
   ("header-inverted-window", inverted_window_envelope)].

Definition world_at (now : Z) : World := table_world headers now.

Definition empty_payload : ExactPaymentPayload :=
  {| from_ := ""; to := ""; value := ""; validAfter := ""; validBefore := "";
     nonce := ""; v := 0; r := ""; s := "" |}.

(** The inner payload of an envelope, as the verifier decodes it. *)
Definition exact_of (pp : PaymentPayload) : ExactPaymentPayload :=
  match ExactPaymentPayload_init (lax_int (world_at 0)) (payload pp) with
  | Return ep => ep
  | Raise _ => empty_payload
  end.

Definition signed_payload : ExactPaymentPayload :=
  Eval vm_compute in exact_of signed_envelope.
Definition tampered_payload : ExactPaymentPayload :=
  Eval vm_compute in exact_of tampered_envelope.
Definition leading_zero_payload : ExactPaymentPayload :=
  Eval vm_compute in exact_of leading_zero_envelope.
Definition underpaid_payload : ExactPaymentPayload :=
  Eval vm_compute in exact_of underpaid_envelope.
Definition raw_v_payload : ExactPaymentPayload :=
  Eval vm_compute in exact_of raw_v_envelope.
Definition short_nonce_payload : ExactPaymentPayload :=
  Eval vm_compute in exact_of short_nonce_envelope.

Definition v29_payload : ExactPaymentPayload :=
  Eval vm_compute in exact_of v29_envelope.
Definition long_nonce_payload : ExactPaymentPayload :=
  Eval vm_compute in exact_of long_nonce_envelope.

Definition miscased_payload : ExactPaymentPayload :=
  Eval vm_compute in exact_of miscased_envelope.
Definition double_zero_payload : ExactPaymentPayload :=
  Eval vm_compute in exact_of double_zero_envelope.
Definition inverted_window_payload : ExactPaymentPayload :=
  Eval vm_compute in exact_of inverted_window_envelope.

Definition payer : string := "0xf39Fd6e51aad88F6F4ce6aB8827279cffFb92266".

(** A settler that would report success, were it called. *)
Definition eager_settler : Facilitator.settler :=
  fun _ _ _ _ => Return (true, None, Some "0xabc").

Definition services : Facilitator.Services :=
  {| Facilitator.payment_verifier := Some (world_at 1700000000);
     Facilitator.payment_settler := Some eager_settler |}.

Definition config : ResourceServer.Config :=
  {| ResourceServer.FACILITATOR_URL := "http://localhost:8000";
     ResourceServer.RESOURCE_SERVER_ADDRESS := Some payee;
     ResourceServer.TOKEN_CONTRACT_ADDRESS := Some token;
     ResourceServer.NETWORK := "base-sepolia";
     ResourceServer.CHAIN_ID := "84532";
     ResourceServer.TOKEN_DECIMALS := 6 |}.

Definition paid_request : ResourceServer.request :=
  {| ResourceServer.path := "/weather";
     ResourceServer.request_headers := [("X-PAYMENT", "header-signed")] |}.

(** A facilitator that answers every request with a 500. *)
Definition failing_facilitator (h : string) (q : PaymentRequirements)
  : Exc ResourceServer.reply :=
  Return {| ResourceServer.reply_status_code := 500;
            ResourceServer.reply_text := "Internal Server Error";
            ResourceServer.reply_json := Raise (Exn JSONDecodeError "Expecting value") |}.

Definition weather_view : Exc ResourceServer.view_result :=
  Return (ResourceServer.ViewOther (PyDict [("temperature", PyInt 21)])).

(** Token decimals are not negative here, so this is never consulted. *)
Definition pow10_unused (d : Z) : spec_float := S754_nan.

(** A stand-in for the receipt encoder. *)
Definition receipt_text (x : pyval) : string := "eyJ0eEhhc2giOiAiMHhhYmMifQ==".

Definition verification_request : FacilitatorEndpoints.VerificationRequest :=
  {| FacilitatorEndpoints.v_x402Version := 1;
     FacilitatorEndpoints.v_paymentHeader := "header-signed";
     FacilitatorEndpoints.v_paymentRequirements := requirements0 |}.

Definition settlement_request : Facilitator.SettlementRequest :=
  {| Facilitator.x402Version := 1;
     Facilitator.paymentHeader := "header-signed";
     Facilitator.paymentRequirements := requirements0 |}.

(** A node that takes every transaction, in front of a token that has not
    seen the nonce; the settler caps the gas price at 50 Gwei. *)
Definition settling_chain : Settlement.Chain :=
  {| Settlement.account_address := "0x70997970C51812dc3A010C7d01b50e0d17dc79C8";
     Settlement.max_gas_price_gwei := Some (PyFloat.of_decimal false 50 0);
     Settlement.chain_lax_int :=
       fun _ => Raise (Exn ValidationError "Input should be a valid integer");
     Settlement.authorizationState := fun _ _ _ => Return false;
     Settlement.contract_function := fun _ _ => Return tt;
     Settlement.get_transaction_count := fun _ => Return 7;
     Settlement.build_transaction :=
       fun token _ params => Return (("to", PyStr token) :: params);
     Settlement.estimate_gas := fun _ => Return 100000;
     Settlement.gas_price := Return 1000000000;
     Settlement.to_wei_gwei :=
       fun cap => PyFloat.to_int (PyFloat.mul cap (PyFloat.of_decimal false 1 9));
     Settlement.from_wei_gwei := fun wei => Return (Py.str (wei / 1000000000));
     Settlement.sign_transaction :=
       fun _ => Return {| Settlement.raw_transaction := Some [2; 248; 177];
                          Settlement.rawTransaction := None |};
     Settlement.send_raw_transaction := fun _ => Return [171; 205];
     Settlement.receipt_status := fun _ _ => Return 1;
     Settlement.hexbytes_hex := fun bs => "0x" ++ Py.hex bs |}.

(** The transaction that [settling_chain] is asked to sign for the signed payment:
    the estimate of 100000 gas with its buffer. *)
Definition settled_transaction : dict :=
  [("to", PyStr "0x036CbD53842c5426634e7929541eC2318f3dCF7e");
   ("from", PyStr "0x70997970C51812dc3A010C7d01b50e0d17dc79C8");
   ("nonce", PyInt 7); ("gas", PyInt 120000)].

Definition settling_services : Facilitator.Services :=
  {| Facilitator.payment_verifier := Some (world_at 1700000000);
     Facilitator.payment_settler := Some (Settlement.as_settler settling_chain) |}.

(** A facilitator that settles every payment. *)
Definition settling_facilitator (h : string) (q : PaymentRequirements)
  : Exc ResourceServer.reply :=
  Return {| ResourceServer.reply_status_code := 200;
            ResourceServer.reply_text := "";
            ResourceServer.reply_json :=
              Return (PyDict [("success", PyBool true); ("error", PyNone);
                              ("txHash", PyStr "0xabcd");
                              ("networkId", PyStr "eip155:84532")]) |}.

(** A view that fails. *)
Definition failing_view : Exc ResourceServer.view_result :=
  Raise (Exn OtherError "upstream unavailable").

End Examples.

(* ================================================================== *)
(** * Vocabulary of the statements *)
(* ================================================================== *)

Module Spec.
Import Py Protocol.

(** A verdict that explains itself: a rejection carries a reason. *)
Definition explained (v : Verifier.verdict) : Prop :=
  fst v = false -> exists reason, snd v = Some reason.

(** The envelope tests that precede the scheme-specific part of
    [verify_payment] all pass. *)
Definition envelope_accepted (pp : PaymentPayload) (req : PaymentRequirements) : Prop :=
  p_x402Version pp = 1 /\ p_scheme pp = scheme req /\
  p_network pp = network req /\ p_scheme pp = EXACT.

(** What [_verify_exact_scheme] answers once the signature stage has
    spoken. *)
Definition after_signature (v : Verifier.verdict) : Verifier.verdict :=
  if fst v then (true, None) else (false, snd v).

(** No call to the settler was made. *)
Definition settler_untouched (calls : list Facilitator.call) : Prop :=
  forall pp, ~ In (Facilitator.CallSettle pp) calls.

(** The signature that the client's key gives on [m] is one from which
    the curve backend recovers [pub], the key of the client's account. *)
Definition signer_recovered (W : World) (C : Client.ClientEnv)
           (m : EthAccount.SignableMessage) (pub : bytes) : Prop :=
  let hash := EthAccount.hash_eip191_message m in
  let '(v_raw, r0, s0) := Client.sign_msg_hash C hash in
  (v_raw = 0 \/ v_raw = 1) /\
  ecdsa_recover W hash v_raw r0 s0 = Return pub /\
  EthUtils.to_checksum_address (Client.account_address C)
  = Return (EthAccount.address_of_pubkey pub).

(** A character of the decimal rendering of an integer: a digit, so
    neither a blank, a sign nor an underscore, and ASCII. *)
Definition plain_digit (c : ascii) : Prop :=
  (exists d, digit_val 10 c = Some d) /\
  Ascii.eqb c "_" = false /\ is_space c = false /\
  Ascii.eqb c "-" = false /\ Ascii.eqb c "+" = false /\
  (code c <? 128) = true.

(** The values of [v] that signer recovery takes as a parity. *)
Definition recoverable_v (v : Z) : Prop :=
  v = 0 \/ v = 1 \/ v = 27 \/ v = 28 \/ 35 <= v <= 255.

(** The EIP-712 domain that the requirements describe can be encoded:
    [extra] names a token and a version, the network ends in a chain id
    that fits a word, and the asset is a valid address. *)
Definition domain_usable (req : PaymentRequirements) : bool :=
  match extra req with
  | None | Some [] => false
  | Some ex =>
      truthy (extra_get ex "name") && truthy (extra_get ex "version")
      && match parse_chain_id (network req) with
         | Return c => (0 <=? c) && (c <? 2 ^ 256)
         | Raise _ => false
         end
      && EthUtils.is_address (asset req)
  end.

Section Settling.
Import EthUtils Settlement.

(** The transaction that [_settle_exact_scheme] gets ready for a payload:
    every step before the signing went through, the token did not report
    the nonce as used, and the gas price is within the cap. *)
Definition prepared (ch : Chain) (pp : PaymentPayload) (req : PaymentRequirements)
           (tx : dict) : Prop :=
  exists ep token nonce_bytes payer recipient val va vb rb sb count tx0,
    let args := {| arg_from := payer; arg_to := recipient; arg_value := val;
                   arg_validAfter := va; arg_validBefore := vb;
                   arg_nonce := nonce_bytes; arg_v := v ep;
                   arg_r := rb; arg_s := sb |} in
    ExactPaymentPayload_init (chain_lax_int ch) (payload pp) = Return ep /\
    to_checksum_address (asset req) = Return token /\
    to_bytes (nonce ep) = Return nonce_bytes /\
    to_checksum_address (from_ ep) = Return payer /\
    authorizationState ch token payer nonce_bytes <> Return true /\
    to_checksum_address (to ep) = Return recipient /\
    Py.int (value ep) = Return val /\
    Py.int (validAfter ep) = Return va /\
    Py.int (validBefore ep) = Return vb /\
    to_bytes (r ep) = Return rb /\
    to_bytes (s ep) = Return sb /\
    contract_function ch token args = Return tt /\
    get_transaction_count ch (account_address ch) = Return count /\
    build_transaction ch token args
      [("from", PyStr (account_address ch)); ("nonce", PyInt count);
       ("gas", PyInt 200000)] = Return tx0 /\
    with_estimated_gas ch tx0 = Return tx /\
    gas_price_check ch = (Continue tt, []).

(** How the wait for the receipt ended for a transaction hash. *)
Definition confirmed (ch : Chain) (wait_for_confirmation : bool) (timeout : Z)
           (tx_hash : bytes) (o : outcome) : Prop :=
  let tx_hash_hex := hexbytes_hex ch tx_hash in
  o = (true, None, Some tx_hash_hex) /\
  (wait_for_confirmation = true -> receipt_status ch tx_hash timeout = Return 1) \/
  wait_for_confirmation = true /\
  receipt_status ch tx_hash timeout <> Return 1 /\
  exists reason, o = (false, Some reason, Some tx_hash_hex).
End Settling.

Section Serving.
Import ResourceServer.

(** The facilitator answered the settlement of the request's payment with
    status 200 and a body whose [success] is true. *)
Definition settlement_succeeded (cfg : Config) (pow10_negative : Z -> spec_float)
           (post_settle : string -> PaymentRequirements -> Exc reply)
           (amount_usd description0 : string) (rq : request) : bool :=
  match header_get (request_headers rq) X_PAYMENT_HEADER with
  | None | Some "" => false
  | Some payment_header =>
      match create_payment_requirements cfg pow10_negative amount_usd (path rq)
                                        description0 "application/json" with
      | Raise _ => false
      | Return payment_reqs =>
          match post_settle payment_header payment_reqs with
          | Raise _ => false
          | Return settle_response =>
              (reply_status_code settle_response =? 200)
              && match reply_json settle_response with
                 | Return (PyDict d) => truthy_opt (dict_get d "success")
                 | _ => false
                 end
          end
      end
  end.
End Serving.

End Spec.

(* ================================================================== *)
(** * Proofs *)
(* ================================================================== *)

(** ** The error monad *)

Lemma bind_Return {A B : Type} (m : Exc A) (k : A -> Exc B) (b : B) :
  bind m k = Return b -> exists a, m = Return a /\ k a = Return b.
Proof.
  destruct m as [a | e]; simpl; intros H; [ exists a; auto | discriminate ].
Qed.

Lemma try_except_Exception {A : Type} (body : Exc A) (handler : exn -> A)
      (P : A -> Prop) :
  (forall a, body = Return a -> P a) ->
  (forall e, P (handler e)) ->
  exists a, try_except body is_Exception (fun e => Return (handler e)) = Return a /\ P a.
Proof.
  intros Hbody Hhandler. destruct body as [a | e]; simpl.
  - exists a; auto.
  - exists (handler e); auto.
Qed.

Ltac inv_Return :=
  repeat match goal with
         | H : Return _ = Return _ |- _ => inversion H; subst; clear H
         | H : Raise _ = Return _ |- _ => discriminate H
         | H : bind ?m _ = Return _ |- _ =>
             let a := fresh "a" in
             let Ha := fresh "Ha" in
             apply bind_Return in H; destruct H as (a & Ha & H)
         end.

(** ** Integers and their renderings *)

Section Decimal.
Import Py Spec.

Lemma chars_str_of_chars (l : list ascii) : chars (str_of_chars l) = l.
Proof. apply list_ascii_of_string_of_list_ascii. Qed.

Lemma str_of_chars_chars (s : string) : str_of_chars (chars s) = s.
Proof. apply string_of_list_ascii_of_string. Qed.

Lemma chars_String (c : ascii) (x : string) : chars (String c x) = c :: chars x.
Proof. reflexivity. Qed.

Lemma digit_char_facts (d : Z) :
  0 <= d < 10 ->
  digit_val 10 (chr (48 + d)) = Some d /\
  Ascii.eqb (chr (48 + d)) "_" = false /\
  is_space (chr (48 + d)) = false /\
  Ascii.eqb (chr (48 + d)) "-" = false /\
  Ascii.eqb (chr (48 + d)) "+" = false /\
  (code (chr (48 + d)) <? 128) = true.
Proof.
  intros H.
  remember (Z.to_nat d) as k eqn:Hk.
  assert (Hd : d = Z.of_nat k) by lia.
  assert (Hlt : (k < 10)%nat) by lia.
  subst d. clear Hk H.
  do 10 (destruct k as [ | k]; [ repeat split; reflexivity | ]).
  lia.
Qed.

Lemma digits_acc_cons base acc prev c r :
  digits_acc base acc prev (c :: r) =
  if Ascii.eqb c "_"
  then (if prev then digits_acc base acc false r else None)
  else match digit_val base c with
       | Some d => digits_acc base (acc * base + d) true r
       | None => None
       end.
Proof. reflexivity. Qed.

Lemma digits_acc_digits (ds : list Z) (acc : Z) (prev : bool) :
  Forall (fun d => 0 <= d < 10) ds ->
  (prev = true \/ ds <> []) ->
  digits_acc 10 acc prev (map (fun d => chr (48 + d)) ds)
  = Some (fold_left (fun a d => a * 10 + d) ds acc).
Proof.
  intros Hall. revert acc prev.
  induction Hall as [ | d ds Hd Hds IH]; intros acc prev Hne.
  - destruct Hne as [-> | Hne]; [ reflexivity | contradiction Hne; reflexivity ].
  - destruct (digit_char_facts d Hd) as (Hval & Hund & _).
    rewrite map_cons, digits_acc_cons, Hund, Hval. apply IH. left; reflexivity.
Qed.

Lemma le_digits_range (fuel : nat) (n : Z) :
  0 <= n -> Forall (fun d => 0 <= d < 10) (le_digits fuel n).
Proof.
  revert n. induction fuel as [ | fuel IH]; intros n Hn; simpl; [ constructor | ].
  destruct (n <? 10) eqn:E.
  - apply Z.ltb_lt in E. repeat constructor; lia.
  - constructor.
    + apply Z.mod_pos_bound. lia.
    + apply IH. apply Z.div_pos; lia.
Qed.

Lemma le_digits_nonempty (fuel : nat) (n : Z) : le_digits (S fuel) n <> [].
Proof. simpl. destruct (n <? 10); discriminate. Qed.

Lemma le_digits_value (fuel : nat) (n : Z) :
  0 <= n < 10 ^ Z.of_nat fuel ->
  fold_right (fun d a => a * 10 + d) 0 (le_digits fuel n) = n.
Proof.
  revert n. induction fuel as [ | fuel IH]; intros n Hn.
  - simpl in Hn. simpl. lia.
  - simpl le_digits. destruct (n <? 10) eqn:E.
    + simpl. lia.
    + apply Z.ltb_ge in E. simpl fold_right. rewrite IH.
      * pose proof (Z.div_mod n 10). lia.
      * rewrite Nat2Z.inj_succ, Z.pow_succ_r in Hn by lia.
        split; [ apply Z.div_pos; lia | ].
        apply Z.div_lt_upper_bound; lia.
Qed.

(** An integer below [10 ^ k] has at most [k] digits. *)
Lemma le_digits_length (fuel : nat) (n k : Z) :
  0 <= n < 10 ^ k -> 1 <= k ->
  Z.of_nat (List.length (le_digits fuel n)) <= k.
Proof.
  revert n k. induction fuel as [ | fuel IH]; intros n k Hn Hk.
  - simpl. lia.
  - simpl le_digits. destruct (n <? 10) eqn:E.
    + simpl. lia.
    + apply Z.ltb_ge in E.
      assert (Hk2 : 2 <= k).
      { destruct (Z.eq_dec k 1) as [-> | ]; [ | lia ].
        change (10 ^ 1) with 10 in Hn. lia. }
      change (List.length (n mod 10 :: le_digits fuel (n / 10)))
        with (S (List.length (le_digits fuel (n / 10)))).
      rewrite Nat2Z.inj_succ.
      assert (Hrec : Z.of_nat (List.length (le_digits fuel (n / 10))) <= k - 1).
      { apply IH; [ | lia ].
        split; [ apply Z.div_pos; lia | ].
        apply Z.div_lt_upper_bound; [ lia | ].
        replace k with (Z.succ (k - 1)) in Hn by lia.
        rewrite Z.pow_succ_r in Hn by lia. lia. }
      lia.
Qed.

Lemma log2_fuel (n : Z) : 0 <= n -> n < 10 ^ Z.of_nat (S (Z.to_nat (Z.log2 n))).
Proof.
  intros Hn.
  rewrite Nat2Z.inj_succ, Z2Nat.id by apply Z.log2_nonneg.
  destruct (Z.eq_dec n 0) as [-> | Hne].
  - simpl. lia.
  - assert (Hlog : n < 2 ^ Z.succ (Z.log2 n)) by (apply Z.log2_spec; lia).
    eapply Z.lt_le_trans; [ exact Hlog | ].
    apply Z.pow_le_mono_l. lia.
Qed.

Lemma digits_acc_dec_chars (n : Z) :
  0 <= n -> digits_acc 10 0 false (dec_chars n) = Some n.
Proof.
  intros Hn. unfold dec_chars.
  rewrite digits_acc_digits.
  - f_equal. rewrite <- fold_left_rev_right, rev_involutive.
    apply le_digits_value. split; [ exact Hn | apply log2_fuel; exact Hn ].
  - apply Forall_rev. apply le_digits_range. exact Hn.
  - right. intros H. apply (f_equal (@rev Z)) in H. rewrite rev_involutive in H.
    exact (le_digits_nonempty _ _ H).
Qed.

Lemma dec_chars_plain (n : Z) :
  0 <= n -> dec_chars n <> [] /\ Forall plain_digit (dec_chars n).
Proof.
  intros Hn. unfold dec_chars.
  pose proof (le_digits_range (S (Z.to_nat (Z.log2 n))) n Hn) as Hall.
  apply Forall_rev in Hall.
  split.
  - intros H. apply map_eq_nil in H.
    apply (f_equal (@rev Z)) in H. rewrite rev_involutive in H.
    exact (le_digits_nonempty _ _ H).
  - apply Forall_map. eapply Forall_impl; [ | exact Hall ].
    intros a Ha. destruct (digit_char_facts a Ha) as (H1 & H2 & H3 & H4 & H5 & H6).
    repeat split; try assumption. exists a. exact H1.
Qed.

Lemma dec_chars_length (n : Z) :
  0 <= n < 10 ^ max_str_digits ->
  Z.of_nat (List.length (dec_chars n)) <= max_str_digits.
Proof.
  intros Hn. unfold dec_chars. rewrite length_map, length_rev.
  apply le_digits_length; [ exact Hn | unfold max_str_digits; lia ].
Qed.

Lemma plain_no_space (l : list ascii) :
  Forall plain_digit l -> Forall (fun c => is_space c = false) l.
Proof.
  intros H. eapply Forall_impl; [ | exact H ].
  intros c Hc. apply Hc.
Qed.

Lemma plain_ascii (l : list ascii) :
  Forall plain_digit l -> forallb (fun c => code c <? 128) l = true.
Proof.
  intros H. apply forallb_forall. rewrite Forall_forall in H.
  intros c Hc. apply (H c Hc).
Qed.

Lemma plain_span (l : list ascii) :
  Forall plain_digit l -> span_number 10 l = (l, []).
Proof.
  induction 1 as [ | c l Hc Hl IH]; [ reflexivity | ].
  destruct Hc as ((d & Hd) & Hu & _).
  simpl. rewrite Hu, Hd, IH. reflexivity.
Qed.

Lemma plain_count (l : list ascii) :
  Forall plain_digit l -> count_digits l = Z.of_nat (List.length l).
Proof.
  unfold count_digits. induction 1 as [ | c l Hc Hl IH]; [ reflexivity | ].
  destruct Hc as (_ & Hu & _).
  cbn [filter]. rewrite Hu. cbn [negb List.length].
  rewrite !Nat2Z.inj_succ, IH. reflexivity.
Qed.

Lemma lstrip_id (l : list ascii) :
  Forall (fun c => is_space c = false) l -> lstrip l = l.
Proof.
  intros H. destruct H as [ | c l Hc Hl]; [ reflexivity | ].
  simpl. rewrite Hc. reflexivity.
Qed.

Lemma split_sign_minus (l : list ascii) : split_sign ("-"%char :: l) = (true, l).
Proof. reflexivity. Qed.

Lemma split_sign_plain (l : list ascii) :
  Forall plain_digit l -> split_sign l = (false, l).
Proof.
  intros H. destruct H as [ | c l Hc Hl]; [ reflexivity | ].
  destruct Hc as (_ & _ & _ & Hm & Hp & _).
  unfold split_sign. rewrite Hm, Hp. reflexivity.
Qed.

(** [int()] reads digits for what they say. *)
Lemma int_plain (l : list ascii) (n : Z) :
  Forall plain_digit l ->
  digits_acc 10 0 false l = Some n ->
  Z.of_nat (List.length l) <= max_str_digits ->
  Py.int (str_of_chars l) = Return n /\
  Py.int (String "-" (str_of_chars l)) = Return (- n).
Proof.
  intros Hl Hacc Hlen.
  assert (Hlim : (max_str_digits <? count_digits l) = false)
    by (apply Z.ltb_ge; rewrite (plain_count l Hl); exact Hlen).
  split.
  - unfold Py.int. rewrite chars_str_of_chars.
    unfold to_ascii_number. rewrite (plain_ascii l Hl).
    rewrite (lstrip_id l (plain_no_space l Hl)), (split_sign_plain l Hl).
    rewrite (plain_span l Hl), Hacc, Hlim. reflexivity.
  - unfold Py.int. rewrite chars_String, chars_str_of_chars.
    unfold to_ascii_number.
    change (forallb (fun c => code c <? 128) ("-"%char :: l))
      with (forallb (fun c => code c <? 128) l).
    rewrite (plain_ascii l Hl).
    change (lstrip ("-"%char :: l)) with ("-"%char :: l).
    rewrite split_sign_minus.
    rewrite (plain_span l Hl), Hacc, Hlim. reflexivity.
Qed.

(** The round trip of an integer through its rendering, within the
    limit on the number of digits. *)
Lemma int_str (z : Z) :
  Z.abs z < 10 ^ max_str_digits -> Py.int (Py.str z) = Return z.
Proof.
  intros Hz. unfold Py.str.
  destruct (z <? 0) eqn:E.
  - apply Z.ltb_lt in E.
    destruct (dec_chars_plain (- z)) as (_ & Hplain); [ lia | ].
    destruct (int_plain (dec_chars (- z)) (- z) Hplain) as (_ & H).
    + apply digits_acc_dec_chars. lia.
    + apply dec_chars_length. lia.
    + rewrite H. f_equal. lia.
  - apply Z.ltb_ge in E.
    destruct (dec_chars_plain z E) as (_ & Hplain).
    destruct (int_plain (dec_chars z) z Hplain) as (H & _).
    + apply digits_acc_dec_chars. exact E.
    + apply dec_chars_length. lia.
    + exact H.
Qed.

Lemma format_int_Return (z : Z) :
  Z.abs z < 10 ^ max_str_digits -> format_int z = Return (Py.str z).
Proof.
  intros Hz. unfold format_int. apply Z.ltb_lt in Hz. rewrite Hz. reflexivity.
Qed.

Lemma format_int_inv (z : Z) (t : string) :
  format_int z = Return t -> t = Py.str z /\ Z.abs z < 10 ^ max_str_digits.
Proof.
  unfold format_int. destruct (Z.abs z <? 10 ^ max_str_digits) eqn:E;
    [ | discriminate ].
  intros H. injection H as <-. apply Z.ltb_lt in E. split; [ reflexivity | exact E ].
Qed.

(** What is printed reads back. *)
Lemma int_format_int (z : Z) (t : string) :
  format_int z = Return t -> Py.int t = Return z.
Proof.
  intros H. destruct (format_int_inv z t H) as (-> & Hz). exact (int_str z Hz).
Qed.

Lemma count_digits_cons (c : ascii) (l : list ascii) :
  count_digits (c :: l) = if Ascii.eqb c "_" then count_digits l
                          else Z.succ (count_digits l).
Proof.
  unfold count_digits. cbn [filter]. destruct (Ascii.eqb c "_"); cbn [negb];
    [ reflexivity | ].
  cbn [List.length]. rewrite Nat2Z.inj_succ. reflexivity.
Qed.

Lemma count_digits_nonneg (l : list ascii) : 0 <= count_digits l.
Proof. unfold count_digits. lia. Qed.

Lemma digit_val_range (base : Z) (c : ascii) (d : Z) :
  digit_val base c = Some d -> 0 <= d < base.
Proof.
  unfold digit_val.
  set (n := code c).
  assert (Hn : 0 <= n) by (unfold n, code; lia).
  destruct ((48 <=? n) && (n <=? 57)) eqn:E1.
  - apply andb_true_iff in E1. destruct E1 as (Ha & Hb).
    apply Z.leb_le in Ha. apply Z.leb_le in Hb.
    destruct (n - 48 <? base) eqn:E; [ | discriminate ].
    intros H. injection H as <-. apply Z.ltb_lt in E. lia.
  - destruct ((97 <=? n) && (n <=? 122)) eqn:E2.
    + apply andb_true_iff in E2. destruct E2 as (Ha & Hb).
      apply Z.leb_le in Ha. apply Z.leb_le in Hb.
      destruct (n - 87 <? base) eqn:E; [ | discriminate ].
      intros H. injection H as <-. apply Z.ltb_lt in E. lia.
    + destruct ((65 <=? n) && (n <=? 90)) eqn:E3.
      * apply andb_true_iff in E3. destruct E3 as (Ha & Hb).
        apply Z.leb_le in Ha. apply Z.leb_le in Hb.
        destruct (n - 55 <? base) eqn:E; [ | discriminate ].
        intros H. injection H as <-. apply Z.ltb_lt in E. lia.
      * destruct (36 <? base) eqn:E; [ | discriminate ].
        intros H. injection H as <-. apply Z.ltb_lt in E. lia.
Qed.

(** The value of a run of digits lies where their number puts it. *)
Lemma digits_acc_bound (l : list ascii) (acc z : Z) (prev : bool) :
  0 <= acc ->
  digits_acc 10 acc prev l = Some z ->
  acc * 10 ^ count_digits l <= z < (acc + 1) * 10 ^ count_digits l.
Proof.
  revert acc prev. induction l as [ | c l IH]; intros acc prev Hacc H.
  - simpl in H. destruct prev; [ | discriminate H ].
    injection H as <-. change (count_digits []) with 0. lia.
  - rewrite digits_acc_cons in H. rewrite count_digits_cons.
    destruct (Ascii.eqb c "_").
    + destruct prev; [ | discriminate H ]. exact (IH acc false Hacc H).
    + destruct (digit_val 10 c) as [d | ] eqn:Hd; [ | discriminate H ].
      pose proof (digit_val_range 10 c d Hd) as Hr.
      assert (Hacc' : 0 <= acc * 10 + d) by lia.
      pose proof (IH (acc * 10 + d) true Hacc' H) as Hb.
      rewrite Z.pow_succ_r by apply count_digits_nonneg.
      pose proof (count_digits_nonneg l) as Hk.
      assert (Hp : 0 < 10 ^ count_digits l) by (apply Z.pow_pos_nonneg; lia).
      nia.
Qed.

(** [int()] returns no integer of more than 4300 digits. *)
Lemma int_bound (s : string) (z : Z) :
  Py.int s = Return z -> Z.abs z < 10 ^ max_str_digits.
Proof.
  unfold Py.int.
  destruct (split_sign (lstrip (to_ascii_number (chars s)))) as [neg body].
  destruct (span_number 10 body) as [num rest].
  destruct (digits_acc 10 0 false num) as [n | ] eqn:Hacc; [ | discriminate ].
  destruct (max_str_digits <? count_digits num) eqn:Hlim; [ discriminate | ].
  destruct (is_nil (lstrip rest)); [ | discriminate ].
  intros H. injection H as <-.
  apply Z.ltb_ge in Hlim.
  pose proof (digits_acc_bound num 0 n false (Z.le_refl 0) Hacc) as Hb.
  assert (Hle : 10 ^ count_digits num <= 10 ^ max_str_digits)
    by (apply Z.pow_le_mono_r; [ lia | exact Hlim ]).
  destruct neg; unfold apply_sign; lia.
Qed.

Lemma format_int_int (s : string) (z : Z) :
  Py.int s = Return z -> format_int z = Return (Py.str z).
Proof. intros H. apply format_int_Return. exact (int_bound s z H). Qed.
End Decimal.

Section Hex.
Import Py.

Lemma hex_digit_facts (n : Z) :
  0 <= n < 16 ->
  digit_val 16 (hex_digit n) = Some n /\
  Ascii.eqb (hex_digit n) "_" = false /\
  is_space (hex_digit n) = false /\
  lower_char (hex_digit n) = hex_digit n /\
  (code (hex_digit n) <? 128) = true.
Proof.
  intros H.
  remember (Z.to_nat n) as k eqn:Hk.
  assert (Hn : n = Z.of_nat k) by lia.
  assert (Hlt : (k < 16)%nat) by lia.
  subst n. clear Hk H.
  do 16 (destruct k as [ | k]; [ repeat split; reflexivity | ]).
  lia.
Qed.

Lemma byte_nibbles (b : Z) :
  is_byte b -> 0 <= b / 16 < 16 /\ 0 <= b mod 16 < 16 /\ b = (b / 16) * 16 + b mod 16.
Proof.
  unfold is_byte. intros H.
  pose proof (Z.div_mod b 16). pose proof (Z.mod_pos_bound b 16).
  assert (0 <= b / 16) by (apply Z.div_pos; lia).
  assert (b / 16 < 16) by (apply Z.div_lt_upper_bound; lia).
  lia.
Qed.

Lemma hex_chars_cons (b : Z) (r : bytes) :
  hex_chars (b :: r) = hex_digit (b / 16) :: hex_digit (b mod 16) :: hex_chars r.
Proof. reflexivity. Qed.

Lemma be_val_cons (acc b : Z) (r : bytes) : be_val acc (b :: r) = be_val (acc * 256 + b) r.
Proof. reflexivity. Qed.

Lemma digits_acc_hex_chars (bs : bytes) (acc : Z) (prev : bool) :
  Forall is_byte bs ->
  (prev = true \/ bs <> []) ->
  digits_acc 16 acc prev (hex_chars bs) = Some (be_val acc bs).
Proof.
  intros Hall. revert acc prev.
  induction Hall as [ | b bs Hb Hbs IH]; intros acc prev Hne.
  - destruct Hne as [-> | Hne]; [ reflexivity | contradiction Hne; reflexivity ].
  - destruct (byte_nibbles b Hb) as (Hhi & Hlo & Hsplit).
    destruct (hex_digit_facts _ Hhi) as (Hv1 & Hu1 & _).
    destruct (hex_digit_facts _ Hlo) as (Hv2 & Hu2 & _).
    rewrite hex_chars_cons, digits_acc_cons, Hu1, Hv1, digits_acc_cons, Hu2, Hv2, be_val_cons.
    replace ((acc * 16 + b / 16) * 16 + b mod 16) with (acc * 256 + b) by lia.
    apply IH. left; reflexivity.
Qed.

Lemma be_val_app (acc : Z) (l1 l2 : bytes) :
  be_val acc (l1 ++ l2)%list = be_val (be_val acc l1) l2.
Proof.
  revert acc. induction l1 as [ | b l1 IH]; intros acc; [ reflexivity | ].
  simpl. apply IH.
Qed.

Lemma be_bytes_length (n : nat) (z : Z) : List.length (be_bytes n z) = n.
Proof.
  revert z. induction n as [ | n IH]; intros z; [ reflexivity | ].
  simpl. rewrite length_app, IH. simpl. lia.
Qed.

Lemma be_bytes_bytes (n : nat) (z : Z) : Forall is_byte (be_bytes n z).
Proof.
  revert z. induction n as [ | n IH]; intros z; simpl; [ constructor | ].
  apply Forall_app. split; [ apply IH | ].
  constructor; [ | constructor ]. unfold is_byte. apply Z.mod_pos_bound. lia.
Qed.

Lemma be_val_be_bytes (n : nat) (z : Z) :
  0 <= z < 256 ^ Z.of_nat n -> be_val 0 (be_bytes n z) = z.
Proof.
  revert z. induction n as [ | n IH]; intros z Hz.
  - simpl in *. lia.
  - simpl be_bytes. rewrite be_val_app, IH.
    + simpl. pose proof (Z.div_mod z 256). lia.
    + rewrite Nat2Z.inj_succ, Z.pow_succ_r in Hz by lia.
      split; [ apply Z.div_pos; lia | apply Z.div_lt_upper_bound; lia ].
Qed.

Lemma hex_chars_ascii (bs : bytes) :
  Forall is_byte bs -> forallb (fun c => code c <? 128) (hex_chars bs) = true.
Proof.
  induction 1 as [ | b bs Hb Hbs IH]; [ reflexivity | ].
  destruct (byte_nibbles b Hb) as (Hhi & Hlo & _).
  destruct (hex_digit_facts _ Hhi) as (_ & _ & _ & _ & H1).
  destruct (hex_digit_facts _ Hlo) as (_ & _ & _ & _ & H2).
  rewrite hex_chars_cons. simpl forallb. rewrite H1, H2, IH. reflexivity.
Qed.

Lemma hex_chars_span (bs : bytes) :
  Forall is_byte bs -> span_number 16 (hex_chars bs) = (hex_chars bs, []).
Proof.
  induction 1 as [ | b bs Hb Hbs IH]; [ reflexivity | ].
  destruct (byte_nibbles b Hb) as (Hhi & Hlo & _).
  destruct (hex_digit_facts _ Hhi) as (Hv1 & Hu1 & _).
  destruct (hex_digit_facts _ Hlo) as (Hv2 & Hu2 & _).
  rewrite hex_chars_cons. simpl span_number.
  rewrite Hu1, Hv1, Hu2, Hv2, IH. reflexivity.
Qed.

Lemma to_bytes_big_Return (n : nat) (z : Z) (bs : bytes) :
  to_bytes_big n z = Return bs ->
  0 <= z < 256 ^ Z.of_nat n /\ bs = be_bytes n z.
Proof.
  unfold to_bytes_big.
  destruct (z <? 0) eqn:E1; [ discriminate | ].
  destruct (z <? 256 ^ Z.of_nat n) eqn:E2; [ | discriminate ].
  intros H. injection H as <-.
  apply Z.ltb_ge in E1. apply Z.ltb_lt in E2. split; [ lia | reflexivity ].
Qed.

(** The verifier reads back the integer the client rendered. *)
Lemma int16_hex (z : Z) :
  0 <= z < 256 ^ 32 ->
  Py.int16 ("0x" ++ hex (be_bytes 32 z)) = Return z.
Proof.
  intros Hz. unfold Py.int16, hex.
  change (chars ("0x" ++ str_of_chars (hex_chars (be_bytes 32 z))))
    with ("0"%char :: "x"%char :: chars (str_of_chars (hex_chars (be_bytes 32 z)))).
  rewrite chars_str_of_chars.
  pose proof (be_bytes_bytes 32 z) as Hbytes.
  pose proof (be_bytes_length 32 z) as Hlen.
  unfold to_ascii_number.
  change (forallb (fun c => code c <? 128)
            ("0"%char :: "x"%char :: hex_chars (be_bytes 32 z)))
    with (forallb (fun c => code c <? 128) (hex_chars (be_bytes 32 z))).
  rewrite (hex_chars_ascii _ Hbytes).
  change (lstrip ("0"%char :: "x"%char :: hex_chars (be_bytes 32 z)))
    with ("0"%char :: "x"%char :: hex_chars (be_bytes 32 z)).
  change (split_sign ("0"%char :: "x"%char :: hex_chars (be_bytes 32 z)))
    with (false, "0"%char :: "x"%char :: hex_chars (be_bytes 32 z)).
  cbv iota beta.
  destruct (be_bytes 32 z) as [ | b bs] eqn:E; [ discriminate Hlen | ].
  assert (Hb : is_byte b) by (inversion Hbytes; assumption).
  destruct (byte_nibbles b Hb) as (Hhi & Hlo & _).
  destruct (hex_digit_facts _ Hhi) as (_ & Hu & _).
  assert (Hskip : skip_0x ("0"%char :: "x"%char :: hex_chars (b :: bs))
                  = hex_chars (b :: bs)).
  { rewrite hex_chars_cons. unfold skip_0x.
    change (Ascii.eqb "0" "0" && (Ascii.eqb "x" "x" || Ascii.eqb "x" "X")) with true.
    cbv iota. rewrite Hu. reflexivity. }
  rewrite Hskip, (hex_chars_span _ Hbytes).
  rewrite digits_acc_hex_chars; [ | exact Hbytes | right; discriminate ].
  rewrite <- E. rewrite be_val_be_bytes by exact Hz. reflexivity.
Qed.
End Hex.

(** ** Verdicts explain themselves *)

Section Verdicts.
Import Py Protocol Verifier Spec.
Variable W : World.

Lemma explained_reject (reason : string) : explained (false, Some reason).
Proof. intros _; exists reason; reflexivity. Qed.

Lemma explained_accept (r : option string) : explained (true, r).
Proof. intros H; discriminate H. Qed.

Create HintDb verdicts.
Hint Resolve explained_reject explained_accept : verdicts.

Lemma signature_stage_explained ep req fa :
  exists v, _verify_eip3009_signature W ep req fa = Return v /\ explained v.
Proof.
  unfold _verify_eip3009_signature.
  apply (try_except_Exception _
           (fun e => (false, Some ("Signature verification error: " ++ exn_str e)))
           explained); [ | auto with verdicts ].
  intros v Hv.
  destruct (extra req) as [[ | kv ex] | ]; try (inv_Return; auto with verdicts).
  destruct (negb (truthy (extra_get (kv :: ex) "name"))
            || negb (truthy (extra_get (kv :: ex) "version")));
    try (inv_Return; auto with verdicts).
  destruct (parse_chain_id (network req)) as [chain | e].
  - inv_Return.
    destruct (negb (String.eqb (lower a2) (lower fa))); inv_Return; auto with verdicts.
  - destruct (is_ValueError (exn_cls e) || exn_class_eqb (exn_cls e) IndexError);
      inv_Return; auto with verdicts.
Qed.

Lemma exact_scheme_explained pp req :
  exists v, _verify_exact_scheme W pp req = Return v /\ explained v.
Proof.
  unfold _verify_exact_scheme.
  apply (try_except_Exception _
           (fun e => (false, Some ("Exact scheme verification error: " ++ exn_str e)))
           explained); [ | auto with verdicts ].
  intros v Hv. inv_Return.
  destruct (checksum_addresses a req) as [[[fa ta] ra] | e].
  - destruct (negb (String.eqb ta ra)); [ inv_Return; auto with verdicts | ].
    destruct (negb (String.eqb (value a) (maxAmountRequired req)));
      [ inv_Return; auto with verdicts | ].
    inv_Return.
    match goal with
    | H : match ?w with Some _ => _ | None => _ end = Return _ |- _ => destruct w
    end; [ inv_Return; auto with verdicts | ].
    inv_Return.
    match goal with
    | H : _verify_eip3009_signature W _ _ _ = Return ?x |- _ =>
        destruct (signature_stage_explained a req fa) as (v' & Hv' & Hex);
        rewrite Hv' in H; inversion H; subst; clear H; destruct x as [ok err]
    end.
    destruct ok; simpl in Hv; inv_Return; auto with verdicts.
  - destruct (is_ValueError (exn_cls e)); inv_Return; auto with verdicts.
Qed.

Lemma verify_payment_explained h req :
  exists v, verify_payment W h req = Return v /\ explained v.
Proof.
  unfold verify_payment, try_clauses.
  match goal with |- context [match ?b with _ => _ end] => destruct b as [v | e] eqn:Hb end.
  - exists v; split; [ reflexivity | ].
    inv_Return.
    destruct (negb (p_x402Version a =? 1)); [ inv_Return; auto with verdicts | ].
    destruct (negb (String.eqb (p_scheme a) (scheme req)));
      [ inv_Return; auto with verdicts | ].
    destruct (negb (String.eqb (p_network a) (network req)));
      [ inv_Return; auto with verdicts | ].
    destruct (String.eqb (p_scheme a) EXACT); [ | inv_Return; auto with verdicts ].
    destruct (exact_scheme_explained a req) as (v' & Hv' & Hex).
    rewrite Hv' in Hb. inv_Return. exact Hex.
  - simpl.
    destruct (exn_class_eqb (exn_cls e) JSONDecodeError);
      [ eexists; split; [ reflexivity | auto with verdicts ] | ].
    destruct (exn_class_eqb (exn_cls e) BinasciiError);
      eexists; (split; [ reflexivity | auto with verdicts ]).
Qed.
End Verdicts.

(** ** Stepping through the verifier *)

Section Steps.
Import Py Protocol Verifier Spec.
Variable W : World.

Lemma negb_eqb_false (a b : string) : negb (String.eqb a b) = false -> a = b.
Proof.
  intros H. apply String.eqb_eq. destruct (String.eqb a b); [ reflexivity | discriminate H ].
Qed.

Lemma negb_eqb_refl (a : string) : negb (String.eqb a a) = false.
Proof. rewrite String.eqb_refl. reflexivity. Qed.

Lemma negb_eqb_neq (a b : string) : a <> b -> negb (String.eqb a b) = true.
Proof.
  intros H. destruct (String.eqb a b) eqn:E; [ | reflexivity ].
  apply String.eqb_eq in E. contradiction.
Qed.

(** With a decodable header and an envelope that matches the
    requirements, [verify_payment] is [_verify_exact_scheme]. *)
Lemma verify_payment_exact h req pp :
  decode_header W h = Return pp ->
  envelope_accepted pp req ->
  verify_payment W h req = _verify_exact_scheme W pp req.
Proof.
  intros Hdec (Hver & Hsch & Hnet & Hex).
  unfold verify_payment. rewrite Hdec. simpl bind.
  assert (Hexb : String.eqb (p_scheme pp) EXACT = true)
    by (apply String.eqb_eq; exact Hex).
  rewrite Hver. simpl negb.
  rewrite <- Hsch, <- Hnet, !negb_eqb_refl, Hexb.
  destruct (exact_scheme_explained W pp req) as (v & Hv & _).
  rewrite Hv. reflexivity.
Qed.

(** Then the amount test, on the two strings. *)
Lemma exact_scheme_amount pp req ep fa ta :
  ExactPaymentPayload_init (lax_int W) (payload pp) = Return ep ->
  checksum_addresses ep req = Return (fa, ta, ta) ->
  value ep <> maxAmountRequired req ->
  _verify_exact_scheme W pp req =
  Return (false, Some ("Amount mismatch: expected " ++ maxAmountRequired req
                         ++ ", got " ++ value ep)).
Proof.
  intros Hinit Hsum Hne. unfold _verify_exact_scheme.
  rewrite Hinit. simpl bind. rewrite Hsum.
  rewrite negb_eqb_refl, (negb_eqb_neq _ _ Hne). reflexivity.
Qed.

(** Then the time window, and after it the signature stage. *)
Lemma exact_scheme_window pp req ep fa ta now va vb :
  ExactPaymentPayload_init (lax_int W) (payload pp) = Return ep ->
  checksum_addresses ep req = Return (fa, ta, ta) ->
  value ep = maxAmountRequired req ->
  get_block_timestamp W = Return now ->
  Py.int (validAfter ep) = Return va ->
  Py.int (validBefore ep) = Return vb ->
  _verify_exact_scheme W pp req =
  match check_time_window now va vb with
  | Return (Some reason) => Return (false, Some reason)
  | Return None =>
      match _verify_eip3009_signature W ep req fa with
      | Return v => Return (after_signature v)
      | Raise e => Return (false, Some ("Exact scheme verification error: " ++ exn_str e))
      end
  | Raise e => Return (false, Some ("Exact scheme verification error: " ++ exn_str e))
  end.
Proof.
  intros Hinit Hsum Hval Hnow Hva Hvb. unfold _verify_exact_scheme.
  rewrite Hinit. simpl bind. rewrite Hsum.
  rewrite negb_eqb_refl, Hval, negb_eqb_refl, Hnow. simpl bind.
  rewrite Hva. simpl bind. rewrite Hvb. simpl bind.
  destruct (check_time_window now va vb) as [[reason | ] | e]; simpl;
    [ reflexivity | | reflexivity ].
  destruct (_verify_eip3009_signature W ep req fa) as [[ok err] | e]; simpl;
    [ destruct ok; reflexivity | reflexivity ].
Qed.

(** Acceptance read backwards: every test on the way was passed. *)
Lemma exact_scheme_accepted_inv pp req r0 :
  _verify_exact_scheme W pp req = Return (true, r0) ->
  exists ep fa ta now va vb x,
    ExactPaymentPayload_init (lax_int W) (payload pp) = Return ep /\
    checksum_addresses ep req = Return (fa, ta, ta) /\
    value ep = maxAmountRequired req /\
    get_block_timestamp W = Return now /\
    Py.int (validAfter ep) = Return va /\
    Py.int (validBefore ep) = Return vb /\
    check_time_window now va vb = Return None /\
    _verify_eip3009_signature W ep req fa = Return (true, x).
Proof.
  unfold _verify_exact_scheme, try_except. intros H.
  match type of H with
  | match ?b with _ => _ end = _ => destruct b as [v | e] eqn:Hb
  end; [ | simpl in H; discriminate H ].
  injection H as ->.
  apply bind_Return in Hb. destruct Hb as (ep & Hinit & Hb).
  destruct (checksum_addresses ep req) as [[[fa ta] ra] | e] eqn:Hsum;
    [ | destruct (is_ValueError (exn_cls e)); discriminate Hb ].
  destruct (negb (String.eqb ta ra)) eqn:Hto; [ discriminate Hb | ].
  apply negb_eqb_false in Hto. subst ra.
  destruct (negb (String.eqb (value ep) (maxAmountRequired req))) eqn:Hamt;
    [ discriminate Hb | ].
  apply negb_eqb_false in Hamt.
  apply bind_Return in Hb. destruct Hb as (now & Hnow & Hb).
  apply bind_Return in Hb. destruct Hb as (va & Hva & Hb).
  apply bind_Return in Hb. destruct Hb as (vb & Hvb & Hb).
  apply bind_Return in Hb. destruct Hb as ([reason | ] & Hwin & Hb);
    [ discriminate Hb | ].
  apply bind_Return in Hb. destruct Hb as ([ok err] & Hsig & Hb).
  destruct ok; simpl in Hb; [ | discriminate Hb ].
  exists ep, fa, ta, now, va, vb, err. repeat split; assumption.
Qed.

Lemma verify_payment_accepted_inv h req r0 :
  verify_payment W h req = Return (true, r0) ->
  exists pp, decode_header W h = Return pp /\ envelope_accepted pp req /\
             _verify_exact_scheme W pp req = Return (true, r0).
Proof.
  unfold verify_payment, try_clauses. intros H.
  match type of H with
  | match ?b with _ => _ end = _ => destruct b as [v | e] eqn:Hb
  end.
  - injection H as ->. apply bind_Return in Hb. destruct Hb as (pp & Hdec & Hb).
    destruct (negb (p_x402Version pp =? 1)) eqn:Hver;
      [ apply bind_Return in Hb; destruct Hb as (shown & _ & Hb); discriminate Hb | ].
    destruct (negb (String.eqb (p_scheme pp) (scheme req))) eqn:Hsch;
      [ discriminate Hb | ].
    destruct (negb (String.eqb (p_network pp) (network req))) eqn:Hnet;
      [ discriminate Hb | ].
    destruct (String.eqb (p_scheme pp) EXACT) eqn:Hex; [ | discriminate Hb ].
    exists pp. split; [ assumption | ]. split; [ | assumption ].
    repeat split.
    + apply Z.eqb_eq. destruct (p_x402Version pp =? 1); [ reflexivity | discriminate Hver ].
    + apply negb_eqb_false; assumption.
    + apply negb_eqb_false; assumption.
    + apply String.eqb_eq; assumption.
  - simpl in H.
    destruct (exn_class_eqb (exn_cls e) JSONDecodeError); [ discriminate H | ].
    destruct (exn_class_eqb (exn_cls e) BinasciiError); discriminate H.
Qed.

(** The window test in arithmetic. *)
Lemma check_time_window_None now va vb :
  check_time_window now va vb = Return None <-> va <= now <= vb.
Proof.
  unfold check_time_window.
  destruct (now <? va) eqn:E1; [ apply Z.ltb_lt in E1 | apply Z.ltb_ge in E1 ].
  - split; [ | lia ].
    destruct (format_int now); [ | discriminate ].
    destruct (format_int va); discriminate.
  - destruct (now >? vb) eqn:E2.
    + apply Z.gtb_lt in E2. split; [ | lia ].
      destruct (format_int now); [ | discriminate ].
      destruct (format_int vb); discriminate.
    + split; [ intros _ | reflexivity ].
      rewrite Z.gtb_ltb in E2. apply Z.ltb_ge in E2. lia.
Qed.

(** Outside the window the test answers with a reason, or fails to
    print one. *)
Lemma check_time_window_early now va vb :
  now < va ->
  check_time_window now va vb =
  (now_text <- format_int now ;;
   bound <- format_int va ;;
   Return (Some ("Payment not yet valid: current time "
                   ++ now_text ++ " < validAfter " ++ bound))).
Proof.
  intros H. unfold check_time_window. apply Z.ltb_lt in H. rewrite H. reflexivity.
Qed.

Lemma check_time_window_late now va vb :
  va <= now -> vb < now ->
  check_time_window now va vb =
  (now_text <- format_int now ;;
   bound <- format_int vb ;;
   Return (Some ("Payment expired: current time "
                   ++ now_text ++ " > validBefore " ++ bound))).
Proof.
  intros H1 H2. unfold check_time_window.
  apply Z.ltb_ge in H1. rewrite H1. apply Z.gtb_lt in H2. rewrite H2. reflexivity.
Qed.
End Steps.

(** ** C9 and C4 *)

(** C9.  [verify_payment] is total at its interface: for every header
    string and every requirements object it returns a pair
    [(isValid, reason)] and raises nothing, and whenever [isValid] is
    false the reason is a string. *)
Theorem verify_payment_total (W : World) (payment_header : string)
        (payment_requirements : Protocol.PaymentRequirements) :
  exists (is_valid : bool) (reason : option string),
    Verifier.verify_payment W payment_header payment_requirements
    = Return (is_valid, reason) /\
    (is_valid = false -> exists text, reason = Some text).
Proof.
  destruct (verify_payment_explained W payment_header payment_requirements)
    as ([ok reason] & Hv & Hex).
  exists ok, reason. split; [ exact Hv | exact Hex ].
Qed.

(** C4.  When the payment header of a settlement request fails
    verification, [/settle] answers with status 200 and the body
    [{success: false, error: "Verification failed: " + reason,
    txHash: null, networkId: null}], and the settler is not called. *)
Theorem settle_rejects_unverified
        (sv : Facilitator.Services) (request : Facilitator.SettlementRequest)
        (W : World) (settle : Facilitator.settler) (reason : option string) :
  Facilitator.payment_verifier sv = Some W ->
  Facilitator.payment_settler sv = Some settle ->
  Verifier.verify_payment W (Facilitator.paymentHeader request)
                          (Facilitator.paymentRequirements request)
  = Return (false, reason) ->
  exists text,
    reason = Some text /\
    Facilitator.settle_payment sv request =
    (Facilitator.Ok200
       {| Protocol.success := false;
          Protocol.error := Some ("Verification failed: " ++ text);
          Protocol.txHash := None;
          Protocol.networkId := None |},
     [Facilitator.CallVerify (Facilitator.paymentHeader request)]) /\
    Spec.settler_untouched (snd (Facilitator.settle_payment sv request)).
Proof.
  intros Hver Hset Hverdict.
  destruct (verify_payment_explained W (Facilitator.paymentHeader request)
                                     (Facilitator.paymentRequirements request))
    as (v & Hv & Hex).
  rewrite Hverdict in Hv. inversion Hv; subst v; clear Hv.
  destruct (Hex eq_refl) as (text & Htext). simpl in Htext. subst reason.
  exists text. split; [ reflexivity | ].
  assert (Hres :
    Facilitator.settle_payment sv request =
    (Facilitator.Ok200
       {| Protocol.success := false;
          Protocol.error := Some ("Verification failed: " ++ text);
          Protocol.txHash := None;
          Protocol.networkId := None |},
     [Facilitator.CallVerify (Facilitator.paymentHeader request)])).
  { unfold Facilitator.settle_payment, Facilitator.settle_body.
    rewrite Hver, Hset, Hverdict. reflexivity. }
  split; [ exact Hres | ].
  rewrite Hres. simpl. intros pp [Hin | []]. discriminate Hin.
Qed.

Lemma settle_rejects_unverified_witness :
  exists text,
    Some ("Recipient mismatch: expected " ++ Examples.payee ++ ", got "
            ++ Examples.stranger) = Some text /\
    Facilitator.settle_payment Examples.services
      {| Facilitator.x402Version := 1;
         Facilitator.paymentHeader := "header-tampered";
         Facilitator.paymentRequirements := Examples.requirements0 |} =
    (Facilitator.Ok200
       {| Protocol.success := false;
          Protocol.error := Some ("Verification failed: " ++ text);
          Protocol.txHash := None;
          Protocol.networkId := None |},
     [Facilitator.CallVerify "header-tampered"]) /\
    Spec.settler_untouched
      (snd (Facilitator.settle_payment Examples.services
              {| Facilitator.x402Version := 1;
                 Facilitator.paymentHeader := "header-tampered";
                 Facilitator.paymentRequirements := Examples.requirements0 |})).
Proof.
  apply (settle_rejects_unverified
           Examples.services
           {| Facilitator.x402Version := 1;
              Facilitator.paymentHeader := "header-tampered";
              Facilitator.paymentRequirements := Examples.requirements0 |}
           (Examples.world_at 1700000000) Examples.eager_settler).
  - reflexivity.
  - reflexivity.
  - vm_compute. reflexivity.
Defined.

(** ** C3: the time window *)

(** C3 (as amended).  For an exact-scheme payload that reaches the
    time-window test (the header decodes, the envelope matches the
    requirements, the payload validates, the addresses convert, the
    recipient is [payTo] and the value is [maxAmountRequired]), whose
    [validAfter] and [validBefore] are read by [int()], with chain-tip
    time [now]: the test lets the payload through exactly when
    [validAfter <= now <= validBefore], both ends included, and the
    verdict is then the one of the signature stage; when
    [now < validAfter] the verdict is a rejection, with the reason
    "Payment not yet valid: current time <now> < validAfter <validAfter>",
    whether or not [now > validBefore] holds as well; when
    [validAfter <= now] and [now > validBefore] the verdict is a
    rejection with the reason
    "Payment expired: current time <now> > validBefore <validBefore>".
    The two reasons are those of a chain time that Python prints (at most
    4300 digits); the rejection stands without that. *)
Theorem time_window_inclusive
        (W : World) (h : string) (req : Protocol.PaymentRequirements)
        (pp : Protocol.PaymentPayload) (ep : Protocol.ExactPaymentPayload)
        (fa ta : string) (now va vb : Z) :
  decode_header W h = Return pp ->
  Spec.envelope_accepted pp req ->
  Protocol.ExactPaymentPayload_init (lax_int W) (Protocol.payload pp) = Return ep ->
  Verifier.checksum_addresses ep req = Return (fa, ta, ta) ->
  Protocol.value ep = Protocol.maxAmountRequired req ->
  get_block_timestamp W = Return now ->
  Py.int (Protocol.validAfter ep) = Return va ->
  Py.int (Protocol.validBefore ep) = Return vb ->
  (Verifier.check_time_window now va vb = Return None <-> va <= now <= vb) /\
  (va <= now <= vb ->
   exists v, Verifier._verify_eip3009_signature W ep req fa = Return v /\
             Verifier.verify_payment W h req = Return (Spec.after_signature v)) /\
  (now < va ->
   exists reason,
     Verifier.verify_payment W h req = Return (false, Some reason) /\
     (Z.abs now < 10 ^ Py.max_str_digits ->
      reason = "Payment not yet valid: current time " ++ Py.str now
               ++ " < validAfter " ++ Py.str va)) /\
  (va <= now -> vb < now ->
   exists reason,
     Verifier.verify_payment W h req = Return (false, Some reason) /\
     (Z.abs now < 10 ^ Py.max_str_digits ->
      reason = "Payment expired: current time " ++ Py.str now
               ++ " > validBefore " ++ Py.str vb)).
Proof.
  intros Hdec Henv Hinit Hsum Hval Hnow Hva Hvb.
  pose proof (verify_payment_exact W h req pp Hdec Henv) as Hvp.
  pose proof (exact_scheme_window W pp req ep fa ta now va vb
                                  Hinit Hsum Hval Hnow Hva Hvb) as Hwin.
  rewrite <- Hvp in Hwin. clear Hvp.
  split; [ apply check_time_window_None | ].
  split; [ | split ].
  - intros Hin. apply check_time_window_None in Hin. rewrite Hin in Hwin.
    destruct (signature_stage_explained W ep req fa) as (v & Hv & _).
    exists v. split; [ exact Hv | ]. rewrite Hwin, Hv. reflexivity.
  - intros Hlt. rewrite (check_time_window_early now va vb Hlt) in Hwin.
    rewrite (format_int_int _ _ Hva) in Hwin.
    destruct (Py.format_int now) as [shown | e] eqn:Hshown.
    + eexists. split; [ exact Hwin | ]. intros Hsmall.
      rewrite (format_int_Return now Hsmall) in Hshown.
      injection Hshown as <-. reflexivity.
    + eexists. split; [ exact Hwin | ]. intros Hsmall.
      rewrite (format_int_Return now Hsmall) in Hshown. discriminate Hshown.
  - intros Hge Hgt. rewrite (check_time_window_late now va vb Hge Hgt) in Hwin.
    rewrite (format_int_int _ _ Hvb) in Hwin.
    destruct (Py.format_int now) as [shown | e] eqn:Hshown.
    + eexists. split; [ exact Hwin | ]. intros Hsmall.
      rewrite (format_int_Return now Hsmall) in Hshown.
      injection Hshown as <-. reflexivity.
    + eexists. split; [ exact Hwin | ]. intros Hsmall.
      rewrite (format_int_Return now Hsmall) in Hshown. discriminate Hshown.
Qed.

Lemma time_window_inclusive_witness :
  (Verifier.check_time_window 1699999990 1699999990 1700000300 = Return None
   <-> 1699999990 <= 1699999990 <= 1700000300) /\
  (1699999990 <= 1699999990 <= 1700000300 ->
   exists v,
     Verifier._verify_eip3009_signature (Examples.world_at 1699999990)
                                        Examples.signed_payload
                                        Examples.requirements0 Examples.payer
     = Return v /\
     Verifier.verify_payment (Examples.world_at 1699999990) "header-signed"
                             Examples.requirements0
     = Return (Spec.after_signature v)) /\
  (1699999990 < 1699999990 ->
   exists reason,
     Verifier.verify_payment (Examples.world_at 1699999990) "header-signed"
                             Examples.requirements0 = Return (false, Some reason) /\
     (Z.abs 1699999990 < 10 ^ Py.max_str_digits ->
      reason = "Payment not yet valid: current time " ++ Py.str 1699999990
               ++ " < validAfter " ++ Py.str 1699999990)) /\
  (1699999990 <= 1699999990 -> 1700000300 < 1699999990 ->
   exists reason,
     Verifier.verify_payment (Examples.world_at 1699999990) "header-signed"
                             Examples.requirements0 = Return (false, Some reason) /\
     (Z.abs 1699999990 < 10 ^ Py.max_str_digits ->
      reason = "Payment expired: current time " ++ Py.str 1699999990
               ++ " > validBefore " ++ Py.str 1700000300)).
Proof.
  apply (time_window_inclusive (Examples.world_at 1699999990) "header-signed"
           Examples.requirements0 Examples.signed_envelope Examples.signed_payload
           Examples.payer Examples.payee 1699999990 1699999990 1700000300).
  - reflexivity.
  - repeat split; reflexivity.
  - reflexivity.
  - vm_compute. reflexivity.
  - reflexivity.
  - reflexivity.
  - vm_compute. reflexivity.
  - vm_compute. reflexivity.
Defined.

(** C3, the claim as first stated, fails in two ways.  A payload whose
    window has not opened yet is rejected for its recipient, not for the
    time, when the recipient is wrong as well, since that test comes
    first.  And for a window that ends before it starts, a chain time
    after [validBefore] and before [validAfter] is answered with
    "Payment not yet valid", not with "Payment expired". *)
Lemma time_window_counterexample :
  (decode_header (Examples.world_at 1699999989) "header-tampered"
   = Return Examples.tampered_envelope /\
   Protocol.p_scheme Examples.tampered_envelope = Protocol.EXACT /\
   Protocol.ExactPaymentPayload_init (lax_int (Examples.world_at 1699999989))
     (Protocol.payload Examples.tampered_envelope)
   = Return Examples.tampered_payload /\
   get_block_timestamp (Examples.world_at 1699999989) = Return 1699999989 /\
   Py.int (Protocol.validAfter Examples.tampered_payload) = Return 1699999990 /\
   Verifier.verify_payment (Examples.world_at 1699999989) "header-tampered"
                           Examples.requirements0 =
   Return (false,
           Some "Recipient mismatch: expected 0x5aAeb6053F3E94C9b9A09f33669435E7Ef1BeAed, got 0xfB6916095ca1df60bB79Ce92cE3Ea74c37c5d359")) /\
  (decode_header (Examples.world_at 1700000350) "header-inverted-window"
   = Return Examples.inverted_window_envelope /\
   Protocol.p_scheme Examples.inverted_window_envelope = Protocol.EXACT /\
   Protocol.ExactPaymentPayload_init (lax_int (Examples.world_at 1700000350))
     (Protocol.payload Examples.inverted_window_envelope)
   = Return Examples.inverted_window_payload /\
   get_block_timestamp (Examples.world_at 1700000350) = Return 1700000350 /\
   Py.int (Protocol.validAfter Examples.inverted_window_payload) = Return 1700000400 /\
   Py.int (Protocol.validBefore Examples.inverted_window_payload) = Return 1700000300 /\
   Verifier.verify_payment (Examples.world_at 1700000350) "header-inverted-window"
                           Examples.requirements0 =
   Return (false,
           Some "Payment not yet valid: current time 1700000350 < validAfter 1700000400")).
Proof.
  repeat apply conj; vm_compute; reflexivity.
Qed.

(** ** C2 and C10: the amount *)

(** A world and a header decoding to an exact payload accepted by
    [verify_payment] carry the required amount, letter for letter. *)
Lemma accepted_amount_matches (W : World) (h : string)
      (req : Protocol.PaymentRequirements) (pp : Protocol.PaymentPayload)
      (ep : Protocol.ExactPaymentPayload) (r0 : option string) :
  decode_header W h = Return pp ->
  Protocol.ExactPaymentPayload_init (lax_int W) (Protocol.payload pp) = Return ep ->
  Verifier.verify_payment W h req = Return (true, r0) ->
  Protocol.value ep = Protocol.maxAmountRequired req.
Proof.
  intros Hdec Hinit Hacc.
  destruct (verify_payment_accepted_inv W h req r0 Hacc) as (pp' & Hdec' & _ & Hex).
  rewrite Hdec in Hdec'. injection Hdec' as <-.
  destruct (exact_scheme_accepted_inv W pp req r0 Hex)
    as (ep' & fa & ta & now & va & vb & x & Hinit' & _ & Hval & _).
  rewrite Hinit in Hinit'. injection Hinit' as <-. exact Hval.
Qed.

Lemma mismatch_rejected (W : World) (h : string)
      (req : Protocol.PaymentRequirements) (pp : Protocol.PaymentPayload)
      (ep : Protocol.ExactPaymentPayload) :
  decode_header W h = Return pp ->
  Protocol.ExactPaymentPayload_init (lax_int W) (Protocol.payload pp) = Return ep ->
  Protocol.value ep <> Protocol.maxAmountRequired req ->
  exists reason, Verifier.verify_payment W h req = Return (false, Some reason).
Proof.
  intros Hdec Hinit Hne.
  destruct (verify_payment_explained W h req) as ([ok reason] & Hv & Hex).
  destruct ok.
  - exfalso. apply Hne. exact (accepted_amount_matches W h req pp ep reason Hdec Hinit Hv).
  - destruct (Hex eq_refl) as (text & Htext). simpl in Htext. subst reason.
    exists text. exact Hv.
Qed.

Lemma mismatch_reason (W : World) (h : string)
      (req : Protocol.PaymentRequirements) (pp : Protocol.PaymentPayload)
      (ep : Protocol.ExactPaymentPayload) (fa ta : string) :
  decode_header W h = Return pp ->
  Spec.envelope_accepted pp req ->
  Protocol.ExactPaymentPayload_init (lax_int W) (Protocol.payload pp) = Return ep ->
  Verifier.checksum_addresses ep req = Return (fa, ta, ta) ->
  Protocol.value ep <> Protocol.maxAmountRequired req ->
  Verifier.verify_payment W h req =
  Return (false, Some ("Amount mismatch: expected " ++ Protocol.maxAmountRequired req
                         ++ ", got " ++ Protocol.value ep)).
Proof.
  intros Hdec Henv Hinit Hsum Hne.
  rewrite (verify_payment_exact W h req pp Hdec Henv).
  exact (exact_scheme_amount W pp req ep fa ta Hinit Hsum Hne).
Qed.

(** C2 (as amended).  For every payload whose value differs from
    [maxAmountRequired] as text, in either direction, [verify_payment]
    returns [isValid = false] with a reason; the reason is
    "Amount mismatch: expected <required>, got <value>" when the tests
    made before the amount test pass (the envelope matches the
    requirements, the addresses convert, the recipient is [payTo]).  A
    payload is accepted only when its value is [maxAmountRequired] letter
    for letter: a value of zero is accepted only for a
    [maxAmountRequired] that is the same text. *)
Theorem amount_must_match
        (W : World) (h : string) (req : Protocol.PaymentRequirements)
        (pp : Protocol.PaymentPayload) (ep : Protocol.ExactPaymentPayload) :
  decode_header W h = Return pp ->
  Protocol.ExactPaymentPayload_init (lax_int W) (Protocol.payload pp) = Return ep ->
  (Protocol.value ep <> Protocol.maxAmountRequired req ->
   exists reason,
     Verifier.verify_payment W h req = Return (false, Some reason) /\
     forall fa ta,
       Spec.envelope_accepted pp req ->
       Verifier.checksum_addresses ep req = Return (fa, ta, ta) ->
       reason = "Amount mismatch: expected " ++ Protocol.maxAmountRequired req
                ++ ", got " ++ Protocol.value ep) /\
  (forall r0, Verifier.verify_payment W h req = Return (true, r0) ->
              Protocol.value ep = Protocol.maxAmountRequired req).
Proof.
  intros Hdec Hinit. split.
  - intros Hne.
    destruct (mismatch_rejected W h req pp ep Hdec Hinit Hne) as (reason & Hrej).
    exists reason. split; [ exact Hrej | ].
    intros fa ta Henv Hsum.
    rewrite (mismatch_reason W h req pp ep fa ta Hdec Henv Hinit Hsum Hne) in Hrej.
    injection Hrej as <-. reflexivity.
  - intros r0 Hacc.
    exact (accepted_amount_matches W h req pp ep r0 Hdec Hinit Hacc).
Qed.

Lemma amount_must_match_witness :
  (Protocol.value Examples.underpaid_payload
   <> Protocol.maxAmountRequired Examples.requirements0 ->
   exists reason,
     Verifier.verify_payment (Examples.world_at 1700000000) "header-underpaid"
                             Examples.requirements0 = Return (false, Some reason) /\
     forall fa ta,
       Spec.envelope_accepted Examples.underpaid_envelope Examples.requirements0 ->
       Verifier.checksum_addresses Examples.underpaid_payload Examples.requirements0
       = Return (fa, ta, ta) ->
       reason = "Amount mismatch: expected "
                ++ Protocol.maxAmountRequired Examples.requirements0
                ++ ", got " ++ Protocol.value Examples.underpaid_payload) /\
  (forall r0,
     Verifier.verify_payment (Examples.world_at 1700000000) "header-underpaid"
                             Examples.requirements0 = Return (true, r0) ->
     Protocol.value Examples.underpaid_payload
     = Protocol.maxAmountRequired Examples.requirements0).
Proof.
  apply (amount_must_match (Examples.world_at 1700000000) "header-underpaid"
           Examples.requirements0 Examples.underpaid_envelope
           Examples.underpaid_payload).
  - reflexivity.
  - reflexivity.
Defined.

(** C2, the claim as first stated, fails in two ways.  A payload that
    overpays and also names another recipient is rejected with a recipient
    reason, not an amount reason.  And a value of zero is accepted for a
    [maxAmountRequired] other than "0": the payment the client makes for
    the amount "00" carries the value "00", which [int()] reads as zero,
    and is accepted. *)
Lemma amount_reason_counterexample :
  (decode_header (Examples.world_at 1700000000) "header-tampered"
   = Return Examples.tampered_envelope /\
   Protocol.p_scheme Examples.tampered_envelope = Protocol.EXACT /\
   Protocol.ExactPaymentPayload_init (lax_int (Examples.world_at 1700000000))
                                     (Protocol.payload Examples.tampered_envelope)
   = Return Examples.tampered_payload /\
   Protocol.value Examples.tampered_payload = "20000" /\
   Protocol.maxAmountRequired Examples.requirements0 = "10000" /\
   Verifier.verify_payment (Examples.world_at 1700000000) "header-tampered"
                           Examples.requirements0 =
   Return (false,
           Some "Recipient mismatch: expected 0x5aAeb6053F3E94C9b9A09f33669435E7Ef1BeAed, got 0xfB6916095ca1df60bB79Ce92cE3Ea74c37c5d359")) /\
  (decode_header (Examples.world_at 1700000000) "header-double-zero"
   = Return Examples.double_zero_envelope /\
   Protocol.p_scheme Examples.double_zero_envelope = Protocol.EXACT /\
   Protocol.ExactPaymentPayload_init (lax_int (Examples.world_at 1700000000))
                                     (Protocol.payload Examples.double_zero_envelope)
   = Return Examples.double_zero_payload /\
   Protocol.value Examples.double_zero_payload = "00" /\
   Py.int (Protocol.value Examples.double_zero_payload) = Return 0 /\
   Protocol.maxAmountRequired Examples.double_zero_requirements = "00" /\
   Verifier.verify_payment (Examples.world_at 1700000000) "header-double-zero"
                           Examples.double_zero_requirements =
   Return (true, None)).
Proof.
  repeat apply conj; vm_compute; reflexivity.
Qed.

(** C10 (as amended).  The amount test compares the wire strings, not the
    integers they denote: when the tests made before it pass (the
    envelope matches the requirements, the addresses convert, the
    recipient is [payTo]), every payload whose value differs textually
    from [maxAmountRequired] is rejected with an "Amount mismatch"
    reason, whatever integers the two strings denote, the same one
    included. *)
Theorem amount_compared_as_text
        (W : World) (h : string) (req : Protocol.PaymentRequirements)
        (pp : Protocol.PaymentPayload) (ep : Protocol.ExactPaymentPayload)
        (fa ta : string) :
  decode_header W h = Return pp ->
  Spec.envelope_accepted pp req ->
  Protocol.ExactPaymentPayload_init (lax_int W) (Protocol.payload pp) = Return ep ->
  Verifier.checksum_addresses ep req = Return (fa, ta, ta) ->
  Protocol.value ep <> Protocol.maxAmountRequired req ->
  Verifier.verify_payment W h req =
  Return (false, Some ("Amount mismatch: expected "
                         ++ Protocol.maxAmountRequired req
                         ++ ", got " ++ Protocol.value ep)).
Proof.
  intros Hdec Henv Hinit Hsum Hne.
  exact (mismatch_reason W h req pp ep fa ta Hdec Henv Hinit Hsum Hne).
Qed.

Lemma amount_compared_as_text_witness :
  Py.int (Protocol.value Examples.leading_zero_payload)
  = Py.int (Protocol.maxAmountRequired Examples.requirements0) /\
  Verifier.verify_payment (Examples.world_at 1700000000) "header-leading-zero"
                          Examples.requirements0 =
  Return (false, Some ("Amount mismatch: expected "
                         ++ Protocol.maxAmountRequired Examples.requirements0
                         ++ ", got " ++ Protocol.value Examples.leading_zero_payload)).
Proof.
  split; [ vm_compute; reflexivity | ].
  apply (amount_compared_as_text (Examples.world_at 1700000000) "header-leading-zero"
           Examples.requirements0 Examples.leading_zero_envelope
           Examples.leading_zero_payload Examples.payer Examples.payee).
  - reflexivity.
  - repeat split; reflexivity.
  - reflexivity.
  - vm_compute. reflexivity.
  - discriminate.
Defined.

(** C10, the claim as first stated, fails: a payload whose value is the
    required amount written with a leading zero, sent under protocol
    version 2, is rejected for its version, not for its amount. *)
Lemma amount_text_counterexample :
  decode_header (Examples.world_at 1700000000) "header-version-2"
  = Return Examples.version2_envelope /\
  Protocol.p_scheme Examples.version2_envelope = Protocol.EXACT /\
  Protocol.ExactPaymentPayload_init (lax_int (Examples.world_at 1700000000))
                                    (Protocol.payload Examples.version2_envelope)
  = Return Examples.leading_zero_payload /\
  Protocol.value Examples.leading_zero_payload = "010000" /\
  Protocol.maxAmountRequired Examples.requirements0 = "10000" /\
  Verifier.verify_payment (Examples.world_at 1700000000) "header-version-2"
                          Examples.requirements0 =
  Return (false, Some "Unsupported protocol version: 2").
Proof.
  repeat apply conj; vm_compute; reflexivity.
Qed.

(** ** C5: the facilitator answers with an error status *)

(** C5 (as amended).  For every request carrying a non-empty [X-PAYMENT]
    header for which the facilitator's [/settle] answers with a status
    other than 200, the middleware answers 402 with the body
    [{"error": "Payment settlement failed", "details": <text of the
    facilitator's answer>}]. *)
Theorem facilitator_failure_gives_402
        (cfg : ResourceServer.Config) (pow10_negative : Z -> spec_float)
        (post_settle : string -> Protocol.PaymentRequirements -> Exc ResourceServer.reply)
        (b64_json : Py.pyval -> string) (amount_usd description : string)
        (f : Exc ResourceServer.view_result) (rq : ResourceServer.request)
        (payment_header : string) (reqs : Protocol.PaymentRequirements)
        (answer : ResourceServer.reply) :
  ResourceServer.header_get (ResourceServer.request_headers rq)
                            Protocol.X_PAYMENT_HEADER = Some payment_header ->
  payment_header <> "" ->
  ResourceServer.create_payment_requirements cfg pow10_negative amount_usd
    (ResourceServer.path rq) description "application/json" = Return reqs ->
  post_settle payment_header reqs = Return answer ->
  ResourceServer.reply_status_code answer <> 200 ->
  ResourceServer.decorated_function cfg pow10_negative post_settle b64_json
                                    amount_usd description f rq =
  Return {| ResourceServer.status_code := 402;
            ResourceServer.body :=
              Py.PyDict [("error", Py.PyStr "Payment settlement failed");
                         ("details", Py.PyStr (ResourceServer.reply_text answer))];
            ResourceServer.headers := [] |}.
Proof.
  intros Hhdr Hne Hreqs Hpost Hstatus.
  unfold ResourceServer.decorated_function. rewrite Hhdr.
  destruct payment_header as [ | c rest]; [ contradiction Hne; reflexivity | ].
  rewrite Hreqs. simpl bind. unfold try_clauses. rewrite Hpost. simpl bind.
  apply Z.eqb_neq in Hstatus. rewrite Hstatus. reflexivity.
Qed.

Lemma facilitator_failure_gives_402_witness :
  ResourceServer.decorated_function
    Examples.config Examples.pow10_unused Examples.failing_facilitator
    Examples.receipt_text "$0.01" "Current weather information"
    Examples.weather_view Examples.paid_request =
  Return {| ResourceServer.status_code := 402;
            ResourceServer.body :=
              Py.PyDict [("error", Py.PyStr "Payment settlement failed");
                         ("details", Py.PyStr "Internal Server Error")];
            ResourceServer.headers := [] |}.
Proof.
  apply (facilitator_failure_gives_402
           Examples.config Examples.pow10_unused Examples.failing_facilitator
           Examples.receipt_text "$0.01" "Current weather information"
           Examples.weather_view Examples.paid_request "header-signed"
           Examples.requirements0
           {| ResourceServer.reply_status_code := 500;
              ResourceServer.reply_text := "Internal Server Error";
              ResourceServer.reply_json :=
                Raise (Exn JSONDecodeError "Expecting value") |}).
  - reflexivity.
  - discriminate.
  - vm_compute. reflexivity.
  - reflexivity.
  - simpl. lia.
Defined.

(** C5, the claim as first stated, fails: with a facilitator answering
    500, the 402 body has the two keys [error] and [details] and no
    requirements: it has no [accepts] entry and differs from every
    payment-required body built on the requirements of the request. *)
Lemma facilitator_failure_body_counterexample :
  ResourceServer.create_payment_requirements
    Examples.config Examples.pow10_unused "$0.01" "/weather"
    "Current weather information" "application/json"
  = Return Examples.requirements0 /\
  exists resp,
    ResourceServer.decorated_function
      Examples.config Examples.pow10_unused Examples.failing_facilitator
      Examples.receipt_text "$0.01" "Current weather information"
      Examples.weather_view Examples.paid_request = Return resp /\
    ResourceServer.status_code resp = 402 /\
    ResourceServer.json_get (ResourceServer.body resp) "accepts" = Return None /\
    ResourceServer.json_get (ResourceServer.body resp) "error"
    = Return (Some (Py.PyStr "Payment settlement failed")) /\
    forall err,
      ResourceServer.body resp
      <> ResourceServer.payment_required_dump Examples.requirements0 err.
Proof.
  split; [ vm_compute; reflexivity | ].
  eexists. split; [ vm_compute; reflexivity | ].
  repeat split; try reflexivity.
  intros err H. discriminate H.
Qed.

(** ** C6: the amount in atomic units *)

(** C6.  The code multiplies in binary floating point: for the amount
    "$2.01" and six token decimals the minted [maxAmountRequired] is
    "2009999", whereas [floor(2.01 * 10^6)], taken over the exact decimal
    value [201/100], is 2010000. *)
Theorem atomic_amount_rounds_down :
  exists reqs,
    ResourceServer.create_payment_requirements
      Examples.config Examples.pow10_unused "$2.01" "/weather"
      "Current weather information" "application/json" = Return reqs /\
    Protocol.maxAmountRequired reqs = "2009999" /\
    Py.str (201 * 10 ^ ResourceServer.TOKEN_DECIMALS Examples.config / 100) = "2010000".
Proof.
  eexists. split; [ vm_compute; reflexivity | ].
  split; vm_compute; reflexivity.
Qed.

(** ** Inside the signature stage *)

Section SignatureStage.
Import Py Protocol EthUtils EthAccount Verifier Spec.
Variable W : World.

(** With the two type tables of the source and a four-key domain,
    [encode_typed_data] is the hash of the domain followed by the hash of
    the transfer. *)
Lemma encode_typed_data_standard (enc : string -> pyval -> Exc bytes)
      (name version chain contract : pyval) (m : dict) :
  let dom := [("name", name); ("version", version); ("chainId", chain);
              ("verifyingContract", contract)] in
  encode_typed_data enc {| types := message_types;
                           primaryType := "TransferWithAuthorization";
                           domain := dom;
                           message := m |}
  = (hd <- hash_struct enc "EIP712Domain" domain_fields dom ;;
     bd <- hash_struct enc "TransferWithAuthorization" transfer_fields m ;;
     Return {| version := [1]; header := hd; body := bd |}).
Proof.
  reflexivity.
Qed.

(** Acceptance by the signature stage, read backwards. *)
Lemma signature_accepted_inv ep req fa x :
  _verify_eip3009_signature W ep req fa = Return (true, x) ->
  exists ex chain td msg sig addr,
    extra req = Some ex /\
    parse_chain_id (network req) = Return chain /\
    Verifier.typed_data_of (extra_get ex "name") (extra_get ex "version")
                           chain ep req = Return td /\
    encode_typed_data (encode_other W) td = Return msg /\
    signature_bytes_of ep = Return sig /\
    recover_message (ecdsa_recover W) msg sig = Return addr /\
    lower addr = lower fa.
Proof.
  unfold _verify_eip3009_signature, try_except. intros H.
  match type of H with
  | match ?b with _ => _ end = _ => destruct b as [v0 | e] eqn:Hb
  end; [ | simpl in H; discriminate H ].
  injection H as ->.
  destruct (extra req) as [[ | kv ex] | ] eqn:Hextra; try discriminate Hb.
  destruct (negb (truthy (extra_get (kv :: ex) "name"))
            || negb (truthy (extra_get (kv :: ex) "version")));
    [ discriminate Hb | ].
  destruct (parse_chain_id (network req)) as [chain | e] eqn:Hchain;
    [ | destruct (is_ValueError (exn_cls e) || exn_class_eqb (exn_cls e) IndexError);
        discriminate Hb ].
  apply bind_Return in Hb. destruct Hb as (td & Htd & Hb).
  apply bind_Return in Hb. destruct Hb as (msg & Hmsg & Hb).
  apply bind_Return in Hb. destruct Hb as (sig & Hsig & Hb).
  apply bind_Return in Hb. destruct Hb as (addr & Haddr & Hb).
  destruct (negb (String.eqb (lower addr) (lower fa))) eqn:Heq; [ discriminate Hb | ].
  apply negb_eqb_false in Heq.
  exists (kv :: ex), chain, td, msg, sig, addr. repeat split; assumption.
Qed.

Lemma last_snoc (l : list Z) (a d : Z) : last (l ++ [a])%list d = a.
Proof.
  induction l as [ | b l IH]; [ reflexivity | ].
  simpl. destruct (l ++ [a])%list eqn:E; [ | exact IH ].
  destruct l; discriminate E.
Qed.

Lemma removelast_snoc (l : list Z) (a : Z) : removelast (l ++ [a])%list = l.
Proof.
  rewrite removelast_app by discriminate. simpl. apply app_nil_r.
Qed.

(** The signature bytes end with [v], which is a byte. *)
Lemma signature_bytes_shape ep sig :
  signature_bytes_of ep = Return sig ->
  exists rs, sig = (rs ++ [v ep])%list /\ 0 <= v ep < 256.
Proof.
  unfold signature_bytes_of. intros H.
  apply bind_Return in H. destruct H as (r0 & _ & H).
  apply bind_Return in H. destruct H as (s0 & _ & H).
  apply bind_Return in H. destruct H as (rb & _ & H).
  apply bind_Return in H. destruct H as (sb & _ & H).
  apply bind_Return in H. destruct H as (vb & Hvb & H).
  injection H as <-.
  unfold bytes_of_int_list1 in Hvb.
  destruct ((0 <=? v ep) && (v ep <? 256)) eqn:Hrange; [ | discriminate Hvb ].
  injection Hvb as <-.
  apply andb_true_iff in Hrange. destruct Hrange as (Hlo & Hhi).
  apply Z.leb_le in Hlo. apply Z.ltb_lt in Hhi.
  exists (rb ++ sb)%list. split; [ apply app_assoc | lia ].
Qed.

(** What [to_standard_v] lets through. *)
Lemma to_standard_v_Return (raw_v std : Z) :
  to_standard_v raw_v = Return std ->
  raw_v = 0 \/ raw_v = 1 \/ raw_v = 27 \/ raw_v = 28 \/ 35 <= raw_v.
Proof.
  unfold to_standard_v.
  destruct (raw_v - 35 <? 0) eqn:E35.
  - destruct ((raw_v =? 0) || (raw_v =? 1)) eqn:E01.
    + intros _. apply orb_true_iff in E01.
      destruct E01 as [E | E]; apply Z.eqb_eq in E; auto.
    + destruct ((raw_v =? 27) || (raw_v =? 28)) eqn:E27;
        [ | destruct (Py.format_int raw_v); discriminate ].
      intros _. apply orb_true_iff in E27.
      destruct E27 as [E | E]; apply Z.eqb_eq in E; auto.
  - intros _. apply Z.ltb_ge in E35. right; right; right; right. lia.
Qed.

Lemma recover_message_standard_v rec msg sig addr :
  recover_message rec msg sig = Return addr ->
  exists std, to_standard_v (last sig 0) = Return std.
Proof.
  unfold recover_message. intros H.
  apply bind_Return in H. destruct H as (std & Hstd & _).
  exists std. exact Hstd.
Qed.

(** An accepted signature has a [v] that recovery takes as a parity. *)
Lemma signature_accepted_v ep req fa x :
  _verify_eip3009_signature W ep req fa = Return (true, x) ->
  recoverable_v (v ep).
Proof.
  intros H.
  destruct (signature_accepted_inv ep req fa x H)
    as (ex & chain & td & msg & sig & addr & _ & _ & _ & _ & Hsig & Hrec & _).
  destruct (signature_bytes_shape ep sig Hsig) as (rs & -> & Hbyte).
  destruct (recover_message_standard_v _ _ _ _ Hrec) as (std & Hstd).
  rewrite last_snoc in Hstd.
  apply to_standard_v_Return in Hstd.
  unfold recoverable_v.
  destruct Hstd as [E | [E | [E | [E | E]]]]; auto.
  right; right; right; right. lia.
Qed.

(** The word of a member, by its type. *)
Lemma encode_field_bytes32 enc n t :
  encode_field enc n "bytes32" (Some (PyStr t))
  = match bytes_value t with
    | Some bs =>
        if (List.length bs <=? 32)%nat then Return (pad_right32 bs)
        else Raise (not_encodable (repr_bytes bs) "bytes" "BytesEncoder"
                      ": exceeds total byte size for bytes32 encoding")
    | None => Raise (Exn BinasciiError "Non-hexadecimal digit found")
    end.
Proof. reflexivity. Qed.

Lemma encode_field_uint256_Return enc n z w :
  encode_field enc n "uint256" (Some (PyInt z)) = Return w ->
  0 <= z < 2 ^ 256 /\ w = be_bytes 32 z.
Proof.
  change (encode_field enc n "uint256" (Some (PyInt z)))
    with (if (0 <=? z) && (z <? 2 ^ 256) then Return (be_bytes 32 z)
          else
            shown <- format_int z ;;
            Raise (not_encodable shown "int" "UnsignedIntegerEncoder"
                     (": Cannot be encoded in 256 bits. Must be bounded between [0, "
                      ++ Py.str (2 ^ 256 - 1) ++ "]."))).
  destruct ((0 <=? z) && (z <? 2 ^ 256)) eqn:E.
  - intros H. injection H as <-. apply andb_true_iff in E. destruct E as (E1 & E2).
    apply Z.leb_le in E1. apply Z.ltb_lt in E2. repeat split; assumption.
  - destruct (format_int z); discriminate.
Qed.


Lemma encode_field_address enc n t :
  encode_field enc n "address" (Some (PyStr t))
  = if EthUtils.is_address t then
      bs <- to_canonical_address t ;;
      Return (zeros 12 ++ bs)%list
    else Raise (not_encodable (repr t) "str" "AddressEncoder" "").
Proof. reflexivity. Qed.

Lemma encode_field_address_Return enc n t w :
  encode_field enc n "address" (Some (PyStr t)) = Return w ->
  EthUtils.is_address t = true.
Proof.
  rewrite encode_field_address.
  destruct (EthUtils.is_address t); [ reflexivity | discriminate ].
Qed.

(** The words of the members, one after the other. *)
Lemma encode_fields_cons enc n t rest data ws :
  encode_fields enc ((n, t) :: rest) data = Return ws ->
  exists w ws', encode_field enc n t (dict_get data n) = Return w /\
                encode_fields enc rest data = Return ws'.
Proof.
  simpl. intros H.
  apply bind_Return in H. destruct H as (w & Hw & H).
  apply bind_Return in H. destruct H as (ws' & Hws' & _).
  exists w, ws'. split; assumption.
Qed.

(** An accepted signature has a nonce of at most 32 bytes. *)
Lemma signature_accepted_nonce ep req fa x :
  _verify_eip3009_signature W ep req fa = Return (true, x) ->
  exists bs, bytes_value (nonce ep) = Some bs /\ (List.length bs <= 32)%nat.
Proof.
  intros H.
  destruct (signature_accepted_inv ep req fa x H)
    as (ex & chain & td & msg & sig & addr & _ & _ & Htd & Hmsg & _).
  unfold Verifier.typed_data_of in Htd.
  apply bind_Return in Htd. destruct Htd as (val & _ & Htd).
  apply bind_Return in Htd. destruct Htd as (va & _ & Htd).
  apply bind_Return in Htd. destruct Htd as (vb & _ & Htd).
  injection Htd as <-.
  rewrite encode_typed_data_standard in Hmsg.
  apply bind_Return in Hmsg. destruct Hmsg as (hd & _ & Hmsg).
  apply bind_Return in Hmsg. destruct Hmsg as (bd & Hbd & _).
  unfold hash_struct in Hbd.
  apply bind_Return in Hbd. destruct Hbd as (ws & Hws & _).
  unfold transfer_fields in Hws.
  do 5 (apply encode_fields_cons in Hws; destruct Hws as (? & ws' & _ & Hws);
        clear ws; rename ws' into ws).
  apply encode_fields_cons in Hws. destruct Hws as (w & _ & Hw & _).
  change (dict_get _ "nonce") with (Some (PyStr (nonce ep))) in Hw.
  rewrite encode_field_bytes32 in Hw.
  destruct (bytes_value (nonce ep)) as [bs | ]; [ | discriminate Hw ].
  destruct (List.length bs <=? 32)%nat eqn:Hlen; [ | discriminate Hw ].
  exists bs. split; [ reflexivity | ]. apply Nat.leb_le. exact Hlen.
Qed.
End SignatureStage.

(** ** C7: the recovery identifier *)

Lemma accepted_signature (W : World) (h : string)
      (req : Protocol.PaymentRequirements) (pp : Protocol.PaymentPayload)
      (ep : Protocol.ExactPaymentPayload) (r0 : option string) :
  decode_header W h = Return pp ->
  Protocol.ExactPaymentPayload_init (lax_int W) (Protocol.payload pp) = Return ep ->
  Verifier.verify_payment W h req = Return (true, r0) ->
  exists fa x, Verifier._verify_eip3009_signature W ep req fa = Return (true, x).
Proof.
  intros Hdec Hinit Hacc.
  destruct (verify_payment_accepted_inv W h req r0 Hacc) as (pp' & Hdec' & _ & Hex).
  rewrite Hdec in Hdec'. injection Hdec' as <-.
  destruct (exact_scheme_accepted_inv W pp req r0 Hex)
    as (ep' & fa & ta & now & va & vb & x & Hinit' & _ & _ & _ & _ & _ & _ & Hsig).
  rewrite Hinit in Hinit'. injection Hinit' as <-.
  exists fa, x. exact Hsig.
Qed.

Lemma rejected_unless (W : World) (h : string)
      (req : Protocol.PaymentRequirements) (P : Prop) :
  (forall r0, Verifier.verify_payment W h req = Return (true, r0) -> P) ->
  ~ P ->
  exists reason, Verifier.verify_payment W h req = Return (false, Some reason).
Proof.
  intros Hacc Hnot.
  destruct (verify_payment_explained W h req) as ([ok reason] & Hv & Hex).
  destruct ok.
  - exfalso. exact (Hnot (Hacc reason Hv)).
  - destruct (Hex eq_refl) as (text & Htext). simpl in Htext. subst reason.
    exists text. exact Hv.
Qed.

(** C7 (as amended).  For every exact-scheme payload whose [v] is none of
    0, 1, 27, 28 and not in 35..255, [verify_payment] returns
    [isValid = false].  (The verifier has no test of its own on [v]: it
    must fit a byte, and signer recovery folds 0 and 1, and 35 and above,
    onto the two parities that 27 and 28 stand for.) *)
Theorem unrecoverable_v_rejected
        (W : World) (h : string) (req : Protocol.PaymentRequirements)
        (pp : Protocol.PaymentPayload) (ep : Protocol.ExactPaymentPayload) :
  decode_header W h = Return pp ->
  Protocol.p_scheme pp = Protocol.EXACT ->
  Protocol.ExactPaymentPayload_init (lax_int W) (Protocol.payload pp) = Return ep ->
  ~ Spec.recoverable_v (Protocol.v ep) ->
  exists reason, Verifier.verify_payment W h req = Return (false, Some reason).
Proof.
  intros Hdec _ Hinit Hv.
  apply (rejected_unless W h req (Spec.recoverable_v (Protocol.v ep))); [ | exact Hv ].
  intros r0 Hacc.
  destruct (accepted_signature W h req pp ep r0 Hdec Hinit Hacc) as (fa & x & Hsig).
  exact (signature_accepted_v W ep req fa x Hsig).
Qed.

Lemma unrecoverable_v_rejected_witness :
  exists reason,
    Verifier.verify_payment (Examples.world_at 1700000000) "header-v29"
                            Examples.requirements0 = Return (false, Some reason).
Proof.
  apply (unrecoverable_v_rejected (Examples.world_at 1700000000) "header-v29"
           Examples.requirements0 Examples.v29_envelope Examples.v29_payload).
  - reflexivity.
  - reflexivity.
  - reflexivity.
  - unfold Spec.recoverable_v. simpl. lia.
Defined.

(** C7, the claim as first stated, fails: the payload the client signed,
    with its [v] of 27 rewritten as 0, is accepted. *)
Lemma raw_v_counterexample :
  decode_header (Examples.world_at 1700000000) "header-raw-v"
  = Return Examples.raw_v_envelope /\
  Protocol.p_scheme Examples.raw_v_envelope = Protocol.EXACT /\
  Protocol.ExactPaymentPayload_init (lax_int (Examples.world_at 1700000000))
                                    (Protocol.payload Examples.raw_v_envelope)
  = Return Examples.raw_v_payload /\
  Protocol.v Examples.raw_v_payload = 0 /\
  Verifier.verify_payment (Examples.world_at 1700000000) "header-raw-v"
                          Examples.requirements0 = Return (true, None).
Proof.
  repeat apply conj; vm_compute; reflexivity.
Qed.

(** ** C8: the nonce *)

Lemma dump_init (lax : Py.pyval -> Exc Z) (ep : Protocol.ExactPaymentPayload) :
  Protocol.ExactPaymentPayload_init lax (Protocol.ExactPaymentPayload_dump ep)
  = Return ep.
Proof. destruct ep; reflexivity. Qed.

(** C8 (as amended).  [ExactPaymentPayload] takes any string as a nonce:
    every payload, whatever its nonce, decodes structurally.  The nonce
    is first interpreted when the typed data is encoded in the signature
    stage, and a payload whose nonce stands for more than 32 bytes is
    rejected there: [verify_payment] returns [isValid = false].  (A
    shorter nonce is padded with zero bytes and the payload is judged by
    its signature.) *)
Theorem long_nonce_rejected_at_signature
        (W : World) (h : string) (req : Protocol.PaymentRequirements)
        (pp : Protocol.PaymentPayload) (ep : Protocol.ExactPaymentPayload)
        (bs : Py.bytes) :
  decode_header W h = Return pp ->
  Protocol.ExactPaymentPayload_init (lax_int W) (Protocol.payload pp) = Return ep ->
  EthAccount.bytes_value (Protocol.nonce ep) = Some bs ->
  (32 < List.length bs)%nat ->
  (forall ep0, Protocol.ExactPaymentPayload_init
                 (lax_int W) (Protocol.ExactPaymentPayload_dump ep0) = Return ep0) /\
  exists reason, Verifier.verify_payment W h req = Return (false, Some reason).
Proof.
  intros Hdec Hinit Hbs Hlen.
  split; [ intros ep0; apply dump_init | ].
  apply (rejected_unless W h req
           (exists bs', EthAccount.bytes_value (Protocol.nonce ep) = Some bs' /\
                        (List.length bs' <= 32)%nat)).
  - intros r0 Hacc.
    destruct (accepted_signature W h req pp ep r0 Hdec Hinit Hacc) as (fa & x & Hsig).
    exact (signature_accepted_nonce W ep req fa x Hsig).
  - intros (bs' & Hbs' & Hle). rewrite Hbs in Hbs'. injection Hbs' as <-. lia.
Qed.

Lemma long_nonce_rejected_at_signature_witness :
  (forall ep0, Protocol.ExactPaymentPayload_init
                 (lax_int (Examples.world_at 1700000000))
                 (Protocol.ExactPaymentPayload_dump ep0) = Return ep0) /\
  exists reason,
    Verifier.verify_payment (Examples.world_at 1700000000) "header-long-nonce"
                            Examples.requirements0 = Return (false, Some reason).
Proof.
  apply (long_nonce_rejected_at_signature
           (Examples.world_at 1700000000) "header-long-nonce"
           Examples.requirements0 Examples.long_nonce_envelope
           Examples.long_nonce_payload
           (Py.be_bytes 33
              0xa3f1c2d4e5b60718293a4b5c6d7e8f90112233445566778899aabbccddeeff00ff)).
  - reflexivity.
  - reflexivity.
  - vm_compute. reflexivity.
  - vm_compute. lia.
Defined.

(** C8, the claim as first stated, fails: a payload whose nonce is the two
    bytes [0x1234] decodes as a well-formed [ExactPaymentPayload], reaches
    signer recovery, and is accepted. *)
Lemma short_nonce_counterexample :
  decode_header (Examples.world_at 1700000000) "header-short-nonce"
  = Return Examples.short_nonce_envelope /\
  Protocol.ExactPaymentPayload_init (lax_int (Examples.world_at 1700000000))
                                    (Protocol.payload Examples.short_nonce_envelope)
  = Return Examples.short_nonce_payload /\
  Protocol.nonce Examples.short_nonce_payload = "0x1234" /\
  EthAccount.bytes_value "0x1234" = Some [0x12; 0x34] /\
  Verifier.verify_payment (Examples.world_at 1700000000) "header-short-nonce"
                          Examples.requirements0 = Return (true, None).
Proof.
  repeat apply conj; vm_compute; reflexivity.
Qed.

(** ** Hashes and addresses *)

Section Digest.
Import Keccak.

Lemma keccak_round_length (st : list Z) (rc : Z) :
  List.length (keccak_round st rc) = 25%nat.
Proof.
  unfold keccak_round, iota.
  destruct (chi (rho_pi (theta st))) as [ | a rest] eqn:E.
  - apply (f_equal (@List.length Z)) in E. unfold chi in E.
    rewrite length_map in E. discriminate E.
  - apply (f_equal (@List.length Z)) in E. unfold chi in E.
    rewrite length_map in E. simpl in *. lia.
Qed.

Lemma fold_round_length (l : list Z) (st : list Z) :
  List.length st = 25%nat \/ l <> [] ->
  List.length (fold_left keccak_round l st) = 25%nat.
Proof.
  revert st. induction l as [ | rc l IH]; intros st H.
  - destruct H as [H | H]; [ exact H | contradiction H; reflexivity ].
  - simpl. apply IH. left. apply keccak_round_length.
Qed.

Lemma keccak_f_length (st : list Z) : List.length (keccak_f st) = 25%nat.
Proof.
  unfold keccak_f. apply fold_round_length. right. discriminate.
Qed.

Lemma absorb_length (fuel : nat) (st bs : list Z) :
  List.length st = 25%nat -> List.length (absorb fuel st bs) = 25%nat.
Proof.
  revert st bs. induction fuel as [ | fuel IH]; intros st bs H; [ exact H | ].
  simpl. destruct bs as [ | b bs]; [ exact H | ].
  apply IH. apply keccak_f_length.
Qed.

Lemma le_bytes_length (n : nat) (z : Z) : List.length (le_bytes n z) = n.
Proof.
  revert z. induction n as [ | n IH]; intros z; [ reflexivity | ].
  simpl. rewrite IH. reflexivity.
Qed.

Lemma lanes_bytes_length (st : list Z) :
  List.length (flat_map (le_bytes 8) st) = (8 * List.length st)%nat.
Proof.
  induction st as [ | a st IH]; [ reflexivity | ].
  change (flat_map (le_bytes 8) (a :: st))
    with (le_bytes 8 a ++ flat_map (le_bytes 8) st)%list.
  rewrite length_app, le_bytes_length, IH. simpl List.length. lia.
Qed.

(** A Keccak-256 hash has 32 bytes. *)
Lemma keccak256_length (msg : Py.bytes) : List.length (keccak256 msg) = 32%nat.
Proof.
  unfold keccak256.
  rewrite length_firstn, lanes_bytes_length, absorb_length.
  - reflexivity.
  - reflexivity.
Qed.
End Digest.

Section Checksum.
Import Py EthUtils.

(** Upper and lower case of a character stand for the same digit. *)
Lemma hex_case_facts (c : ascii) :
  digit_val 16 (lower_char c) = digit_val 16 c /\
  digit_val 16 (upper_char c) = digit_val 16 c /\
  lower_char (upper_char (lower_char c)) = lower_char c /\
  lower_char (lower_char c) = lower_char c.
Proof.
  destruct c as [[] [] [] [] [] [] [] []]; vm_compute; repeat split; reflexivity.
Qed.

Lemma hex_chars_length (bs : bytes) :
  List.length (hex_chars bs) = (2 * List.length bs)%nat.
Proof.
  induction bs as [ | b bs IH]; [ reflexivity | ].
  rewrite hex_chars_cons. simpl List.length. lia.
Qed.

Lemma checksum_char_digit (c h : ascii) :
  digit_val 16 (checksum_char c h) = digit_val 16 c.
Proof.
  unfold checksum_char. destruct (digit_val 16 h) as [d | ]; [ | reflexivity ].
  destruct (7 <? d); [ apply hex_case_facts | reflexivity ].
Qed.

Lemma checksum_char_lower (c h : ascii) :
  lower_char (checksum_char (lower_char c) h) = lower_char c.
Proof.
  unfold checksum_char. destruct (digit_val 16 h) as [d | ];
    [ | apply hex_case_facts ].
  destruct (7 <? d); apply hex_case_facts.
Qed.

Lemma checksum_chars_length (body hash : list ascii) :
  (List.length body <= List.length hash)%nat ->
  List.length (checksum_chars body hash) = List.length body.
Proof.
  revert hash. induction body as [ | c body IH]; intros hash H; [ reflexivity | ].
  destruct hash as [ | h hash]; [ simpl in H; lia | ].
  simpl in *. rewrite IH by lia. reflexivity.
Qed.

Lemma checksum_chars_lower (u hash : list ascii) :
  (List.length u <= List.length hash)%nat ->
  map lower_char (checksum_chars (map lower_char u) hash) = map lower_char u.
Proof.
  revert hash. induction u as [ | c u IH]; intros hash H; [ reflexivity | ].
  destruct hash as [ | h hash]; [ simpl in H; lia | ].
  simpl in H. simpl map. simpl checksum_chars. simpl map.
  rewrite checksum_char_lower, IH by lia. reflexivity.
Qed.

Lemma checksum_chars_digits (body hash : list ascii) :
  (List.length body <= List.length hash)%nat ->
  map (digit_val 16) (checksum_chars body hash) = map (digit_val 16) body.
Proof.
  revert hash. induction body as [ | c body IH]; intros hash H; [ reflexivity | ].
  destruct hash as [ | h hash]; [ simpl in H; lia | ].
  simpl in H. simpl checksum_chars. simpl map.
  rewrite checksum_char_digit, IH by lia. reflexivity.
Qed.

Lemma lower_digits (u : list ascii) :
  map (digit_val 16) (map lower_char u) = map (digit_val 16) u.
Proof.
  induction u as [ | c u IH]; [ reflexivity | ].
  simpl map. rewrite IH. f_equal. apply hex_case_facts.
Qed.

(** Texts with the same digits are hex alike... *)
Lemma forallb_hex_digits (l1 l2 : list ascii) :
  map (digit_val 16) l1 = map (digit_val 16) l2 ->
  forallb is_hex_char l1 = forallb is_hex_char l2.
Proof.
  revert l2. induction l1 as [ | a l1 IH]; intros [ | b l2] H; try discriminate H.
  - reflexivity.
  - simpl map in H. injection H as Hab Hrest.
    simpl. unfold is_hex_char at 1 3. rewrite Hab, (IH l2 Hrest). reflexivity.
Qed.

(** ... and stand for the same bytes. *)
Lemma unhexlify_digits (l1 l2 : list ascii) :
  map (digit_val 16) l1 = map (digit_val 16) l2 ->
  unhexlify l1 = unhexlify l2.
Proof.
  intros H.
  enough (Hboth : unhexlify l1 = unhexlify l2 /\
                  forall a b, digit_val 16 a = digit_val 16 b ->
                              unhexlify (a :: l1) = unhexlify (b :: l2))
    by exact (proj1 Hboth).
  revert l2 H. induction l1 as [ | x l1 IH]; intros [ | y l2] H; try discriminate H.
  - split; [ reflexivity | ]. intros a b _. reflexivity.
  - simpl map in H. injection H as Hxy Hrest.
    destruct (IH l2 Hrest) as (IH1 & IH2).
    split; [ apply IH2; exact Hxy | ].
    intros a b Hab.
    change (unhexlify (a :: x :: l1))
      with (match digit_val 16 a, digit_val 16 x, unhexlify l1 with
            | Some p, Some q, Some bs => Some (16 * p + q :: bs)
            | _, _, _ => None
            end).
    change (unhexlify (b :: y :: l2))
      with (match digit_val 16 b, digit_val 16 y, unhexlify l2 with
            | Some p, Some q, Some bs => Some (16 * p + q :: bs)
            | _, _, _ => None
            end).
    rewrite Hab, Hxy, IH1. reflexivity.
Qed.

Lemma chars_checksum_encode (body : list ascii) :
  chars (checksum_encode body)
  = "0"%char :: "x"%char
      :: checksum_chars body (hex_chars (Keccak.keccak256 (map code body))).
Proof.
  unfold checksum_encode. rewrite !chars_String, chars_str_of_chars. reflexivity.
Qed.

Lemma remove_0x_prefix_0x (l : list ascii) :
  remove_0x_prefix ("0"%char :: "x"%char :: l) = l.
Proof. reflexivity. Qed.

Lemma address_hash_length (body : list ascii) :
  List.length body = 40%nat ->
  (List.length body
   <= List.length (hex_chars (Keccak.keccak256 (map code body))))%nat.
Proof.
  intros H. rewrite hex_chars_length, keccak256_length, H. simpl. lia.
Qed.

Lemma is_hex_address_parts (s : string) :
  is_hex_address s = true ->
  forallb is_hex_char (remove_0x_prefix (chars s)) = true /\
  List.length (remove_0x_prefix (chars s)) = 40%nat.
Proof.
  unfold is_hex_address. intros H. apply andb_true_iff in H.
  destruct H as (H1 & H2). apply Nat.eqb_eq in H2. split; assumption.
Qed.

(** The EIP-55 rendering of a hex address is a hex address... *)
Lemma is_hex_address_checksum_encode (u : list ascii) :
  forallb is_hex_char u = true -> List.length u = 40%nat ->
  is_hex_address (checksum_encode (map lower_char u)) = true.
Proof.
  intros Hhex Hlen.
  assert (Hbody : List.length (map lower_char u) = 40%nat)
    by (rewrite length_map; exact Hlen).
  unfold is_hex_address.
  rewrite chars_checksum_encode, remove_0x_prefix_0x.
  rewrite checksum_chars_length by (apply address_hash_length; exact Hbody).
  rewrite Hbody.
  rewrite (forallb_hex_digits _ u); [ rewrite Hhex; reflexivity | ].
  rewrite checksum_chars_digits by (apply address_hash_length; exact Hbody).
  apply lower_digits.
Qed.

(** ... that is its own EIP-55 rendering. *)
Lemma checksum_encode_fixed (u : list ascii) :
  List.length u = 40%nat ->
  checksum_encode
    (map lower_char (remove_0x_prefix (chars (checksum_encode (map lower_char u)))))
  = checksum_encode (map lower_char u).
Proof.
  intros Hlen.
  rewrite chars_checksum_encode, remove_0x_prefix_0x.
  rewrite checksum_chars_lower; [ reflexivity | ].
  rewrite <- (length_map lower_char u).
  apply address_hash_length. rewrite length_map. exact Hlen.
Qed.

(** Lower case keeps the prefix test. *)
Lemma lower_prefix_facts (c : ascii) :
  Ascii.eqb (lower_char c) "0" = Ascii.eqb c "0" /\
  (Ascii.eqb (lower_char c) "x" || Ascii.eqb (lower_char c) "X"
   = (Ascii.eqb c "x" || Ascii.eqb c "X")) /\
  (Ascii.eqb c "x" || Ascii.eqb c "X" = true -> lower_char c = "x"%char).
Proof.
  destruct c as [[] [] [] [] [] [] [] []]; vm_compute; repeat split;
    try reflexivity; intros H; discriminate H.
Qed.

Lemma chars_lower (s : string) : chars (lower s) = map lower_char (chars s).
Proof. unfold lower. apply chars_str_of_chars. Qed.

Lemma map_lower_lower (l : list ascii) :
  map lower_char (map lower_char l) = map lower_char l.
Proof.
  induction l as [ | c l IH]; [ reflexivity | ].
  simpl. rewrite IH. f_equal. apply hex_case_facts.
Qed.

Lemma chars_inj (a b : string) : chars a = chars b -> a = b.
Proof.
  intros H. rewrite <- (str_of_chars_chars a), <- (str_of_chars_chars b), H.
  reflexivity.
Qed.

Lemma is_0x_prefixed_lower (l : list ascii) :
  is_0x_prefixed (map lower_char l) = is_0x_prefixed l.
Proof.
  destruct l as [ | z [ | x r]]; try reflexivity.
  cbn [map is_0x_prefixed].
  destruct (lower_prefix_facts z) as (Hz & _).
  destruct (lower_prefix_facts x) as (_ & Hx & _).
  rewrite Hz, Hx. reflexivity.
Qed.

Lemma remove_0x_prefix_plain (l : list ascii) :
  is_0x_prefixed l = false -> remove_0x_prefix l = l.
Proof.
  destruct l as [ | z [ | x r]]; try reflexivity.
  cbn [is_0x_prefixed remove_0x_prefix]. intros ->. reflexivity.
Qed.

Lemma remove_0x_prefix_prefixed (l : list ascii) :
  is_0x_prefixed l = true ->
  map lower_char l = "0"%char :: "x"%char :: map lower_char (remove_0x_prefix l).
Proof.
  destruct l as [ | z [ | x r]]; try discriminate.
  cbn [is_0x_prefixed remove_0x_prefix]. intros Hp. rewrite Hp.
  apply andb_true_iff in Hp. destruct Hp as (Hz & Hx).
  apply Ascii.eqb_eq in Hz. subst z.
  destruct (lower_prefix_facts x) as (_ & _ & Hx').
  cbn [map]. rewrite (Hx' Hx). reflexivity.
Qed.

(** What [to_normalized_address] makes of a text before it tests it: the
    text without its prefix, in lower case, behind [0x]. *)
Lemma normalized_text (s : string) :
  lower (add_0x_prefix (lower s))
  = String "0" (String "x"
      (str_of_chars (map lower_char (remove_0x_prefix (chars s))))).
Proof.
  apply chars_inj.
  rewrite chars_lower, !chars_String, chars_str_of_chars.
  unfold add_0x_prefix. rewrite chars_lower, is_0x_prefixed_lower.
  destruct (is_0x_prefixed (chars s)) eqn:Hp.
  - rewrite chars_lower, map_lower_lower.
    exact (remove_0x_prefix_prefixed (chars s) Hp).
  - change (chars ("0x" ++ lower s)) with ("0"%char :: "x"%char :: chars (lower s)).
    rewrite chars_lower, (remove_0x_prefix_plain (chars s) Hp).
    cbn [map]. rewrite map_lower_lower. reflexivity.
Qed.

Lemma is_hex_address_lower (u : list ascii) :
  is_hex_address (String "0" (String "x" (str_of_chars (map lower_char u))))
  = forallb is_hex_char u && (List.length u =? 40)%nat.
Proof.
  unfold is_hex_address.
  rewrite !chars_String, chars_str_of_chars, remove_0x_prefix_0x.
  rewrite length_map.
  rewrite (forallb_hex_digits (map lower_char u) u (lower_digits u)). reflexivity.
Qed.

(** [to_normalized_address] takes the hex addresses, with or without a
    prefix and whatever the case of their letters, and nothing else. *)
Lemma to_normalized_address_hex (s : string) :
  is_hex_address s = true ->
  to_normalized_address s
  = Return (String "0" (String "x"
              (str_of_chars (map lower_char (remove_0x_prefix (chars s)))))).
Proof.
  intros Hs. destruct (is_hex_address_parts s Hs) as (Hhex & Hlen).
  unfold to_normalized_address.
  assert (Hstr : is_hexstr s = true).
  { unfold is_hexstr. rewrite Hhex.
    destruct s as [ | c s']; [ discriminate Hlen | reflexivity ]. }
  rewrite Hstr, andb_false_r.
  rewrite normalized_text. unfold is_address. rewrite is_hex_address_lower.
  rewrite Hhex, Hlen. reflexivity.
Qed.

Lemma to_normalized_address_Return (s t : string) :
  to_normalized_address s = Return t -> is_hex_address s = true.
Proof.
  unfold to_normalized_address.
  destruct (negb (is_nil (remove_0x_prefix (chars s))) && negb (is_hexstr s));
    [ discriminate | ].
  rewrite normalized_text. unfold is_address. rewrite is_hex_address_lower.
  unfold is_hex_address.
  destruct (forallb is_hex_char (remove_0x_prefix (chars s))
            && (List.length (remove_0x_prefix (chars s)) =? 40)%nat);
    [ reflexivity | discriminate ].
Qed.

Lemma to_checksum_address_hex (s : string) :
  is_hex_address s = true ->
  to_checksum_address s
  = Return (checksum_encode (map lower_char (remove_0x_prefix (chars s)))).
Proof.
  intros Hs. unfold to_checksum_address.
  rewrite (to_normalized_address_hex s Hs). cbn [bind].
  rewrite !chars_String, chars_str_of_chars, remove_0x_prefix_0x. reflexivity.
Qed.

Lemma to_checksum_address_Return (s t : string) :
  to_checksum_address s = Return t ->
  is_hex_address s = true /\
  t = checksum_encode (map lower_char (remove_0x_prefix (chars s))).
Proof.
  intros H.
  assert (Hs : is_hex_address s = true).
  { unfold to_checksum_address in H. apply bind_Return in H.
    destruct H as (n & Hn & _). exact (to_normalized_address_Return s n Hn). }
  rewrite (to_checksum_address_hex s Hs) in H. injection H as <-.
  split; [ exact Hs | reflexivity ].
Qed.

(** [to_checksum_address] leaves its own results as they are. *)
Lemma to_checksum_address_fixed (s t : string) :
  to_checksum_address s = Return t -> to_checksum_address t = Return t.
Proof.
  intros H. apply to_checksum_address_Return in H. destruct H as (Hs & ->).
  destruct (is_hex_address_parts s Hs) as (Hhex & Hlen).
  rewrite to_checksum_address_hex
    by (apply is_hex_address_checksum_encode; assumption).
  rewrite checksum_encode_fixed by assumption. reflexivity.
Qed.

Lemma is_address_checksummed (s t : string) :
  to_checksum_address s = Return t -> is_address t = true.
Proof.
  intros H. apply to_checksum_address_Return in H. destruct H as (Hs & ->).
  destruct (is_hex_address_parts s Hs) as (Hhex & Hlen).
  unfold is_address. apply is_hex_address_checksum_encode; assumption.
Qed.

(** Whoever is given a checksummed address was given an address. *)
Lemma is_address_of_checksum (s t : string) :
  to_checksum_address s = Return t -> is_address s = true.
Proof. intros H. exact (proj1 (to_checksum_address_Return s t H)). Qed.

Lemma to_canonical_address_hex (s : string) :
  is_hex_address s = true ->
  to_canonical_address s
  = match unhexlify (remove_0x_prefix (chars s)) with
    | Some bs => Return bs
    | None => Raise (Exn BinasciiError "Non-hexadecimal digit found")
    end.
Proof.
  intros Hs. unfold to_canonical_address.
  rewrite (to_normalized_address_hex s Hs). cbn [bind].
  rewrite !chars_String, chars_str_of_chars, remove_0x_prefix_0x.
  rewrite (unhexlify_digits _ _ (lower_digits (remove_0x_prefix (chars s)))).
  reflexivity.
Qed.

(** The 20 bytes of an address do not depend on the case of its digits. *)
Lemma to_canonical_address_checksummed (s t : string) :
  to_checksum_address s = Return t ->
  to_canonical_address t = to_canonical_address s.
Proof.
  intros H. apply to_checksum_address_Return in H. destruct H as (Hs & ->).
  destruct (is_hex_address_parts s Hs) as (Hhex & Hlen).
  rewrite (to_canonical_address_hex s Hs).
  rewrite to_canonical_address_hex
    by (apply is_hex_address_checksum_encode; assumption).
  rewrite chars_checksum_encode, remove_0x_prefix_0x.
  rewrite (unhexlify_digits
             (checksum_chars (map lower_char (remove_0x_prefix (chars s)))
                (hex_chars (Keccak.keccak256
                              (map code (map lower_char (remove_0x_prefix (chars s)))))))
             (remove_0x_prefix (chars s))); [ reflexivity | ].
  rewrite checksum_chars_digits
    by (apply address_hash_length; rewrite length_map; exact Hlen).
  apply lower_digits.
Qed.
End Checksum.

Section AddressWord.
Import Py EthUtils EthAccount.

(** The word of an address member is the same for an address and for its
    EIP-55 rendering. *)
Lemma encode_field_address_checksummed (enc : string -> pyval -> Exc bytes)
      (n s t : string) :
  to_checksum_address s = Return t ->
  encode_field enc n "address" (Some (PyStr t))
  = encode_field enc n "address" (Some (PyStr s)).
Proof.
  intros Ht. rewrite !encode_field_address.
  rewrite (is_address_checksummed s t Ht), (is_address_of_checksum s t Ht).
  rewrite (to_canonical_address_checksummed s t Ht). reflexivity.
Qed.
End AddressWord.

(** ** C1: the digest of the client and of the verifier *)

Section ClientAndVerifier.
Import Py Protocol EthUtils EthAccount.

Lemma bind_ret {A B : Type} (a : A) (k : A -> Exc B) : bind (Return a) k = k a.
Proof. reflexivity. Qed.

Lemma ExactPaymentPayload_init_strings (lax : pyval -> Exc Z)
      (f t val va vb n r0 s0 : string) (v0 : Z) :
  ExactPaymentPayload_init lax
    [("from", PyStr f); ("to", PyStr t); ("value", PyStr val);
     ("validAfter", PyStr va); ("validBefore", PyStr vb); ("nonce", PyStr n);
     ("v", PyInt v0); ("r", PyStr r0); ("s", PyStr s0)]
  = Return {| from_ := f; to := t; value := val; validAfter := va;
              validBefore := vb; nonce := n; v := v0; r := r0; s := s0 |}.
Proof. reflexivity. Qed.

Lemma encode_fields_domain (enc : string -> pyval -> Exc bytes)
      (name version chain contract : pyval) :
  encode_fields enc domain_fields
    [("name", name); ("version", version); ("chainId", chain);
     ("verifyingContract", contract)]
  = (w1 <- encode_field enc "name" "string" (Some name) ;;
     ws1 <- (w2 <- encode_field enc "version" "string" (Some version) ;;
             ws2 <- (w3 <- encode_field enc "chainId" "uint256" (Some chain) ;;
                     ws3 <- (w4 <- encode_field enc "verifyingContract" "address"
                                                (Some contract) ;;
                             ws4 <- Return [] ;;
                             Return (w4 ++ ws4)%list) ;;
                     Return (w3 ++ ws3)%list) ;;
             Return (w2 ++ ws2)%list) ;;
     Return (w1 ++ ws1)%list).
Proof. reflexivity. Qed.

(** The domain separator is the same for a token address and for its
    EIP-55 rendering. *)
Lemma hash_domain_checksummed (enc : string -> pyval -> Exc bytes)
      (name version chain : pyval) (s t : string) :
  to_checksum_address s = Return t ->
  hash_struct enc "EIP712Domain" domain_fields
    [("name", name); ("version", version); ("chainId", chain);
     ("verifyingContract", PyStr t)]
  = hash_struct enc "EIP712Domain" domain_fields
      [("name", name); ("version", version); ("chainId", chain);
       ("verifyingContract", PyStr s)].
Proof.
  intros Ht. unfold hash_struct.
  rewrite !encode_fields_domain.
  rewrite (encode_field_address_checksummed enc "verifyingContract" s t Ht).
  reflexivity.
Qed.

Lemma firstn_app_exact {A : Type} (l1 l2 : list A) (n : nat) :
  List.length l1 = n -> firstn n (l1 ++ l2)%list = l1.
Proof.
  intros <-. induction l1 as [ | a l1 IH]; simpl.
  - destruct l2; reflexivity.
  - rewrite IH. reflexivity.
Qed.

Lemma skipn_app_exact {A : Type} (l1 l2 : list A) (n : nat) :
  List.length l1 = n -> skipn n (l1 ++ l2)%list = l2.
Proof.
  intros <-. induction l1 as [ | a l1 IH]; simpl; [ reflexivity | exact IH ].
Qed.

Lemma firstn_exact {A : Type} (l : list A) (n : nat) :
  List.length l = n -> firstn n l = l.
Proof.
  intros H. rewrite <- (app_nil_r l) at 1. rewrite (firstn_app_exact l [] n H).
  reflexivity.
Qed.

Lemma to_standard_v_27 (v_raw : Z) :
  v_raw = 0 \/ v_raw = 1 -> to_standard_v (v_raw + 27) = Return v_raw.
Proof. intros [-> | ->]; reflexivity. Qed.

Lemma bytes_of_int_list1_27 (v_raw : Z) :
  v_raw = 0 \/ v_raw = 1 -> bytes_of_int_list1 (v_raw + 27) = Return [v_raw + 27].
Proof. intros [-> | ->]; reflexivity. Qed.

(** The verifier rebuilds the signature bytes that the client took apart. *)
Lemma signature_bytes_rebuilt (ep : ExactPaymentPayload) (v_raw r0 s0 : Z)
      (rb sb : bytes) :
  v_raw = 0 \/ v_raw = 1 ->
  to_bytes_big 32 r0 = Return rb ->
  to_bytes_big 32 s0 = Return sb ->
  v ep = v_raw + 27 ->
  r ep = "0x" ++ hex rb ->
  s ep = "0x" ++ hex sb ->
  Verifier.signature_bytes_of ep = Return (rb ++ sb ++ [v_raw + 27])%list.
Proof.
  intros Hv Hrb Hsb Hev Her Hes.
  unfold Verifier.signature_bytes_of. rewrite Hev, Her, Hes.
  destruct (to_bytes_big_Return 32 r0 rb Hrb) as (Hr0 & ->).
  destruct (to_bytes_big_Return 32 s0 sb Hsb) as (Hs0 & ->).
  change (Z.of_nat 32) with 32 in Hr0, Hs0.
  rewrite (int16_hex r0 Hr0), bind_ret, (int16_hex s0 Hs0), bind_ret.
  rewrite Hrb, bind_ret, Hsb, bind_ret.
  rewrite (bytes_of_int_list1_27 v_raw Hv). reflexivity.
Qed.

(** Recovery on the rebuilt bytes asks the curve backend about the
    client's own [(v, r, s)]. *)
Lemma recover_message_rebuilt (rec : bytes -> Z -> Z -> Z -> Exc bytes)
      (m : SignableMessage) (v_raw r0 s0 : Z) (rb sb pub : bytes) :
  v_raw = 0 \/ v_raw = 1 ->
  to_bytes_big 32 r0 = Return rb ->
  to_bytes_big 32 s0 = Return sb ->
  rec (hash_eip191_message m) v_raw r0 s0 = Return pub ->
  recover_message rec m (rb ++ sb ++ [v_raw + 27])%list
  = Return (address_of_pubkey pub).
Proof.
  intros Hv Hrb Hsb Hrec.
  destruct (to_bytes_big_Return 32 r0 rb Hrb) as (Hr0 & ->).
  destruct (to_bytes_big_Return 32 s0 sb Hsb) as (Hs0 & ->).
  unfold recover_message. cbv zeta.
  rewrite app_assoc, last_snoc, removelast_snoc.
  rewrite (to_standard_v_27 v_raw Hv), bind_ret.
  assert (Hlen : List.length ((be_bytes 32 r0 ++ be_bytes 32 s0) ++ [v_raw])%list
                 = 65%nat)
    by (rewrite !length_app, !be_bytes_length; reflexivity).
  rewrite Hlen. change (negb (65 =? 65)%nat) with false. cbv iota.
  rewrite (firstn_app_exact _ _ 32%nat (be_bytes_length 32 r0)).
  rewrite (skipn_app_exact _ _ 32%nat (be_bytes_length 32 r0)).
  rewrite (firstn_exact _ 32%nat (be_bytes_length 32 s0)).
  rewrite (be_val_be_bytes 32 r0 Hr0), (be_val_be_bytes 32 s0 Hs0).
  rewrite Hrec. reflexivity.
Qed.
End ClientAndVerifier.

(** The payload that the client builds, as the verifier reads it. *)
Lemma client_payload_rebuilt
        (W : World) (C : Client.ClientEnv)
        (req : Protocol.PaymentRequirements) (valid_duration : Z)
        (msg : EthAccount.SignableMessage) (pp : Protocol.PaymentPayload) :
  Client.exact_payment_parts W C req valid_duration = Return (msg, pp) ->
  exists ex chain ep td,
    Protocol.extra req = Some ex /\
    parse_chain_id (Protocol.network req) = Return chain /\
    Protocol.ExactPaymentPayload_init (lax_int W) (Protocol.payload pp) = Return ep /\
    Verifier.typed_data_of (extra_get ex "name") (extra_get ex "version")
                           chain ep req = Return td /\
    EthAccount.encode_typed_data (encode_other W) td = Return msg /\
    EthUtils.to_checksum_address (Protocol.from_ ep) = Return (Protocol.from_ ep) /\
    forall pub,
      Spec.signer_recovered W C msg pub ->
      Verifier._verify_eip3009_signature W ep req (Protocol.from_ ep)
      = Return (true, None).
Proof.
  intros Hparts.
  unfold Client.exact_payment_parts in Hparts.
  destruct (Protocol.extra req) as [[ | kv ex] | ] eqn:Hextra;
    try discriminate Hparts.
  destruct (negb (Py.truthy (extra_get (kv :: ex) "name"))
            || negb (Py.truthy (extra_get (kv :: ex) "version"))) eqn:Htruthy;
    [ discriminate Hparts | ].
  apply bind_Return in Hparts. destruct Hparts as (chain & Hchain & Hparts).
  apply bind_Return in Hparts. destruct Hparts as (fa & Hfa & Hparts).
  apply bind_Return in Hparts. destruct Hparts as (ta & Hta & Hparts).
  apply bind_Return in Hparts. destruct Hparts as (vc & Hvc & Hparts).
  apply bind_Return in Hparts. destruct Hparts as (td & Htd & Hparts).
  apply bind_Return in Hparts. destruct Hparts as (m & Hmsg & Hparts).
  destruct (Client.sign_message C m) as [[v0 r0] s0] eqn:Hsign.
  apply bind_Return in Hparts. destruct Hparts as (va_text & Hva & Hparts).
  apply bind_Return in Hparts. destruct Hparts as (vb_text & Hvb & Hparts).
  apply bind_Return in Hparts. destruct Hparts as (rb & Hrb & Hparts).
  apply bind_Return in Hparts. destruct Hparts as (sb & Hsb & Hparts).
  apply bind_Return in Hparts. destruct Hparts as (ep & Hep & Hparts).
  injection Hparts as Hm Hpp. subst m pp.
  rewrite ExactPaymentPayload_init_strings in Hep. injection Hep as Hep.
  assert (Hchain' : parse_chain_id (Protocol.network req) = Return chain).
  { destruct (parse_chain_id (Protocol.network req)) as [c | e]; simpl in Hchain.
    - exact Hchain.
    - destruct (is_ValueError (exn_cls e) || exn_class_eqb (exn_cls e) IndexError);
        discriminate Hchain. }
  unfold Client.typed_data_of in Htd.
  apply bind_Return in Htd. destruct Htd as (val & Hval & Htd).
  injection Htd as Htd. subst td.
  rewrite encode_typed_data_standard in Hmsg.
  rewrite (hash_domain_checksummed (encode_other W) _ _ _ (Protocol.asset req) vc
             Hvc) in Hmsg.
  rewrite <- encode_typed_data_standard in Hmsg.
  match type of Hmsg with
  | EthAccount.encode_typed_data _ ?t = _ => set (tdv := t) in *
  end.
  assert (Htdv : Verifier.typed_data_of (extra_get (kv :: ex) "name")
                   (extra_get (kv :: ex) "version") chain ep req = Return tdv).
  { unfold Verifier.typed_data_of. subst ep.
    cbn [Protocol.value Protocol.validAfter Protocol.validBefore Protocol.from_
         Protocol.to Protocol.nonce].
    rewrite Hval, (int_format_int _ _ Hva), (int_format_int _ _ Hvb). reflexivity. }
  exists (kv :: ex), chain, ep, tdv.
  split; [ reflexivity | ].
  split; [ exact Hchain' | ].
  split; [ apply dump_init | ].
  split; [ exact Htdv | ].
  split; [ exact Hmsg | ].
  assert (Hfrom : Protocol.from_ ep = fa) by (subst ep; reflexivity).
  split; [ rewrite Hfrom; exact (to_checksum_address_fixed _ _ Hfa) | ].
  intros pub Hrec.
  unfold Spec.signer_recovered in Hrec. cbv zeta in Hrec.
  unfold Client.sign_message in Hsign.
  destruct (Client.sign_msg_hash C (EthAccount.hash_eip191_message msg))
    as [[v_raw r1] s1].
  injection Hsign as Hv0 Hr0 Hs0. subst v0 r1 s1.
  destruct Hrec as (Hv & Hrecov & Hacct).
  rewrite Hfa in Hacct. injection Hacct as Hacct.
  assert (Hsig : Verifier.signature_bytes_of ep
                 = Return (rb ++ sb ++ [v_raw + 27])%list).
  { apply (signature_bytes_rebuilt ep v_raw r0 s0 rb sb Hv Hrb Hsb);
      subst ep; reflexivity. }
  pose proof (recover_message_rebuilt (ecdsa_recover W) msg v_raw r0 s0 rb sb pub
                Hv Hrb Hsb Hrecov) as Hrecover.
  unfold Verifier._verify_eip3009_signature.
  rewrite Hextra. cbv beta iota zeta. rewrite Htruthy, Hchain'.
  cbv beta iota.
  rewrite Htdv, bind_ret, Hmsg, bind_ret, Hsig, bind_ret, Hrecover, bind_ret.
  rewrite Hfrom, Hacct, String.eqb_refl. reflexivity.
Qed.

(** C1.  Whatever the typed-data inputs (the token's name and version,
    the chain id, the token address, the two parties, the amount, the
    window and the nonce): whenever the client's [_create_exact_payment]
    builds a payment, the verifier decodes its payload, rebuilds typed
    data from it, and [encode_typed_data] gives on the verifier's typed
    data the very message (version byte, domain separator, struct hash)
    that the client encoded and signed, so that the two EIP-712 digests
    are byte-identical.  Hence, whenever the curve backend recovers the
    client's key from the client's signature, the verifier's
    [_verify_eip3009_signature] recovers the client's address and accepts
    the payload as signed by [from]. *)
Theorem client_digest_matches_verifier
        (W : World) (C : Client.ClientEnv)
        (req : Protocol.PaymentRequirements) (valid_duration : Z)
        (msg : EthAccount.SignableMessage) (pp : Protocol.PaymentPayload) :
  Client.exact_payment_parts W C req valid_duration = Return (msg, pp) ->
  exists ex chain ep td,
    Protocol.extra req = Some ex /\
    parse_chain_id (Protocol.network req) = Return chain /\
    Protocol.ExactPaymentPayload_init (lax_int W) (Protocol.payload pp) = Return ep /\
    Verifier.typed_data_of (extra_get ex "name") (extra_get ex "version")
                           chain ep req = Return td /\
    EthAccount.encode_typed_data (encode_other W) td = Return msg /\
    EthUtils.to_checksum_address (Protocol.from_ ep) = Return (Protocol.from_ ep) /\
    forall pub,
      Spec.signer_recovered W C msg pub ->
      Verifier._verify_eip3009_signature W ep req (Protocol.from_ ep)
      = Return (true, None).
Proof.
  exact (client_payload_rebuilt W C req valid_duration msg pp).
Qed.

Lemma client_digest_matches_verifier_witness :
  Protocol.ExactPaymentPayload_init (lax_int (Examples.table_world [] 0))
    (Protocol.payload Examples.miscased_envelope)
  = Return Examples.miscased_payload /\
  Verifier._verify_eip3009_signature (Examples.table_world [] 0)
    Examples.miscased_payload Examples.miscased_requirements
    (Protocol.from_ Examples.miscased_payload) = Return (true, None).
Proof.
  assert (Hparts : exists msg,
             Client.exact_payment_parts
               (Examples.table_world [] 0)
               (Examples.client_env Examples.nonce_hex)
               Examples.miscased_requirements 300
             = Return (msg, Examples.miscased_envelope) /\
             Spec.signer_recovered (Examples.table_world [] 0)
               (Examples.client_env Examples.nonce_hex) msg
               Examples.client_public_key).
  { eexists. split; [ vm_compute; reflexivity | ].
    vm_compute. split; [ lia | split; reflexivity ]. }
  destruct Hparts as (msg & Hparts & Hrec).
  destruct (client_digest_matches_verifier
              (Examples.table_world [] 0) (Examples.client_env Examples.nonce_hex)
              Examples.miscased_requirements 300 msg
              Examples.miscased_envelope Hparts)
    as (ex & chain & ep & td & _ & _ & Hinit & _ & _ & _ & Hverify).
  assert (Hep : Protocol.ExactPaymentPayload_init
                  (lax_int (Examples.table_world [] 0))
                  (Protocol.payload Examples.miscased_envelope)
                = Return Examples.miscased_payload)
    by (vm_compute; reflexivity).
  rewrite Hep in Hinit. injection Hinit as <-.
  split; [ exact Hep | ].
  exact (Hverify Examples.client_public_key Hrec).
Defined.

(** Whenever the client's [_create_exact_payment] builds a payment
    for requirements whose [asset] is a valid address, the verifier
    decodes the payload, rebuilds typed data from it, and
    [encode_typed_data] gives on the verifier's typed data the very
    message (version, domain separator, struct hash) that the client
    signed: the two EIP-712 digests are byte-identical.  Hence, whenever
    the curve backend recovers the client's key from the client's
    signature, the verifier's [_verify_eip3009_signature] accepts the
    payload as signed by [from]. *)
Theorem client_digest_is_verifier_digest
        (W : World) (C : Client.ClientEnv)
        (req : Protocol.PaymentRequirements) (valid_duration : Z)
        (msg : EthAccount.SignableMessage) (pp : Protocol.PaymentPayload) :
  Client.exact_payment_parts W C req valid_duration = Return (msg, pp) ->
  EthUtils.is_address (Protocol.asset req) = true ->
  exists ex chain ep td,
    Protocol.extra req = Some ex /\
    parse_chain_id (Protocol.network req) = Return chain /\
    Protocol.ExactPaymentPayload_init (lax_int W) (Protocol.payload pp) = Return ep /\
    Verifier.typed_data_of (extra_get ex "name") (extra_get ex "version")
                           chain ep req = Return td /\
    EthAccount.encode_typed_data (encode_other W) td = Return msg /\
    EthUtils.to_checksum_address (Protocol.from_ ep) = Return (Protocol.from_ ep) /\
    forall pub,
      Spec.signer_recovered W C msg pub ->
      Verifier._verify_eip3009_signature W ep req (Protocol.from_ ep)
      = Return (true, None).
Proof.
  intros Hparts _.
  exact (client_payload_rebuilt W C req valid_duration msg pp Hparts).
Qed.

Lemma client_digest_is_verifier_digest_witness :
  exists ep,
    Protocol.ExactPaymentPayload_init (lax_int (Examples.table_world [] 0))
      (Protocol.payload Examples.signed_envelope) = Return ep /\
    Verifier._verify_eip3009_signature (Examples.table_world [] 0) ep
      Examples.requirements0 (Protocol.from_ ep) = Return (true, None).
Proof.
  assert (Hparts : Client.exact_payment_parts
                     (Examples.table_world [] 0)
                     (Examples.client_env Examples.nonce_hex)
                     Examples.requirements0 300
                   = Return (Examples.signed_message, Examples.signed_envelope))
    by (vm_compute; reflexivity).
  assert (Hasset : EthUtils.is_address (Protocol.asset Examples.requirements0) = true)
    by (vm_compute; reflexivity).
  destruct (client_digest_is_verifier_digest
              (Examples.table_world [] 0) (Examples.client_env Examples.nonce_hex)
              Examples.requirements0 300 Examples.signed_message
              Examples.signed_envelope Hparts Hasset)
    as (ex & chain & ep & td & _ & _ & Hinit & _ & _ & _ & Hverify).
  exists ep. split; [ exact Hinit | ].
  apply (Hverify Examples.client_public_key).
  vm_compute. split; [ lia | split; reflexivity ].
Defined.

(** ** The client's payload, field by field *)

Section ClientPayload.
Import Py Protocol EthUtils EthAccount.
Variable W : World.
Variable C : Client.ClientEnv.

(** A successful run of the client, read backwards. *)
Lemma exact_payment_parts_inv (req : PaymentRequirements) (d : Z)
      (msg : SignableMessage) (pp : PaymentPayload) :
  Client.exact_payment_parts W C req d = Return (msg, pp) ->
  exists ex chain fa ta vc val v_raw r0 s0 rb sb,
    extra req = Some ex /\
    truthy (extra_get ex "name") = true /\
    truthy (extra_get ex "version") = true /\
    parse_chain_id (network req) = Return chain /\
    to_checksum_address (Client.account_address C) = Return fa /\
    to_checksum_address (payTo req) = Return ta /\
    to_checksum_address (asset req) = Return vc /\
    Py.int (maxAmountRequired req) = Return val /\
    encode_typed_data (encode_other W)
      {| types := message_types;
         primaryType := "TransferWithAuthorization";
         domain := [("name", extra_get ex "name"); ("version", extra_get ex "version");
                    ("chainId", PyInt chain); ("verifyingContract", PyStr vc)];
         message := [("from", PyStr fa); ("to", PyStr ta); ("value", PyInt val);
                     ("validAfter", PyInt (Client.current_time C - 10));
                     ("validBefore", PyInt (Client.current_time C + d));
                     ("nonce", PyStr ("0x" ++ Client.token_hex32 C))] |}
    = Return msg /\
    Client.sign_msg_hash C (hash_eip191_message msg) = (v_raw, r0, s0) /\
    to_bytes_big 32 r0 = Return rb /\
    to_bytes_big 32 s0 = Return sb /\
    Z.abs (Client.current_time C - 10) < 10 ^ max_str_digits /\
    Z.abs (Client.current_time C + d) < 10 ^ max_str_digits /\
    pp = {| p_x402Version := 1;
            p_scheme := scheme req;
            p_network := network req;
            payload := ExactPaymentPayload_dump
                         {| from_ := fa; to := ta; value := maxAmountRequired req;
                            validAfter := Py.str (Client.current_time C - 10);
                            validBefore := Py.str (Client.current_time C + d);
                            nonce := "0x" ++ Client.token_hex32 C;
                            v := v_raw + 27;
                            r := "0x" ++ hex rb; s := "0x" ++ hex sb |} |}.
Proof.
  intros Hparts. unfold Client.exact_payment_parts in Hparts.
  destruct (extra req) as [[ | kv ex] | ] eqn:Hextra; try discriminate Hparts.
  destruct (negb (truthy (extra_get (kv :: ex) "name"))
            || negb (truthy (extra_get (kv :: ex) "version"))) eqn:Htruthy;
    [ discriminate Hparts | ].
  apply orb_false_iff in Htruthy. destruct Htruthy as (Hname & Hversion).
  apply negb_false_iff in Hname, Hversion.
  apply bind_Return in Hparts. destruct Hparts as (chain & Hchain & Hparts).
  apply bind_Return in Hparts. destruct Hparts as (fa & Hfa & Hparts).
  apply bind_Return in Hparts. destruct Hparts as (ta & Hta & Hparts).
  apply bind_Return in Hparts. destruct Hparts as (vc & Hvc & Hparts).
  apply bind_Return in Hparts. destruct Hparts as (td & Htd & Hparts).
  apply bind_Return in Hparts. destruct Hparts as (m & Hmsg & Hparts).
  destruct (Client.sign_message C m) as [[v0 r0] s0] eqn:Hsign.
  apply bind_Return in Hparts. destruct Hparts as (va_text & Hva & Hparts).
  apply bind_Return in Hparts. destruct Hparts as (vb_text & Hvb & Hparts).
  apply format_int_inv in Hva. destruct Hva as (-> & Hva).
  apply format_int_inv in Hvb. destruct Hvb as (-> & Hvb).
  apply bind_Return in Hparts. destruct Hparts as (rb & Hrb & Hparts).
  apply bind_Return in Hparts. destruct Hparts as (sb & Hsb & Hparts).
  apply bind_Return in Hparts. destruct Hparts as (ep & Hep & Hparts).
  injection Hparts as Hm Hpp. subst m.
  rewrite ExactPaymentPayload_init_strings in Hep. injection Hep as Hep.
  assert (Hchain' : parse_chain_id (network req) = Return chain).
  { destruct (parse_chain_id (network req)) as [c | e]; simpl in Hchain.
    - exact Hchain.
    - destruct (is_ValueError (exn_cls e) || exn_class_eqb (exn_cls e) IndexError);
        discriminate Hchain. }
  unfold Client.typed_data_of in Htd.
  apply bind_Return in Htd. destruct Htd as (val & Hval & Htd).
  injection Htd as Htd. subst td.
  unfold Client.sign_message in Hsign.
  destruct (Client.sign_msg_hash C (hash_eip191_message msg)) as [[v_raw r1] s1].
  injection Hsign as Hv0 Hr0 Hs0. subst v0 r1 s1.
  exists (kv :: ex), chain, fa, ta, vc, val, v_raw, r0, s0, rb, sb.
  subst ep pp. repeat apply conj; try assumption; reflexivity.
Qed.
End ClientPayload.

(** The payload says what was signed: the envelope repeats the scheme and
    the network of the requirements, the payer and the recipient are the
    checksummed account and [payTo], the value is [maxAmountRequired]
    letter for letter, the window runs from ten seconds before the
    client's clock to [valid_duration] after it, and [v], [r] and [s] read
    back as the signature the key gave. *)
Theorem client_payload_carries_signature
        (W : World) (C : Client.ClientEnv) (req : Protocol.PaymentRequirements)
        (valid_duration : Z) (msg : EthAccount.SignableMessage)
        (pp : Protocol.PaymentPayload) :
  Client.exact_payment_parts W C req valid_duration = Return (msg, pp) ->
  Protocol.p_x402Version pp = 1 /\
  Protocol.p_scheme pp = Protocol.scheme req /\
  Protocol.p_network pp = Protocol.network req /\
  exists ep v_raw r0 s0,
    Protocol.ExactPaymentPayload_init (lax_int W) (Protocol.payload pp) = Return ep /\
    EthUtils.to_checksum_address (Client.account_address C)
    = Return (Protocol.from_ ep) /\
    EthUtils.to_checksum_address (Protocol.payTo req) = Return (Protocol.to ep) /\
    Protocol.value ep = Protocol.maxAmountRequired req /\
    Py.int (Protocol.validAfter ep) = Return (Client.current_time C - 10) /\
    Py.int (Protocol.validBefore ep)
    = Return (Client.current_time C + valid_duration) /\
    Protocol.nonce ep = "0x" ++ Client.token_hex32 C /\
    Client.sign_msg_hash C (EthAccount.hash_eip191_message msg) = (v_raw, r0, s0) /\
    Protocol.v ep = v_raw + 27 /\
    Py.int16 (Protocol.r ep) = Return r0 /\
    Py.int16 (Protocol.s ep) = Return s0.
Proof.
  intros Hparts.
  destruct (exact_payment_parts_inv W C req valid_duration msg pp Hparts)
    as (ex & chain & fa & ta & vc & val & v_raw & r0 & s0 & rb & sb
        & _ & _ & _ & _ & Hfa & Hta & _ & _ & _ & Hsign & Hrb & Hsb
        & Hva & Hvb & ->).
  repeat apply conj; try reflexivity.
  eexists _, v_raw, r0, s0.
  split; [ apply dump_init | ].
  destruct (to_bytes_big_Return 32 r0 rb Hrb) as (Hr0 & ->).
  destruct (to_bytes_big_Return 32 s0 sb Hsb) as (Hs0 & ->).
  change (Z.of_nat 32) with 32 in Hr0, Hs0.
  cbn [Protocol.from_ Protocol.to Protocol.value Protocol.validAfter
       Protocol.validBefore Protocol.nonce Protocol.v Protocol.r Protocol.s].
  repeat apply conj; try assumption; try reflexivity.
  - apply int_str. exact Hva.
  - apply int_str. exact Hvb.
  - apply int16_hex. exact Hr0.
  - apply int16_hex. exact Hs0.
Qed.

(** ** From the client to the verifier *)

Section EndToEnd.
Import Py Protocol EthUtils EthAccount Verifier Spec.
Variable W : World.
Variable C : Client.ClientEnv.

Lemma client_payment_verifies_at (req : PaymentRequirements) (d : Z)
      (msg : SignableMessage) (pp : PaymentPayload) (h : string) (now : Z)
      (pub : bytes) :
  Client.exact_payment_parts W C req d = Return (msg, pp) ->
  scheme req = EXACT ->
  is_address (asset req) = true ->
  decode_header W h = Return pp ->
  get_block_timestamp W = Return now ->
  Client.current_time C - 10 <= now <= Client.current_time C + d ->
  signer_recovered W C msg pub ->
  verify_payment W h req = Return (true, None).
Proof.
  intros Hparts Hscheme _ Hdec Hnow Hwin Hrec.
  destruct (client_payload_rebuilt W C req d msg pp Hparts)
    as (ex & chain & ep & td & _ & _ & Hinit & _ & _ & Hfrom & Hverify).
  specialize (Hverify pub Hrec).
  destruct (exact_payment_parts_inv W C req d msg pp Hparts)
    as (ex' & chain' & fa & ta & vc & val & v_raw & r0 & s0 & rb & sb
        & _ & _ & _ & _ & Hfa & Hta & _ & _ & _ & _ & _ & _ & Hsmall & Hsmall' & Hpp).
  subst pp. pose proof Hinit as Hep.
  cbn [payload] in Hep. rewrite dump_init in Hep. injection Hep as Hep.
  assert (Hf : from_ ep = fa) by (rewrite <- Hep; reflexivity).
  assert (Ht : to ep = ta) by (rewrite <- Hep; reflexivity).
  assert (Hval : value ep = maxAmountRequired req) by (rewrite <- Hep; reflexivity).
  assert (Hva : validAfter ep = Py.str (Client.current_time C - 10))
    by (rewrite <- Hep; reflexivity).
  assert (Hvb : validBefore ep = Py.str (Client.current_time C + d))
    by (rewrite <- Hep; reflexivity).
  rewrite (verify_payment_exact W h req _ Hdec)
    by (repeat split; try reflexivity; exact Hscheme).
  rewrite (exact_scheme_window W _ req ep fa ta now
             (Client.current_time C - 10) (Client.current_time C + d)).
  - replace (check_time_window now (Client.current_time C - 10)
                               (Client.current_time C + d))
      with (@Return (option string) None)
      by (symmetry; apply check_time_window_None; exact Hwin).
    rewrite <- Hf, Hverify. reflexivity.
  - exact Hinit.
  - unfold checksum_addresses.
    rewrite Hfrom, bind_ret, Hf, Ht, (to_checksum_address_fixed _ _ Hta), bind_ret, Hta.
    reflexivity.
  - exact Hval.
  - exact Hnow.
  - rewrite Hva. apply int_str. exact Hsmall.
  - rewrite Hvb. apply int_str. exact Hsmall'.
Qed.
End EndToEnd.

(** A payment header that the client made for exact-scheme requirements
    with a valid asset address is accepted by [verify_payment] when the
    header decodes to the envelope the client encoded, the chain tip lies
    in the window the client chose (from ten seconds before its clock to
    [valid_duration] after it), and the curve backend recovers the
    client's key from the client's signature. *)
Theorem client_payment_verifies
        (W : World) (C : Client.ClientEnv) (req : Protocol.PaymentRequirements)
        (valid_duration : Z) (msg : EthAccount.SignableMessage)
        (pp : Protocol.PaymentPayload) (h : string) (now : Z) (pub : Py.bytes) :
  Client.exact_payment_parts W C req valid_duration = Return (msg, pp) ->
  Protocol.scheme req = Protocol.EXACT ->
  EthUtils.is_address (Protocol.asset req) = true ->
  decode_header W h = Return pp ->
  get_block_timestamp W = Return now ->
  Client.current_time C - 10 <= now <= Client.current_time C + valid_duration ->
  Spec.signer_recovered W C msg pub ->
  Verifier.verify_payment W h req = Return (true, None).
Proof.
  exact (client_payment_verifies_at W C req valid_duration msg pp h now pub).
Qed.

Lemma client_payment_verifies_witness :
  Verifier.verify_payment (Examples.world_at 1700000123) "header-signed"
                          Examples.requirements0 = Return (true, None).
Proof.
  apply (client_payment_verifies
           (Examples.world_at 1700000123) (Examples.client_env Examples.nonce_hex)
           Examples.requirements0 300 Examples.signed_message
           Examples.signed_envelope "header-signed" 1700000123
           Examples.client_public_key).
  - vm_compute. reflexivity.
  - reflexivity.
  - vm_compute. reflexivity.
  - reflexivity.
  - reflexivity.
  - simpl. lia.
  - vm_compute. split; [ lia | split; reflexivity ].
Defined.

(** ** What acceptance means *)

Section Acceptance.
Import Py Protocol EthUtils EthAccount Verifier Spec Spec.
Variable W : World.

(** The only acceptance carries no reason. *)
Lemma exact_scheme_accepted_None pp req r0 :
  _verify_exact_scheme W pp req = Return (true, r0) -> r0 = None.
Proof.
  unfold _verify_exact_scheme, try_except. intros H.
  match type of H with
  | match ?b with _ => _ end = _ => destruct b as [v | e] eqn:Hb
  end; [ | simpl in H; discriminate H ].
  injection H as ->.
  apply bind_Return in Hb. destruct Hb as (ep & Hinit & Hb).
  destruct (checksum_addresses ep req) as [[[fa ta] ra] | e] eqn:Hsum;
    [ | destruct (is_ValueError (exn_cls e)); discriminate Hb ].
  destruct (negb (String.eqb ta ra)); [ discriminate Hb | ].
  destruct (negb (String.eqb (value ep) (maxAmountRequired req)));
    [ discriminate Hb | ].
  apply bind_Return in Hb. destruct Hb as (now & Hnow & Hb).
  apply bind_Return in Hb. destruct Hb as (va & Hva & Hb).
  apply bind_Return in Hb. destruct Hb as (vb & Hvb & Hb).
  apply bind_Return in Hb. destruct Hb as ([reason | ] & Hwin & Hb);
    [ discriminate Hb | ].
  apply bind_Return in Hb. destruct Hb as ([ok err] & Hsig & Hb).
  destruct ok; simpl in Hb; [ | discriminate Hb ].
  injection Hb as <-. reflexivity.
Qed.

Lemma checksum_addresses_Return ep req fa ta ra :
  checksum_addresses ep req = Return (fa, ta, ra) ->
  to_checksum_address (from_ ep) = Return fa /\
  to_checksum_address (to ep) = Return ta /\
  to_checksum_address (payTo req) = Return ra.
Proof.
  unfold checksum_addresses. intros H.
  apply bind_Return in H. destruct H as (a & Ha & H).
  apply bind_Return in H. destruct H as (b & Hb & H).
  apply bind_Return in H. destruct H as (c & Hc & H).
  injection H as <- <- <-. repeat split; assumption.
Qed.

(** What a domain separator asks of the chain id and of the contract. *)
Lemma hash_domain_Return enc name version chain contract hd :
  hash_struct enc "EIP712Domain" domain_fields
    [("name", name); ("version", version); ("chainId", PyInt chain);
     ("verifyingContract", PyStr contract)] = Return hd ->
  0 <= chain < 2 ^ 256 /\ is_address contract = true.
Proof.
  unfold hash_struct. intros H.
  apply bind_Return in H. destruct H as (ws & Hws & _).
  rewrite encode_fields_domain in Hws.
  apply bind_Return in Hws. destruct Hws as (w1 & _ & Hws).
  apply bind_Return in Hws. destruct Hws as (ws1 & Hws & _).
  apply bind_Return in Hws. destruct Hws as (w2 & _ & Hws).
  apply bind_Return in Hws. destruct Hws as (ws2 & Hws & _).
  apply bind_Return in Hws. destruct Hws as (w3 & Hw3 & Hws).
  apply bind_Return in Hws. destruct Hws as (ws3 & Hws & _).
  apply bind_Return in Hws. destruct Hws as (w4 & Hw4 & _).
  split.
  - exact (proj1 (encode_field_uint256_Return _ _ _ _ Hw3)).
  - exact (encode_field_address_Return _ _ _ _ Hw4).
Qed.

(** Acceptance by the signature stage needs a usable domain. *)
Lemma signature_accepted_domain ep req fa x :
  _verify_eip3009_signature W ep req fa = Return (true, x) ->
  domain_usable req = true.
Proof.
  unfold _verify_eip3009_signature, try_except. intros H.
  match type of H with
  | match ?b with _ => _ end = _ => destruct b as [v0 | e] eqn:Hb
  end; [ | simpl in H; discriminate H ].
  injection H as ->.
  unfold domain_usable.
  destruct (extra req) as [[ | kv ex] | ] eqn:Hextra; try discriminate Hb.
  destruct (negb (truthy (extra_get (kv :: ex) "name"))
            || negb (truthy (extra_get (kv :: ex) "version"))) eqn:Htruthy;
    [ discriminate Hb | ].
  apply orb_false_iff in Htruthy. destruct Htruthy as (Hname & Hversion).
  apply negb_false_iff in Hname, Hversion. rewrite Hname, Hversion.
  destruct (parse_chain_id (network req)) as [chain | e] eqn:Hchain;
    [ | destruct (is_ValueError (exn_cls e) || exn_class_eqb (exn_cls e) IndexError);
        discriminate Hb ].
  apply bind_Return in Hb. destruct Hb as (td & Htd & Hb).
  apply bind_Return in Hb. destruct Hb as (msg & Hmsg & _).
  unfold Verifier.typed_data_of in Htd.
  apply bind_Return in Htd. destruct Htd as (val & _ & Htd).
  apply bind_Return in Htd. destruct Htd as (va & _ & Htd).
  apply bind_Return in Htd. destruct Htd as (vb & _ & Htd).
  injection Htd as <-.
  rewrite encode_typed_data_standard in Hmsg.
  apply bind_Return in Hmsg. destruct Hmsg as (hd & Hhd & _).
  destruct (hash_domain_Return _ _ _ _ _ _ Hhd) as ((Hlo & Hhi) & Haddr).
  rewrite Haddr.
  apply Z.leb_le in Hlo. apply Z.ltb_lt in Hhi. rewrite Hlo, Hhi. reflexivity.
Qed.
End Acceptance.

(** [verify_payment] answers [isValid = true] only with no reason and only
    for a header that decodes to a version-1 envelope of the exact scheme
    on the network of the requirements, whose recipient is [payTo] up to
    the spelling of the address, whose value is [maxAmountRequired] as a
    string, whose window holds the chain tip, and whose signature over
    the rebuilt typed data recovers to an address that is the payer's up
    to case. *)
Theorem accepted_payment_sound
        (W : World) (h : string) (req : Protocol.PaymentRequirements)
        (r0 : option string) :
  Verifier.verify_payment W h req = Return (true, r0) ->
  r0 = None /\
  exists pp ep payer recipient now va vb signer,
    decode_header W h = Return pp /\
    Protocol.p_x402Version pp = 1 /\
    Protocol.p_scheme pp = Protocol.EXACT /\
    Protocol.scheme req = Protocol.EXACT /\
    Protocol.p_network pp = Protocol.network req /\
    Protocol.ExactPaymentPayload_init (lax_int W) (Protocol.payload pp) = Return ep /\
    EthUtils.to_checksum_address (Protocol.from_ ep) = Return payer /\
    EthUtils.to_checksum_address (Protocol.to ep) = Return recipient /\
    EthUtils.to_checksum_address (Protocol.payTo req) = Return recipient /\
    Protocol.value ep = Protocol.maxAmountRequired req /\
    get_block_timestamp W = Return now /\
    Py.int (Protocol.validAfter ep) = Return va /\
    Py.int (Protocol.validBefore ep) = Return vb /\
    va <= now <= vb /\
    (exists ex chain td msg sig,
       Protocol.extra req = Some ex /\
       parse_chain_id (Protocol.network req) = Return chain /\
       Verifier.typed_data_of (extra_get ex "name") (extra_get ex "version")
                              chain ep req = Return td /\
       EthAccount.encode_typed_data (encode_other W) td = Return msg /\
       Verifier.signature_bytes_of ep = Return sig /\
       EthAccount.recover_message (ecdsa_recover W) msg sig = Return signer) /\
    Py.lower signer = Py.lower payer.
Proof.
  intros Hacc.
  destruct (verify_payment_accepted_inv W h req r0 Hacc)
    as (pp & Hdec & (Hver & Hsch & Hnet & Hex) & Hexact).
  split; [ exact (exact_scheme_accepted_None W pp req r0 Hexact) | ].
  destruct (exact_scheme_accepted_inv W pp req r0 Hexact)
    as (ep & fa & ta & now & va & vb & x
        & Hinit & Hsum & Hval & Hnow & Hva & Hvb & Hwin & Hsig).
  destruct (checksum_addresses_Return ep req fa ta ta Hsum) as (Hfa & Hta & Hra).
  destruct (signature_accepted_inv W ep req fa x Hsig)
    as (ex & chain & td & msg & sig & addr
        & Hextra & Hchain & Htd & Hmsg & Hbytes & Hrec & Hlower).
  exists pp, ep, fa, ta, now, va, vb, addr.
  repeat apply conj; try assumption.
  - rewrite <- Hsch. exact Hex.
  - apply check_time_window_None in Hwin. apply Hwin.
  - apply check_time_window_None in Hwin. apply Hwin.
  - exists ex, chain, td, msg, sig. repeat apply conj; assumption.
Qed.

Lemma accepted_payment_sound_witness :
  @None string = None /\
  exists pp ep payer recipient now va vb signer,
    decode_header (Examples.world_at 1700000000) "header-signed" = Return pp /\
    Protocol.p_x402Version pp = 1 /\
    Protocol.p_scheme pp = Protocol.EXACT /\
    Protocol.scheme Examples.requirements0 = Protocol.EXACT /\
    Protocol.p_network pp = Protocol.network Examples.requirements0 /\
    Protocol.ExactPaymentPayload_init (lax_int (Examples.world_at 1700000000))
                                      (Protocol.payload pp) = Return ep /\
    EthUtils.to_checksum_address (Protocol.from_ ep) = Return payer /\
    EthUtils.to_checksum_address (Protocol.to ep) = Return recipient /\
    EthUtils.to_checksum_address (Protocol.payTo Examples.requirements0)
    = Return recipient /\
    Protocol.value ep = Protocol.maxAmountRequired Examples.requirements0 /\
    get_block_timestamp (Examples.world_at 1700000000) = Return now /\
    Py.int (Protocol.validAfter ep) = Return va /\
    Py.int (Protocol.validBefore ep) = Return vb /\
    va <= now <= vb /\
    (exists ex chain td msg sig,
       Protocol.extra Examples.requirements0 = Some ex /\
       parse_chain_id (Protocol.network Examples.requirements0) = Return chain /\
       Verifier.typed_data_of (extra_get ex "name") (extra_get ex "version")
                              chain ep Examples.requirements0 = Return td /\
       EthAccount.encode_typed_data (encode_other (Examples.world_at 1700000000)) td
       = Return msg /\
       Verifier.signature_bytes_of ep = Return sig /\
       EthAccount.recover_message (ecdsa_recover (Examples.world_at 1700000000))
                                  msg sig = Return signer) /\
    Py.lower signer = Py.lower payer.
Proof.
  apply (accepted_payment_sound (Examples.world_at 1700000000) "header-signed"
                                Examples.requirements0 None).
  vm_compute. reflexivity.
Defined.

(** Requirements whose EIP-712 domain cannot be encoded are never met:
    when [extra] is missing or empty, when it lacks a name or a version,
    when the network does not end in a chain id that fits a word, or when
    the asset is not a hex address (40 hex digits, with or without
    [0x], in any case of the letters), [verify_payment] rejects every
    header. *)
Theorem unusable_domain_never_verifies
        (W : World) (req : Protocol.PaymentRequirements) (h : string) :
  Spec.domain_usable req = false ->
  exists reason, Verifier.verify_payment W h req = Return (false, Some reason).
Proof.
  intros Hdom.
  apply (rejected_unless W h req (Spec.domain_usable req = true)).
  - intros r0 Hacc.
    destruct (verify_payment_accepted_inv W h req r0 Hacc) as (pp & _ & _ & Hexact).
    destruct (exact_scheme_accepted_inv W pp req r0 Hexact)
      as (ep & fa & ta & now & va & vb & x & _ & _ & _ & _ & _ & _ & _ & Hsig).
    exact (signature_accepted_domain W ep req fa x Hsig).
  - rewrite Hdom. discriminate.
Qed.

Lemma unusable_domain_never_verifies_witness :
  exists reason,
    Verifier.verify_payment (Examples.world_at 1700000000) "header-signed"
                            Examples.bare_requirements
    = Return (false, Some reason).
Proof.
  apply (unusable_domain_never_verifies (Examples.world_at 1700000000)
           Examples.bare_requirements "header-signed").
  vm_compute. reflexivity.
Defined.

(** ** What the client will sign *)

Section ClientLimits.
Import Py Protocol EthUtils EthAccount.

Lemma encode_fields_transfer (enc : string -> pyval -> Exc bytes)
      (f t val va vb n : pyval) :
  encode_fields enc transfer_fields
    [("from", f); ("to", t); ("value", val); ("validAfter", va);
     ("validBefore", vb); ("nonce", n)]
  = (w1 <- encode_field enc "from" "address" (Some f) ;;
     ws1 <- (w2 <- encode_field enc "to" "address" (Some t) ;;
             ws2 <- (w3 <- encode_field enc "value" "uint256" (Some val) ;;
                     ws3 <- (w4 <- encode_field enc "validAfter" "uint256" (Some va) ;;
                             ws4 <- (w5 <- encode_field enc "validBefore" "uint256"
                                                        (Some vb) ;;
                                     ws5 <- (w6 <- encode_field enc "nonce" "bytes32"
                                                                (Some n) ;;
                                             ws6 <- Return [] ;;
                                             Return (w6 ++ ws6)%list) ;;
                                     Return (w5 ++ ws5)%list) ;;
                             Return (w4 ++ ws4)%list) ;;
                     Return (w3 ++ ws3)%list) ;;
             Return (w2 ++ ws2)%list) ;;
     Return (w1 ++ ws1)%list).
Proof. reflexivity. Qed.

(** What a transfer's struct hash asks of the three integers and of the
    nonce. *)
Lemma hash_transfer_Return enc f t val va vb n bd :
  hash_struct enc "TransferWithAuthorization" transfer_fields
    [("from", f); ("to", t); ("value", PyInt val); ("validAfter", PyInt va);
     ("validBefore", PyInt vb); ("nonce", PyStr n)] = Return bd ->
  0 <= val < 2 ^ 256 /\ 0 <= va < 2 ^ 256 /\ 0 <= vb < 2 ^ 256 /\
  exists bs, bytes_value n = Some bs /\ (List.length bs <= 32)%nat.
Proof.
  unfold hash_struct. intros H.
  apply bind_Return in H. destruct H as (ws & Hws & _).
  rewrite encode_fields_transfer in Hws.
  apply bind_Return in Hws. destruct Hws as (w1 & _ & Hws).
  apply bind_Return in Hws. destruct Hws as (ws1 & Hws & _).
  apply bind_Return in Hws. destruct Hws as (w2 & _ & Hws).
  apply bind_Return in Hws. destruct Hws as (ws2 & Hws & _).
  apply bind_Return in Hws. destruct Hws as (w3 & Hw3 & Hws).
  apply bind_Return in Hws. destruct Hws as (ws3 & Hws & _).
  apply bind_Return in Hws. destruct Hws as (w4 & Hw4 & Hws).
  apply bind_Return in Hws. destruct Hws as (ws4 & Hws & _).
  apply bind_Return in Hws. destruct Hws as (w5 & Hw5 & Hws).
  apply bind_Return in Hws. destruct Hws as (ws5 & Hws & _).
  apply bind_Return in Hws. destruct Hws as (w6 & Hw6 & _).
  split; [ exact (proj1 (encode_field_uint256_Return _ _ _ _ Hw3)) | ].
  split; [ exact (proj1 (encode_field_uint256_Return _ _ _ _ Hw4)) | ].
  split; [ exact (proj1 (encode_field_uint256_Return _ _ _ _ Hw5)) | ].
  rewrite encode_field_bytes32 in Hw6.
  destruct (bytes_value n) as [bs | ]; [ | discriminate Hw6 ].
  destruct (List.length bs <=? 32)%nat eqn:Hlen; [ | discriminate Hw6 ].
  exists bs. split; [ reflexivity | apply Nat.leb_le; exact Hlen ].
Qed.
End ClientLimits.

(** The client signs only what the typed data can hold: whenever
    [_create_exact_payment] produces a payment, [maxAmountRequired] is
    read by [int] as an integer that fits a 256-bit word, the chain id
    at the end of [network] fits one, each end of the validity window,
    [current_time - 10] and [current_time + valid_duration], lies
    between 0 and 2^256 - 1, the account, [payTo] and [asset] are hex
    addresses, and the nonce stands for at most 32 bytes. *)
Theorem client_signs_only_encodable
        (W : World) (C : Client.ClientEnv) (req : Protocol.PaymentRequirements)
        (valid_duration : Z) (msg : EthAccount.SignableMessage)
        (pp : Protocol.PaymentPayload) :
  Client.exact_payment_parts W C req valid_duration = Return (msg, pp) ->
  exists val chain bs,
    Py.int (Protocol.maxAmountRequired req) = Return val /\
    0 <= val < 2 ^ 256 /\
    parse_chain_id (Protocol.network req) = Return chain /\
    0 <= chain < 2 ^ 256 /\
    0 <= Client.current_time C - 10 < 2 ^ 256 /\
    0 <= Client.current_time C + valid_duration < 2 ^ 256 /\
    EthUtils.is_hex_address (Client.account_address C) = true /\
    EthUtils.is_hex_address (Protocol.payTo req) = true /\
    EthUtils.is_hex_address (Protocol.asset req) = true /\
    EthAccount.bytes_value ("0x" ++ Client.token_hex32 C) = Some bs /\
    (List.length bs <= 32)%nat.
Proof.
  intros Hparts.
  destruct (exact_payment_parts_inv W C req valid_duration msg pp Hparts)
    as (ex & chain & fa & ta & vc & val & v_raw & r0 & s0 & rb & sb
        & _ & _ & _ & Hchain & Hfa & Hta & Hvc & Hval & Hmsg & _).
  rewrite encode_typed_data_standard in Hmsg.
  apply bind_Return in Hmsg. destruct Hmsg as (hd & Hhd & Hmsg).
  apply bind_Return in Hmsg. destruct Hmsg as (bd & Hbd & _).
  destruct (hash_domain_Return _ _ _ _ _ _ Hhd) as (Hc & _).
  destruct (hash_transfer_Return _ _ _ _ _ _ _ _ Hbd)
    as (Hv & Ha & Hb & bs & Hbs & Hlen).
  exists val, chain, bs.
  split; [ exact Hval | ]. split; [ exact Hv | ].
  split; [ exact Hchain | ]. split; [ exact Hc | ].
  split; [ exact Ha | ]. split; [ exact Hb | ].
  repeat apply conj; try assumption.
  - exact (proj1 (to_checksum_address_Return _ _ Hfa)).
  - exact (proj1 (to_checksum_address_Return _ _ Hta)).
  - exact (proj1 (to_checksum_address_Return _ _ Hvc)).
Qed.

Lemma client_signs_only_encodable_witness :
  exists val chain bs,
    Py.int (Protocol.maxAmountRequired Examples.requirements0) = Return val /\
    0 <= val < 2 ^ 256 /\
    parse_chain_id (Protocol.network Examples.requirements0) = Return chain /\
    0 <= chain < 2 ^ 256 /\
    0 <= Client.current_time (Examples.client_env Examples.nonce_hex) - 10
      < 2 ^ 256 /\
    0 <= Client.current_time (Examples.client_env Examples.nonce_hex) + 300
      < 2 ^ 256 /\
    EthUtils.is_hex_address
      (Client.account_address (Examples.client_env Examples.nonce_hex)) = true /\
    EthUtils.is_hex_address (Protocol.payTo Examples.requirements0) = true /\
    EthUtils.is_hex_address (Protocol.asset Examples.requirements0) = true /\
    EthAccount.bytes_value
      ("0x" ++ Client.token_hex32 (Examples.client_env Examples.nonce_hex)) = Some bs /\
    (List.length bs <= 32)%nat.
Proof.
  apply (client_signs_only_encodable
           (Examples.table_world [] 0) (Examples.client_env Examples.nonce_hex)
           Examples.requirements0 300 Examples.signed_message
           Examples.signed_envelope).
  vm_compute. reflexivity.
Defined.

Lemma client_payload_carries_signature_witness :
  Protocol.p_x402Version Examples.signed_envelope = 1 /\
  Protocol.p_scheme Examples.signed_envelope
  = Protocol.scheme Examples.requirements0 /\
  Protocol.p_network Examples.signed_envelope
  = Protocol.network Examples.requirements0 /\
  exists ep v_raw r0 s0,
    Protocol.ExactPaymentPayload_init (lax_int (Examples.table_world [] 0))
      (Protocol.payload Examples.signed_envelope) = Return ep /\
    EthUtils.to_checksum_address
      (Client.account_address (Examples.client_env Examples.nonce_hex))
    = Return (Protocol.from_ ep) /\
    EthUtils.to_checksum_address (Protocol.payTo Examples.requirements0)
    = Return (Protocol.to ep) /\
    Protocol.value ep = Protocol.maxAmountRequired Examples.requirements0 /\
    Py.int (Protocol.validAfter ep)
    = Return (Client.current_time (Examples.client_env Examples.nonce_hex) - 10) /\
    Py.int (Protocol.validBefore ep)
    = Return (Client.current_time (Examples.client_env Examples.nonce_hex) + 300) /\
    Protocol.nonce ep
    = "0x" ++ Client.token_hex32 (Examples.client_env Examples.nonce_hex) /\
    Client.sign_msg_hash (Examples.client_env Examples.nonce_hex)
      (EthAccount.hash_eip191_message Examples.signed_message) = (v_raw, r0, s0) /\
    Protocol.v ep = v_raw + 27 /\
    Py.int16 (Protocol.r ep) = Return r0 /\
    Py.int16 (Protocol.s ep) = Return s0.
Proof.
  apply (client_payload_carries_signature
           (Examples.table_world [] 0) (Examples.client_env Examples.nonce_hex)
           Examples.requirements0 300 Examples.signed_message
           Examples.signed_envelope).
  vm_compute. reflexivity.
Defined.

(** ** The facilitator's endpoints *)

Section Endpoints.
Import Py Protocol Facilitator Spec.

Lemma verify_payment_accepted_None (W : World) h req r0 :
  Verifier.verify_payment W h req = Return (true, r0) -> r0 = None.
Proof.
  intros Hacc.
  destruct (verify_payment_accepted_inv W h req r0 Hacc) as (pp & _ & _ & Hexact).
  exact (exact_scheme_accepted_None W pp req r0 Hexact).
Qed.

(** The verdict of [verify_payment], whatever the header. *)
Lemma verify_payment_verdict (W : World) h req :
  Verifier.verify_payment W h req = Return (true, None) \/
  exists reason, Verifier.verify_payment W h req = Return (false, Some reason).
Proof.
  destruct (verify_payment_explained W h req) as ([ok r0] & Hv & Hex).
  destruct ok.
  - left. rewrite Hv. rewrite (verify_payment_accepted_None W h req r0 Hv).
    reflexivity.
  - right. destruct (Hex eq_refl) as (reason & Hr). simpl in Hr. subst r0.
    exists reason. exact Hv.
Qed.

(** What [/settle] did, case by case. *)
Lemma settle_body_cases (sv : Services) (request : SettlementRequest) :
  let hdr := paymentHeader request in
  let req := paymentRequirements request in
  (payment_verifier sv = None \/ payment_settler sv = None) /\
  snd (settle_body sv request) = [] \/
  (exists W settle reason,
      payment_verifier sv = Some W /\ payment_settler sv = Some settle /\
      Verifier.verify_payment W hdr req = Return (false, Some reason) /\
      settle_body sv request
      = (Return {| success := false;
                   error := Some ("Verification failed: " ++ reason);
                   txHash := None; networkId := None |},
         [CallVerify hdr])) \/
  (exists W settle pp,
      payment_verifier sv = Some W /\ payment_settler sv = Some settle /\
      Verifier.verify_payment W hdr req = Return (true, None) /\
      decode_header W hdr = Return pp /\
      settle_body sv request
      = (('(ok, err', tx_hash) <- settle pp req true 120 ;;
          Return {| success := ok; error := err'; txHash := tx_hash;
                    networkId := if ok then Some (network req) else None |}),
         [CallVerify hdr; CallSettle pp])).
Proof.
  intros hdr req. unfold settle_body. fold hdr. fold req.
  destruct (payment_verifier sv) as [W | ] eqn:HW; [ | left; split; auto ].
  destruct (payment_settler sv) as [settle | ] eqn:HS; [ | left; split; auto ].
  right.
  destruct (verify_payment_verdict W hdr req) as [Hacc | (reason & Hrej)].
  - right. rewrite Hacc. cbn [negb].
    destruct (verify_payment_accepted_inv W hdr req None Hacc) as (pp & Hdec & _).
    rewrite Hdec. exists W, settle, pp. repeat apply conj; reflexivity || assumption.
  - left. rewrite Hrej. cbn [negb].
    exists W, settle, reason. repeat apply conj; reflexivity || assumption.
Qed.
End Endpoints.

(** With a verifier in place, [/verify] always answers 200, with the
    verdict of [verify_payment] as its body: [isValid = true] without a
    reason, or [isValid = false] with one. *)
Theorem verify_endpoint_answers
        (sv : Facilitator.Services) (W : World)
        (request : FacilitatorEndpoints.VerificationRequest) :
  Facilitator.payment_verifier sv = Some W ->
  exists resp,
    FacilitatorEndpoints.verify_payment sv request = Facilitator.Ok200 resp /\
    Verifier.verify_payment W (FacilitatorEndpoints.v_paymentHeader request)
                            (FacilitatorEndpoints.v_paymentRequirements request)
    = Return (FacilitatorEndpoints.isValid resp,
              FacilitatorEndpoints.invalidReason resp) /\
    (FacilitatorEndpoints.isValid resp = true /\
     FacilitatorEndpoints.invalidReason resp = None \/
     FacilitatorEndpoints.isValid resp = false /\
     exists reason, FacilitatorEndpoints.invalidReason resp = Some reason).
Proof.
  intros HW.
  unfold FacilitatorEndpoints.verify_payment, FacilitatorEndpoints.verify_body.
  rewrite HW.
  destruct (verify_payment_verdict W (FacilitatorEndpoints.v_paymentHeader request)
              (FacilitatorEndpoints.v_paymentRequirements request))
    as [Hacc | (reason & Hrej)].
  - rewrite Hacc. eexists. split; [ reflexivity | ]. split; [ reflexivity | ].
    left. split; reflexivity.
  - rewrite Hrej. eexists. split; [ reflexivity | ]. split; [ reflexivity | ].
    right. split; [ reflexivity | ]. exists reason. reflexivity.
Qed.

Lemma verify_endpoint_answers_witness :
  exists resp,
    FacilitatorEndpoints.verify_payment Examples.services
                                        Examples.verification_request
    = Facilitator.Ok200 resp /\
    Verifier.verify_payment (Examples.world_at 1700000000)
      (FacilitatorEndpoints.v_paymentHeader Examples.verification_request)
      (FacilitatorEndpoints.v_paymentRequirements Examples.verification_request)
    = Return (FacilitatorEndpoints.isValid resp,
              FacilitatorEndpoints.invalidReason resp) /\
    (FacilitatorEndpoints.isValid resp = true /\
     FacilitatorEndpoints.invalidReason resp = None \/
     FacilitatorEndpoints.isValid resp = false /\
     exists reason, FacilitatorEndpoints.invalidReason resp = Some reason).
Proof.
  apply (verify_endpoint_answers Examples.services (Examples.world_at 1700000000)
                                 Examples.verification_request).
  reflexivity.
Defined.

(** Without its services the facilitator answers 500 on both endpoints:
    the 503 that the code raises sits inside the [try] whose handler
    turns every exception into a 500.  No service is called. *)
Theorem uninitialised_services_answer_500
        (sv : Facilitator.Services)
        (vrequest : FacilitatorEndpoints.VerificationRequest)
        (srequest : Facilitator.SettlementRequest) :
  (Facilitator.payment_verifier sv = None ->
   exists detail,
     FacilitatorEndpoints.verify_payment sv vrequest
     = Facilitator.HTTPException 500 detail) /\
  (Facilitator.payment_verifier sv = None \/ Facilitator.payment_settler sv = None ->
   exists detail,
     Facilitator.settle_payment sv srequest
     = (Facilitator.HTTPException 500 detail, [])).
Proof.
  split.
  - intros HW. unfold FacilitatorEndpoints.verify_payment,
      FacilitatorEndpoints.verify_body. rewrite HW. eexists. reflexivity.
  - intros H. unfold Facilitator.settle_payment, Facilitator.settle_body.
    destruct H as [H | H]; rewrite H.
    + eexists. reflexivity.
    + destruct (Facilitator.payment_verifier sv); eexists; reflexivity.
Qed.

(** [/settle] calls the settler at most once, and only for a payment that
    [verify_payment] has just accepted: the call comes second, after the
    one call to the verifier, and is made on the envelope that the header
    decodes to.  When the settler reports success the answer names the
    network of the requirements, otherwise it names none. *)
Theorem settler_called_once_after_verification
        (sv : Facilitator.Services) (request : Facilitator.SettlementRequest)
        (pp : Protocol.PaymentPayload) :
  In (Facilitator.CallSettle pp) (snd (Facilitator.settle_payment sv request)) ->
  exists W settle,
    Facilitator.payment_verifier sv = Some W /\
    Facilitator.payment_settler sv = Some settle /\
    Verifier.verify_payment W (Facilitator.paymentHeader request)
                            (Facilitator.paymentRequirements request)
    = Return (true, None) /\
    decode_header W (Facilitator.paymentHeader request) = Return pp /\
    snd (Facilitator.settle_payment sv request)
    = [Facilitator.CallVerify (Facilitator.paymentHeader request);
       Facilitator.CallSettle pp] /\
    forall resp,
      fst (Facilitator.settle_payment sv request) = Facilitator.Ok200 resp ->
      exists err tx,
        settle pp (Facilitator.paymentRequirements request) true 120
        = Return (Protocol.success resp, err, tx) /\
        Protocol.error resp = err /\ Protocol.txHash resp = tx /\
        Protocol.networkId resp
        = if Protocol.success resp
          then Some (Protocol.network (Facilitator.paymentRequirements request))
          else None.
Proof.
  intros Hin.
  assert (Hsnd : snd (Facilitator.settle_payment sv request)
                 = snd (Facilitator.settle_body sv request))
    by (unfold Facilitator.settle_payment;
        destruct (Facilitator.settle_body sv request); reflexivity).
  assert (Hfst : fst (Facilitator.settle_payment sv request)
                 = match fst (Facilitator.settle_body sv request) with
                   | Return resp => Facilitator.Ok200 resp
                   | Raise e => Facilitator.HTTPException 500
                                  ("Settlement failed: " ++ exn_str e)
                   end)
    by (unfold Facilitator.settle_payment;
        destruct (Facilitator.settle_body sv request); reflexivity).
  rewrite Hsnd in Hin |- *.
  destruct (settle_body_cases sv request)
    as [(_ & Hnone) | [(W & settle & reason & _ & _ & _ & Hbody)
                      | (W & settle & pp' & HW & HS & Hacc & Hdec & Hbody)]].
  - rewrite Hnone in Hin. destruct Hin.
  - rewrite Hbody in Hin. simpl in Hin.
    destruct Hin as [Hin | []]. discriminate Hin.
  - rewrite Hbody in Hin. simpl in Hin.
    destruct Hin as [Hin | [Hin | []]]; [ discriminate Hin | ].
    injection Hin as ->.
    exists W, settle. repeat apply conj; try assumption.
    + rewrite Hbody. reflexivity.
    + intros resp Hresp. rewrite Hfst, Hbody in Hresp. cbn [fst] in Hresp.
      destruct (settle pp (Facilitator.paymentRequirements request) true 120)
        as [[[ok err] tx] | e]; simpl in Hresp; [ | discriminate Hresp ].
      injection Hresp as <-. exists err, tx. repeat apply conj; reflexivity.
Qed.

(** ** The settler *)

Section Settler.
Import Py Protocol EthUtils Settlement Spec.
Variable ch : Chain.

Lemma confirmation_cases (w : bool) (t : Z) (tx_hash : bytes) :
  exists o, confirmation ch w t tx_hash = (Returned o, []) /\
            confirmed ch w t tx_hash o.
Proof.
  unfold confirmation, confirmed. destruct w.
  - destruct (receipt_status ch tx_hash t) as [st | e] eqn:Hst;
      cbn [lift mbind try_ return_ app].
    + destruct (st =? 1) eqn:E.
      * apply Z.eqb_eq in E. subst st.
        eexists. split; [ reflexivity | ]. left. split; [ reflexivity | reflexivity ].
      * apply Z.eqb_neq in E.
        eexists. split; [ reflexivity | ]. right.
        split; [ reflexivity | ]. split; [ congruence | ].
        eexists. reflexivity.
    + eexists. split; [ reflexivity | ]. right.
      split; [ reflexivity | ]. split; [ discriminate | ].
      eexists. reflexivity.
  - eexists. split; [ reflexivity | ]. left. split; [ reflexivity | discriminate ].
Qed.

(** The nonce test: it stops the function or changes nothing. *)
Lemma nonce_test_cases (token payer : string) (nonce_bytes : bytes) :
  let test :=
    try_ (is_used <~ lift (authorizationState ch token payer nonce_bytes) ;;
          if is_used
          then return_ (false, Some "Authorization nonce already used", None)
          else ret tt)
         (fun _ => ret tt) in
  authorizationState ch token payer nonce_bytes = Return true /\
  test = (Returned (false, Some "Authorization nonce already used", None), []) \/
  authorizationState ch token payer nonce_bytes <> Return true /\
  test = (Continue tt, []).
Proof.
  cbv zeta.
  destruct (authorizationState ch token payer nonce_bytes) as [[ | ] | e];
    cbn [lift mbind try_ return_ ret app].
  - left. split; reflexivity.
  - right. split; [ discriminate | reflexivity ].
  - right. split; [ discriminate | reflexivity ].
Qed.

Lemma gas_price_check_cases :
  gas_price_check ch = (Continue tt, []) \/
  (exists reason, gas_price_check ch = (Returned (false, Some reason, None), [])) \/
  (exists e, gas_price_check ch = (Raised e, [])).
Proof.
  unfold gas_price_check.
  destruct (max_gas_price_gwei ch) as [cap | ]; [ | left; reflexivity ].
  destruct (truthy (PyFloat cap)); [ | left; reflexivity ].
  destruct (gas_price ch) as [current | e]; cbn [lift mbind app];
    [ | right; right; eexists; reflexivity ].
  destruct (to_wei_gwei ch cap) as [cap_wei | e]; cbn [lift mbind app];
    [ | right; right; eexists; reflexivity ].
  destruct (current >? cap_wei); [ | left; reflexivity ].
  destruct (from_wei_gwei ch current) as [shown | e]; cbn [lift mbind return_ app].
  - right; left. eexists. reflexivity.
  - right; right. eexists. reflexivity.
Qed.

(** A step done, and a step that failed: the handler of the outer [try]
    takes over. *)
Ltac next := cbn [lift mbind try_ ret return_ emit app].
Ltac failed := eexists _, _; split; [ reflexivity | ];
               left; split; [ reflexivity | eexists; reflexivity ].

(** Every way through [_settle_exact_scheme]. *)
Lemma settle_exact_cases (pp : PaymentPayload) (req : PaymentRequirements)
      (w : bool) (t : Z) :
  exists o evs,
    _settle_exact_scheme ch pp req w t = (Returned o, evs) /\
    ((evs = [] /\ exists reason, o = (false, Some reason, None)) \/
     (exists tx, prepared ch pp req tx /\ evs = [Signed tx] /\
                 exists reason, o = (false, Some reason, None)) \/
     (exists tx stx raw e,
         prepared ch pp req tx /\
         sign_transaction ch tx = Return stx /\
         raw_of stx = Some raw /\
         send_raw_transaction ch raw = Raise e /\
         evs = [Signed tx; Sent raw] /\
         o = (false, Some ("Exact scheme settlement error: " ++ exn_str e), None)) \/
     (exists tx stx raw tx_hash,
         prepared ch pp req tx /\
         sign_transaction ch tx = Return stx /\
         raw_of stx = Some raw /\
         send_raw_transaction ch raw = Return tx_hash /\
         evs = [Signed tx; Sent raw] /\
         confirmed ch w t tx_hash o)).
Proof.
  unfold _settle_exact_scheme.
  destruct (ExactPaymentPayload_init (chain_lax_int ch) (payload pp))
    as [ep | e] eqn:Hinit; next; [ | failed ].
  destruct (to_checksum_address (asset req)) as [token | e] eqn:Htoken; next;
    [ | failed ].
  destruct (to_bytes (nonce ep)) as [nonce_bytes | e] eqn:Hnonce; next; [ | failed ].
  destruct (to_checksum_address (from_ ep)) as [payer | e] eqn:Hpayer; next;
    [ | failed ].
  destruct (nonce_test_cases token payer nonce_bytes) as [(_ & Hused) | (Hfree & Hused)];
    cbv zeta in Hused; rewrite Hused; next; [ failed | ].
  destruct (to_checksum_address (to ep)) as [recipient | e] eqn:Hrecipient; next;
    [ | failed ].
  destruct (Py.int (value ep)) as [val | e] eqn:Hval; next; [ | failed ].
  destruct (Py.int (validAfter ep)) as [va | e] eqn:Hva; next; [ | failed ].
  destruct (Py.int (validBefore ep)) as [vb | e] eqn:Hvb; next; [ | failed ].
  destruct (to_bytes (r ep)) as [rb | e] eqn:Hr; next; [ | failed ].
  destruct (to_bytes (s ep)) as [sb | e] eqn:Hs; next; [ | failed ].
  match goal with
  | |- context [contract_function ch token ?a] => set (args := a)
  end.
  destruct (contract_function ch token args) as [[] | e] eqn:Hcall; next; [ | failed ].
  destruct (get_transaction_count ch (account_address ch)) as [count | e] eqn:Hcount;
    next; [ | failed ].
  destruct (build_transaction ch token args _) as [tx0 | e] eqn:Hbuild; next;
    [ | failed ].
  destruct (with_estimated_gas ch tx0) as [tx | e] eqn:Hgas; next; [ | failed ].
  destruct gas_price_check_cases as [Hcap | [(reason & Hcap) | (e & Hcap)]];
    rewrite Hcap; next; [ | failed | failed ].
  assert (Hprep : prepared ch pp req tx).
  { exists ep, token, nonce_bytes, payer, recipient, val, va, vb, rb, sb, count, tx0.
    cbv zeta. fold args. repeat apply conj; assumption. }
  destruct (sign_transaction ch tx) as [stx | e] eqn:Hsign; next; [ | failed ].
  destruct (raw_of stx) as [raw | ] eqn:Hraw; next.
  - destruct (send_raw_transaction ch raw) as [tx_hash | e] eqn:Hsend; next.
    + destruct (confirmation_cases w t tx_hash) as (o & Ho & Hconf).
      rewrite Ho. next.
      eexists _, _. split; [ reflexivity | ]. right; right; right.
      exists tx, stx, raw, tx_hash. repeat apply conj; try assumption; reflexivity.
    + eexists _, _. split; [ reflexivity | ]. right; right; left.
      exists tx, stx, raw, e. repeat apply conj; try assumption; reflexivity.
  - eexists _, _. split; [ reflexivity | ]. right; left.
    exists tx. split; [ exact Hprep | ]. split; [ reflexivity | ].
    eexists; reflexivity.
Qed.

(** The same for [settle_payment]: other schemes end at once. *)
Lemma settle_payment_cases (pp : PaymentPayload) (req : PaymentRequirements)
      (w : bool) (t : Z) :
  exists o evs,
    settle_payment ch pp req w t = (Return o, evs) /\
    ((evs = [] /\ exists reason, o = (false, Some reason, None)) \/
     (exists tx, p_scheme pp = EXACT /\ prepared ch pp req tx /\ evs = [Signed tx] /\
                 exists reason, o = (false, Some reason, None)) \/
     (exists tx stx raw e,
         p_scheme pp = EXACT /\
         prepared ch pp req tx /\
         sign_transaction ch tx = Return stx /\
         raw_of stx = Some raw /\
         send_raw_transaction ch raw = Raise e /\
         evs = [Signed tx; Sent raw] /\
         o = (false, Some ("Exact scheme settlement error: " ++ exn_str e), None)) \/
     (exists tx stx raw tx_hash,
         p_scheme pp = EXACT /\
         prepared ch pp req tx /\
         sign_transaction ch tx = Return stx /\
         raw_of stx = Some raw /\
         send_raw_transaction ch raw = Return tx_hash /\
         evs = [Signed tx; Sent raw] /\
         confirmed ch w t tx_hash o)).
Proof.
  unfold settle_payment.
  destruct (String.eqb (p_scheme pp) EXACT) eqn:Hscheme.
  - apply String.eqb_eq in Hscheme.
    destruct (settle_exact_cases pp req w t) as (o & evs & Hrun & Hcases).
    rewrite Hrun. exists o, evs. split; [ reflexivity | ].
    destruct Hcases as [Ha | [(tx & Hb) | [(tx & stx & raw & e & Hc)
                                          | (tx & stx & raw & tx_hash & Hc)]]].
    + left. exact Ha.
    + right; left. exists tx. split; assumption.
    + right; right; left. exists tx, stx, raw, e. split; assumption.
    + right; right; right. exists tx, stx, raw, tx_hash. split; assumption.
  - eexists _, _. split; [ reflexivity | ]. left.
    split; [ reflexivity | eexists; reflexivity ].
Qed.
End Settler.

(** The shape of the settler's answer. *)
Lemma settle_payment_outcome
        (ch : Settlement.Chain) (pp : Protocol.PaymentPayload)
        (req : Protocol.PaymentRequirements) (wait_for_confirmation : bool)
        (timeout : Z) :
  exists ok err tx,
    fst (Settlement.settle_payment ch pp req wait_for_confirmation timeout)
    = Return (ok, err, tx) /\
    (ok = true /\ err = None /\ (exists tx_hash_hex, tx = Some tx_hash_hex) \/
     ok = false /\ exists reason, err = Some reason).
Proof.
  destruct (settle_payment_cases ch pp req wait_for_confirmation timeout)
    as (o & evs & Hrun & Hcases).
  rewrite Hrun. cbn [fst].
  destruct Hcases as [(_ & reason & ->)
                     | [(tx & _ & _ & _ & reason & ->)
                       | [(tx & stx & raw & e & _ & _ & _ & _ & _ & _ & ->)
                         | (tx & stx & raw & tx_hash
                            & _ & _ & _ & _ & _ & _ & Hconf)]]].
  - eexists _, _, _. split; [ reflexivity | ]. right.
    split; [ reflexivity | eexists; reflexivity ].
  - eexists _, _, _. split; [ reflexivity | ]. right.
    split; [ reflexivity | eexists; reflexivity ].
  - eexists _, _, _. split; [ reflexivity | ]. right.
    split; [ reflexivity | eexists; reflexivity ].
  - destruct Hconf as [(-> & _) | (_ & _ & reason & ->)].
    + eexists _, _, _. split; [ reflexivity | ]. left.
      split; [ reflexivity | ]. split; [ reflexivity | eexists; reflexivity ].
    + eexists _, _, _. split; [ reflexivity | ]. right.
      split; [ reflexivity | eexists; reflexivity ].
Qed.

(** [settle_payment] never raises, and its answer explains itself:
    success comes with a transaction hash and no error, failure comes
    with an error message. *)
Theorem settle_payment_explains
        (ch : Settlement.Chain) (pp : Protocol.PaymentPayload)
        (req : Protocol.PaymentRequirements) (wait_for_confirmation : bool)
        (timeout : Z) :
  exists ok err tx,
    fst (Settlement.settle_payment ch pp req wait_for_confirmation timeout)
    = Return (ok, err, tx) /\
    (ok = true /\ err = None /\ (exists tx_hash_hex, tx = Some tx_hash_hex) \/
     ok = false /\ exists reason, err = Some reason).
Proof.
  exact (settle_payment_outcome ch pp req wait_for_confirmation timeout).
Qed.

(** A transaction hash is reported exactly when [send_raw_transaction]
    returned one.  Every run of [settle_payment] ends in one of three
    ways.  Either [send_raw_transaction] was never called and no hash is
    reported.  Or it was called once, with the raw bytes of the one
    transaction that was signed, and raised: then the answer is a failure
    without a hash whose error is [Exact scheme settlement error: ]
    followed by the text of the exception, although the node may have
    taken the transaction.  Or it was called once, with those bytes, and
    returned a hash: then that hash, in hex, is reported, whatever the
    verdict. *)
Theorem hash_reported_iff_send_returned
        (ch : Settlement.Chain) (pp : Protocol.PaymentPayload)
        (req : Protocol.PaymentRequirements) (wait_for_confirmation : bool)
        (timeout : Z) :
  exists ok err tx evs,
    Settlement.settle_payment ch pp req wait_for_confirmation timeout
    = (Return (ok, err, tx), evs) /\
    (tx = None /\ (forall raw, ~ In (Settlement.Sent raw) evs) \/
     exists signed stx raw,
       Settlement.sign_transaction ch signed = Return stx /\
       Settlement.raw_of stx = Some raw /\
       evs = [Settlement.Signed signed; Settlement.Sent raw] /\
       ((exists e,
           Settlement.send_raw_transaction ch raw = Raise e /\
           ok = false /\
           err = Some ("Exact scheme settlement error: " ++ exn_str e) /\
           tx = None) \/
        (exists tx_hash,
           Settlement.send_raw_transaction ch raw = Return tx_hash /\
           tx = Some (Settlement.hexbytes_hex ch tx_hash)))).
Proof.
  destruct (settle_payment_cases ch pp req wait_for_confirmation timeout)
    as (o & evs & Hrun & Hcases).
  rewrite Hrun.
  destruct Hcases as [(-> & reason & ->)
                     | [(tx & _ & _ & -> & reason & ->)
                       | [(tx & stx & raw & e
                           & _ & _ & Hsign & Hraw & Hsend & -> & ->)
                         | (tx & stx & raw & tx_hash
                            & _ & _ & Hsign & Hraw & Hsend & -> & Hconf)]]].
  - eexists _, _, _, _. split; [ reflexivity | ]. left.
    split; [ reflexivity | ]. intros raw [].
  - eexists _, _, _, _. split; [ reflexivity | ]. left.
    split; [ reflexivity | ]. intros raw [H | []]. discriminate H.
  - eexists _, _, _, _. split; [ reflexivity | ]. right.
    exists tx, stx, raw. repeat apply conj; try assumption; try reflexivity.
    left. exists e. repeat apply conj; try assumption; reflexivity.
  - assert (Htx : exists ok err,
               o = (ok, err, Some (Settlement.hexbytes_hex ch tx_hash))).
    { destruct Hconf as [(-> & _) | (_ & _ & reason & ->)];
        eexists _, _; reflexivity. }
    destruct Htx as (ok & err & ->).
    eexists _, _, _, _. split; [ reflexivity | ]. right.
    exists tx, stx, raw. repeat apply conj; try assumption; try reflexivity.
    right. exists tx_hash. split; [ exact Hsend | reflexivity ].
Qed.

(** The settler signs nothing it has not prepared: a transaction is
    signed only for an exact-scheme payload that decodes, whose addresses,
    integers and hex fields convert, for which the token did not report
    the nonce as used, whose gas could be estimated, and while the gas
    price is within the cap. *)
Theorem signs_only_prepared
        (ch : Settlement.Chain) (pp : Protocol.PaymentPayload)
        (req : Protocol.PaymentRequirements) (wait_for_confirmation : bool)
        (timeout : Z) (tx : Py.dict) :
  In (Settlement.Signed tx)
     (snd (Settlement.settle_payment ch pp req wait_for_confirmation timeout)) ->
  Protocol.p_scheme pp = Protocol.EXACT /\ Spec.prepared ch pp req tx.
Proof.
  intros Hin.
  destruct (settle_payment_cases ch pp req wait_for_confirmation timeout)
    as (o & evs & Hrun & Hcases).
  rewrite Hrun in Hin. cbn [snd] in Hin.
  destruct Hcases as [(-> & _)
                     | [(tx' & Hscheme & Hprep & -> & _)
                       | [(tx' & stx & raw & e
                           & Hscheme & Hprep & _ & _ & _ & -> & _)
                         | (tx' & stx & raw & tx_hash
                            & Hscheme & Hprep & _ & _ & _ & -> & _)]]].
  - destruct Hin.
  - destruct Hin as [H | []]. injection H as <-. split; assumption.
  - destruct Hin as [H | [H | []]]; [ | discriminate H ].
    injection H as <-. split; assumption.
  - destruct Hin as [H | [H | []]]; [ | discriminate H ].
    injection H as <-. split; assumption.
Qed.

Lemma signs_only_prepared_witness :
  Protocol.p_scheme Examples.signed_envelope = Protocol.EXACT /\
  Spec.prepared Examples.settling_chain Examples.signed_envelope Examples.requirements0
                 Examples.settled_transaction.
Proof.
  apply (signs_only_prepared Examples.settling_chain Examples.signed_envelope
                             Examples.requirements0 true 120
                             Examples.settled_transaction).
  vm_compute. left. reflexivity.
Defined.

(** Success is reported only for a transaction that the node took and,
    when the settler was asked to wait, whose receipt shows status 1. *)
Theorem success_means_confirmed
        (ch : Settlement.Chain) (pp : Protocol.PaymentPayload)
        (req : Protocol.PaymentRequirements) (wait_for_confirmation : bool)
        (timeout : Z) (err tx : option string) :
  fst (Settlement.settle_payment ch pp req wait_for_confirmation timeout)
  = Return (true, err, tx) ->
  exists raw tx_hash,
    In (Settlement.Sent raw)
       (snd (Settlement.settle_payment ch pp req wait_for_confirmation timeout)) /\
    Settlement.send_raw_transaction ch raw = Return tx_hash /\
    tx = Some (Settlement.hexbytes_hex ch tx_hash) /\
    err = None /\
    (wait_for_confirmation = true ->
     Settlement.receipt_status ch tx_hash timeout = Return 1).
Proof.
  intros Hok.
  destruct (settle_payment_cases ch pp req wait_for_confirmation timeout)
    as (o & evs & Hrun & Hcases).
  rewrite Hrun in Hok |- *. cbn [fst snd] in Hok |- *.
  injection Hok as ->.
  destruct Hcases as [(_ & reason & H)
                     | [(tx' & _ & _ & _ & reason & H)
                       | [(tx' & stx & raw & e & _ & _ & _ & _ & _ & _ & H)
                         | (tx' & stx & raw & tx_hash
                            & _ & _ & _ & _ & Hsend & -> & Hconf)]]];
    try discriminate H.
  destruct Hconf as [(H & Hwait) | (_ & _ & reason & H)]; [ | discriminate H ].
  unfold Spec.confirmed in H. injection H as -> ->.
  exists raw, tx_hash. repeat apply conj; try assumption; try reflexivity.
  right; left; reflexivity.
Qed.

Lemma success_means_confirmed_witness :
  exists raw tx_hash,
    In (Settlement.Sent raw)
       (snd (Settlement.settle_payment Examples.settling_chain Examples.signed_envelope
                                       Examples.requirements0 true 120)) /\
    Settlement.send_raw_transaction Examples.settling_chain raw = Return tx_hash /\
    Some "0xabcd" = Some (Settlement.hexbytes_hex Examples.settling_chain tx_hash) /\
    @None string = None /\
    (true = true ->
     Settlement.receipt_status Examples.settling_chain tx_hash 120 = Return 1).
Proof.
  apply (success_means_confirmed Examples.settling_chain Examples.signed_envelope
                                 Examples.requirements0 true 120 None (Some "0xabcd")).
  vm_compute. reflexivity.
Defined.

(** A facilitator whose settler is [PaymentSettler.settle_payment] answers
    every [/settle] request with 200: neither the verifier nor the settler
    lets an exception out.  The answer reports success only for a payment
    that [verify_payment] accepted, with a transaction hash and the
    network of the requirements; every failure comes with a reason and
    without a network. *)
Theorem settle_endpoint_answers
        (sv : Facilitator.Services) (W : World) (ch : Settlement.Chain)
        (request : Facilitator.SettlementRequest) :
  Facilitator.payment_verifier sv = Some W ->
  Facilitator.payment_settler sv = Some (Settlement.as_settler ch) ->
  exists resp,
    fst (Facilitator.settle_payment sv request) = Facilitator.Ok200 resp /\
    (Protocol.success resp = true /\
     Verifier.verify_payment W (Facilitator.paymentHeader request)
                             (Facilitator.paymentRequirements request)
     = Return (true, None) /\
     Protocol.error resp = None /\
     (exists tx_hash_hex, Protocol.txHash resp = Some tx_hash_hex) /\
     Protocol.networkId resp
     = Some (Protocol.network (Facilitator.paymentRequirements request)) \/
     Protocol.success resp = false /\
     (exists reason, Protocol.error resp = Some reason) /\
     Protocol.networkId resp = None).
Proof.
  intros HW HS.
  assert (Hfst : fst (Facilitator.settle_payment sv request)
                 = match fst (Facilitator.settle_body sv request) with
                   | Return resp => Facilitator.Ok200 resp
                   | Raise e => Facilitator.HTTPException 500
                                  ("Settlement failed: " ++ exn_str e)
                   end)
    by (unfold Facilitator.settle_payment;
        destruct (Facilitator.settle_body sv request); reflexivity).
  rewrite Hfst.
  destruct (settle_body_cases sv request)
    as [([H | H] & _) | [(W' & settle & reason & HW' & HS' & Hrej & Hbody)
                        | (W' & settle & pp & HW' & HS' & Hacc & Hdec & Hbody)]].
  - rewrite HW in H. discriminate H.
  - rewrite HS in H. discriminate H.
  - rewrite Hbody. cbn [fst]. eexists. split; [ reflexivity | ]. right.
    cbn [Protocol.success Protocol.error Protocol.networkId].
    split; [ reflexivity | ]. split; [ eexists; reflexivity | reflexivity ].
  - rewrite HW in HW'. injection HW' as <-.
    rewrite HS in HS'. injection HS' as <-.
    rewrite Hbody. cbn [fst]. unfold Settlement.as_settler.
    destruct (settle_payment_outcome ch pp (Facilitator.paymentRequirements request)
                                     true 120)
      as (ok & err & tx & Hrun & Hshape).
    rewrite Hrun. cbn [bind].
    eexists. split; [ reflexivity | ].
    cbn [Protocol.success Protocol.error Protocol.txHash Protocol.networkId].
    destruct Hshape as [(-> & -> & h & ->) | (-> & reason & ->)].
    + left. repeat apply conj; try reflexivity; try assumption.
      exists h. reflexivity.
    + right. split; [ reflexivity | ]. split; [ eexists; reflexivity | reflexivity ].
Qed.

Lemma settle_endpoint_answers_witness :
  exists resp,
    fst (Facilitator.settle_payment Examples.settling_services
                                    Examples.settlement_request)
    = Facilitator.Ok200 resp /\
    (Protocol.success resp = true /\
     Verifier.verify_payment (Examples.world_at 1700000000)
       (Facilitator.paymentHeader Examples.settlement_request)
       (Facilitator.paymentRequirements Examples.settlement_request)
     = Return (true, None) /\
     Protocol.error resp = None /\
     (exists tx_hash_hex, Protocol.txHash resp = Some tx_hash_hex) /\
     Protocol.networkId resp
     = Some (Protocol.network
               (Facilitator.paymentRequirements Examples.settlement_request)) \/
     Protocol.success resp = false /\
     (exists reason, Protocol.error resp = Some reason) /\
     Protocol.networkId resp = None).
Proof.
  apply (settle_endpoint_answers Examples.settling_services
           (Examples.world_at 1700000000) Examples.settling_chain
           Examples.settlement_request).
  - reflexivity.
  - reflexivity.
Defined.

Lemma settler_called_once_after_verification_witness :
  exists W settle,
    Facilitator.payment_verifier Examples.settling_services = Some W /\
    Facilitator.payment_settler Examples.settling_services = Some settle /\
    Verifier.verify_payment W (Facilitator.paymentHeader Examples.settlement_request)
      (Facilitator.paymentRequirements Examples.settlement_request)
    = Return (true, None) /\
    decode_header W (Facilitator.paymentHeader Examples.settlement_request)
    = Return Examples.signed_envelope /\
    snd (Facilitator.settle_payment Examples.settling_services
                                    Examples.settlement_request)
    = [Facilitator.CallVerify (Facilitator.paymentHeader Examples.settlement_request);
       Facilitator.CallSettle Examples.signed_envelope] /\
    forall resp,
      fst (Facilitator.settle_payment Examples.settling_services
                                      Examples.settlement_request)
      = Facilitator.Ok200 resp ->
      exists err tx,
        settle Examples.signed_envelope
               (Facilitator.paymentRequirements Examples.settlement_request) true 120
        = Return (Protocol.success resp, err, tx) /\
        Protocol.error resp = err /\ Protocol.txHash resp = tx /\
        Protocol.networkId resp
        = if Protocol.success resp
          then Some (Protocol.network
                       (Facilitator.paymentRequirements Examples.settlement_request))
          else None.
Proof.
  apply (settler_called_once_after_verification Examples.settling_services
           Examples.settlement_request Examples.signed_envelope).
  vm_compute. right. left. reflexivity.
Defined.

(** ** The payment middleware *)

Section Middleware.
Import Py Protocol ResourceServer Spec.
Variable cfg : Config.
Variable pow10_negative : Z -> spec_float.
Variable post_settle : string -> PaymentRequirements -> Exc reply.
Variable b64_json : pyval -> string.
Variable amount_usd description0 : string.
Variable rq : request.

(** The two handlers of the middleware answer, whatever the exception. *)
Lemma middleware_handlers (e : exn) :
  first_clause e
    [ (fun c => exn_class_eqb c Timeout,
       fun _ : exn =>
         Return (jsonify (PyDict [("error", PyStr "Payment verification timeout")]) 408));
      (is_Exception,
       fun e0 : exn =>
         Return (jsonify (PyDict [("error",
                            PyStr ("Payment verification failed: " ++ exn_str e0))])
                         500)) ]
  = Return (if exn_class_eqb (exn_cls e) Timeout
            then jsonify (PyDict [("error", PyStr "Payment verification timeout")]) 408
            else jsonify (PyDict [("error",
                            PyStr ("Payment verification failed: " ++ exn_str e))])
                         500).
Proof.
  unfold first_clause. destruct (exn_class_eqb (exn_cls e) Timeout); reflexivity.
Qed.

(** What the middleware answers when the settlement did not succeed:
    the view has no part in it. *)
Lemma unsettled_answer (f : Exc view_result) (reqs : PaymentRequirements) :
  create_payment_requirements cfg pow10_negative amount_usd (path rq) description0
                              "application/json" = Return reqs ->
  settlement_succeeded cfg pow10_negative post_settle amount_usd description0 rq
  = false ->
  exists resp,
    decorated_function cfg pow10_negative post_settle b64_json amount_usd description0
                       f rq = Return resp /\
    (status_code resp = 402 \/ status_code resp = 408 \/ status_code resp = 500) /\
    forall f',
      decorated_function cfg pow10_negative post_settle b64_json amount_usd
                         description0 f' rq = Return resp.
Proof.
  intros Hreqs Hsettled.
  unfold settlement_succeeded in Hsettled. unfold decorated_function.
  rewrite Hreqs in Hsettled |- *. cbn [bind].
  destruct (header_get (request_headers rq) X_PAYMENT_HEADER) as [[ | c hdr] | ].
  - eexists. split; [ reflexivity | ]. split; [ left; reflexivity | reflexivity ].
  - unfold try_clauses.
    destruct (post_settle (String c hdr) reqs) as [answer | e]; cbn [bind].
    + destruct (reply_status_code answer =? 200) eqn:Hstatus; cbn [negb andb] in *.
      * destruct (reply_json answer) as [data | e]; cbn [bind].
        -- destruct data as [ | b | z | fl | s0 | l | d];
             try (cbn [json_get bind]; rewrite middleware_handlers;
                  eexists; split; [ reflexivity | ];
                  split; [ | reflexivity ];
                  destruct (exn_class_eqb _ Timeout); auto).
           cbn [json_get bind]. rewrite Hsettled. cbn [negb].
           destruct (error_field (dict_get d "error")) as [err | e]; cbn [bind].
           ++ eexists. split; [ reflexivity | ].
              split; [ left; reflexivity | reflexivity ].
           ++ rewrite middleware_handlers. eexists. split; [ reflexivity | ].
              split; [ | reflexivity ].
              destruct (exn_class_eqb _ Timeout); auto.
        -- rewrite middleware_handlers. eexists. split; [ reflexivity | ].
           split; [ | reflexivity ].
           destruct (exn_class_eqb _ Timeout); auto.
      * eexists. split; [ reflexivity | ].
        split; [ left; reflexivity | reflexivity ].
    + rewrite middleware_handlers. eexists. split; [ reflexivity | ].
      split; [ | reflexivity ].
      destruct (exn_class_eqb _ Timeout); auto.
  - eexists. split; [ reflexivity | ]. split; [ left; reflexivity | reflexivity ].
Qed.

(** What a successful settlement looks like from the middleware. *)
Lemma settlement_succeeded_inv :
  settlement_succeeded cfg pow10_negative post_settle amount_usd description0 rq
  = true ->
  exists payment_header reqs answer d,
    header_get (request_headers rq) X_PAYMENT_HEADER = Some payment_header /\
    payment_header <> "" /\
    create_payment_requirements cfg pow10_negative amount_usd (path rq) description0
                                "application/json" = Return reqs /\
    post_settle payment_header reqs = Return answer /\
    reply_status_code answer = 200 /\
    reply_json answer = Return (PyDict d) /\
    truthy_opt (dict_get d "success") = true.
Proof.
  unfold settlement_succeeded.
  destruct (header_get (request_headers rq) X_PAYMENT_HEADER) as [[ | c hdr] | ];
    try discriminate.
  destruct (create_payment_requirements cfg pow10_negative amount_usd (path rq)
              description0 "application/json") as [reqs | e]; [ | discriminate ].
  destruct (post_settle (String c hdr) reqs) as [answer | e] eqn:Hpost;
    [ | discriminate ].
  intros H. apply andb_true_iff in H. destruct H as (Hstatus & Hjson).
  apply Z.eqb_eq in Hstatus.
  destruct (reply_json answer) as [[ | b | z | fl | s0 | l | d] | e] eqn:Hreply;
    try discriminate Hjson.
  exists (String c hdr), reqs, answer, d.
  split; [ reflexivity | ]. split; [ discriminate | ].
  split; [ reflexivity | ]. split; [ exact Hpost | ].
  split; [ exact Hstatus | ]. split; [ exact Hreply | exact Hjson ].
Qed.

(** After a successful settlement the answer is made from the view. *)
Lemma settled_answer (f : Exc view_result) :
  settlement_succeeded cfg pow10_negative post_settle amount_usd description0 rq
  = true ->
  exists payment_header reqs answer d,
    header_get (request_headers rq) X_PAYMENT_HEADER = Some payment_header /\
    create_payment_requirements cfg pow10_negative amount_usd (path rq) description0
                                "application/json" = Return reqs /\
    post_settle payment_header reqs = Return answer /\
    reply_json answer = Return (PyDict d) /\
    decorated_function cfg pow10_negative post_settle b64_json amount_usd description0
                       f rq
    = match f with
      | Return result =>
          if truthy_opt (dict_get d "txHash")
          then Return (with_header (response_of_view result)
                         X_PAYMENT_RESPONSE_HEADER
                         (b64_json (PyDict [("txHash", val_or_none (dict_get d "txHash"));
                                            ("networkId",
                                             val_or_none (dict_get d "networkId"))])))
          else Return (response_of_view result)
      | Raise e =>
          Return (if exn_class_eqb (exn_cls e) Timeout
                  then jsonify (PyDict [("error",
                                  PyStr "Payment verification timeout")]) 408
                  else jsonify (PyDict [("error",
                                  PyStr ("Payment verification failed: "
                                           ++ exn_str e))]) 500)
      end.
Proof.
  intros Hsettled.
  destruct (settlement_succeeded_inv Hsettled)
    as (hdr & reqs & answer & d & Hhdr & Hne & Hreqs & Hpost & Hstatus & Hjson & Hok).
  exists hdr, reqs, answer, d.
  split; [ exact Hhdr | ]. split; [ exact Hreqs | ].
  split; [ exact Hpost | ]. split; [ exact Hjson | ].
  unfold decorated_function. rewrite Hhdr.
  destruct hdr as [ | c hdr]; [ contradiction Hne; reflexivity | ].
  rewrite Hreqs. cbn [bind]. unfold try_clauses.
  rewrite Hpost. cbn [bind]. rewrite Hstatus. cbn [Z.eqb Pos.eqb negb].
  rewrite Hjson. cbn [bind json_get]. rewrite Hok. cbn [negb].
  destruct f as [result | e]; cbn [bind].
  - destruct (truthy_opt (dict_get d "txHash")); reflexivity.
  - apply middleware_handlers.
Qed.
End Middleware.

(** The view behind the middleware runs only after a successful
    settlement.  In every other case (no payment header or an empty one,
    a facilitator that cannot be reached, answers with an error status or
    an unreadable body, or reports failure) the middleware answers 402,
    408 or 500 by itself, and the answer is the same whatever the view
    would have done. *)
Theorem view_runs_only_after_settlement
        (cfg : ResourceServer.Config) (pow10_negative : Z -> spec_float)
        (post_settle : string -> Protocol.PaymentRequirements -> Exc ResourceServer.reply)
        (b64_json : Py.pyval -> string) (amount_usd description : string)
        (rq : ResourceServer.request) (reqs : Protocol.PaymentRequirements)
        (f f' : Exc ResourceServer.view_result) :
  ResourceServer.create_payment_requirements cfg pow10_negative amount_usd
    (ResourceServer.path rq) description "application/json" = Return reqs ->
  Spec.settlement_succeeded cfg pow10_negative post_settle amount_usd description rq
  = false ->
  exists resp,
    ResourceServer.decorated_function cfg pow10_negative post_settle b64_json
                                      amount_usd description f rq = Return resp /\
    ResourceServer.decorated_function cfg pow10_negative post_settle b64_json
                                      amount_usd description f' rq = Return resp /\
    (ResourceServer.status_code resp = 402 \/
     ResourceServer.status_code resp = 408 \/
     ResourceServer.status_code resp = 500).
Proof.
  intros Hreqs Hsettled.
  destruct (unsettled_answer cfg pow10_negative post_settle b64_json amount_usd
              description rq f reqs Hreqs Hsettled) as (resp & Hf & Hstatus & Hany).
  exists resp. split; [ exact Hf | ]. split; [ apply Hany | exact Hstatus ].
Qed.

Lemma view_runs_only_after_settlement_witness :
  exists resp,
    ResourceServer.decorated_function
      Examples.config Examples.pow10_unused Examples.failing_facilitator
      Examples.receipt_text "$0.01" "Current weather information"
      Examples.weather_view Examples.paid_request = Return resp /\
    ResourceServer.decorated_function
      Examples.config Examples.pow10_unused Examples.failing_facilitator
      Examples.receipt_text "$0.01" "Current weather information"
      Examples.failing_view Examples.paid_request = Return resp /\
    (ResourceServer.status_code resp = 402 \/
     ResourceServer.status_code resp = 408 \/
     ResourceServer.status_code resp = 500).
Proof.
  apply (view_runs_only_after_settlement
           Examples.config Examples.pow10_unused Examples.failing_facilitator
           Examples.receipt_text "$0.01" "Current weather information"
           Examples.paid_request Examples.requirements0).
  - vm_compute. reflexivity.
  - vm_compute. reflexivity.
Defined.

(** A view that fails after the payment was settled costs the payer the
    payment: the middleware answers 500 with "Payment verification
    failed", or 408 with "Payment verification timeout" when the view's
    failure is a timeout, and the answer carries no receipt. *)
Theorem paid_view_failure_is_an_error
        (cfg : ResourceServer.Config) (pow10_negative : Z -> spec_float)
        (post_settle : string -> Protocol.PaymentRequirements -> Exc ResourceServer.reply)
        (b64_json : Py.pyval -> string) (amount_usd description : string)
        (rq : ResourceServer.request) (e : exn) :
  Spec.settlement_succeeded cfg pow10_negative post_settle amount_usd description rq
  = true ->
  ResourceServer.decorated_function cfg pow10_negative post_settle b64_json
                                    amount_usd description (Raise e) rq
  = Return (if exn_class_eqb (exn_cls e) Timeout
            then ResourceServer.jsonify
                   (Py.PyDict [("error", Py.PyStr "Payment verification timeout")]) 408
            else ResourceServer.jsonify
                   (Py.PyDict [("error", Py.PyStr ("Payment verification failed: "
                                                     ++ exn_str e))]) 500).
Proof.
  intros Hsettled.
  destruct (settled_answer cfg pow10_negative post_settle b64_json amount_usd
              description rq (Raise e) Hsettled)
    as (hdr & reqs & answer & d & _ & _ & _ & _ & Hrun).
  exact Hrun.
Qed.

Lemma paid_view_failure_is_an_error_witness :
  ResourceServer.decorated_function
    Examples.config Examples.pow10_unused Examples.settling_facilitator
    Examples.receipt_text "$0.01" "Current weather information"
    (Raise (Exn OtherError "upstream unavailable")) Examples.paid_request
  = Return (if exn_class_eqb (exn_cls (Exn OtherError "upstream unavailable")) Timeout
            then ResourceServer.jsonify
                   (Py.PyDict [("error", Py.PyStr "Payment verification timeout")]) 408
            else ResourceServer.jsonify
                   (Py.PyDict [("error",
                                Py.PyStr ("Payment verification failed: "
                                            ++ exn_str (Exn OtherError
                                                          "upstream unavailable")))])
                   500).
Proof.
  apply (paid_view_failure_is_an_error
           Examples.config Examples.pow10_unused Examples.settling_facilitator
           Examples.receipt_text "$0.01" "Current weather information"
           Examples.paid_request (Exn OtherError "upstream unavailable")).
  vm_compute. reflexivity.
Defined.

(** After a successful settlement the view's answer goes out with its
    status and body unchanged.  It carries the receipt of the settlement
    under [X-PAYMENT-RESPONSE], made of the facilitator's [txHash] and
    [networkId], exactly when the facilitator named a transaction hash. *)
Theorem paid_response_passes_through
        (cfg : ResourceServer.Config) (pow10_negative : Z -> spec_float)
        (post_settle : string -> Protocol.PaymentRequirements -> Exc ResourceServer.reply)
        (b64_json : Py.pyval -> string) (amount_usd description : string)
        (rq : ResourceServer.request) (result : ResourceServer.view_result) :
  Spec.settlement_succeeded cfg pow10_negative post_settle amount_usd description rq
  = true ->
  exists payment_header reqs answer d resp,
    ResourceServer.header_get (ResourceServer.request_headers rq)
                              Protocol.X_PAYMENT_HEADER = Some payment_header /\
    ResourceServer.create_payment_requirements cfg pow10_negative amount_usd
      (ResourceServer.path rq) description "application/json" = Return reqs /\
    post_settle payment_header reqs = Return answer /\
    ResourceServer.reply_json answer = Return (Py.PyDict d) /\
    ResourceServer.decorated_function cfg pow10_negative post_settle b64_json
                                      amount_usd description (Return result) rq
    = Return resp /\
    ResourceServer.status_code resp
    = ResourceServer.status_code (ResourceServer.response_of_view result) /\
    ResourceServer.body resp
    = ResourceServer.body (ResourceServer.response_of_view result) /\
    (ResourceServer.truthy_opt (Py.dict_get d "txHash") = true /\
     ResourceServer.header_get (ResourceServer.headers resp)
                               Protocol.X_PAYMENT_RESPONSE_HEADER
     = Some (b64_json
               (Py.PyDict
                  [("txHash", ResourceServer.val_or_none (Py.dict_get d "txHash"));
                   ("networkId",
                    ResourceServer.val_or_none (Py.dict_get d "networkId"))])) \/
     ResourceServer.truthy_opt (Py.dict_get d "txHash") = false /\
     resp = ResourceServer.response_of_view result).
Proof.
  intros Hsettled.
  destruct (settled_answer cfg pow10_negative post_settle b64_json amount_usd
              description rq (Return result) Hsettled)
    as (hdr & reqs & answer & d & Hhdr & Hreqs & Hpost & Hjson & Hrun).
  exists hdr, reqs, answer, d.
  destruct (ResourceServer.truthy_opt (Py.dict_get d "txHash")) eqn:Htx.
  - eexists. repeat apply conj; try eassumption; try reflexivity.
    left. split; reflexivity.
  - eexists. repeat apply conj; try eassumption; try reflexivity.
    right. split; reflexivity.
Qed.

Lemma paid_response_passes_through_witness :
  exists payment_header reqs answer d resp,
    ResourceServer.header_get (ResourceServer.request_headers Examples.paid_request)
                              Protocol.X_PAYMENT_HEADER = Some payment_header /\
    ResourceServer.create_payment_requirements Examples.config Examples.pow10_unused
      "$0.01" (ResourceServer.path Examples.paid_request)
      "Current weather information" "application/json" = Return reqs /\
    Examples.settling_facilitator payment_header reqs = Return answer /\
    ResourceServer.reply_json answer = Return (Py.PyDict d) /\
    ResourceServer.decorated_function
      Examples.config Examples.pow10_unused Examples.settling_facilitator
      Examples.receipt_text "$0.01" "Current weather information"
      (Return (ResourceServer.ViewTuple (Py.PyDict [("temperature", Py.PyInt 21)]) 203))
      Examples.paid_request
    = Return resp /\
    ResourceServer.status_code resp
    = ResourceServer.status_code
        (ResourceServer.response_of_view
           (ResourceServer.ViewTuple (Py.PyDict [("temperature", Py.PyInt 21)]) 203)) /\
    ResourceServer.body resp
    = ResourceServer.body
        (ResourceServer.response_of_view
           (ResourceServer.ViewTuple (Py.PyDict [("temperature", Py.PyInt 21)]) 203)) /\
    (ResourceServer.truthy_opt (Py.dict_get d "txHash") = true /\
     ResourceServer.header_get (ResourceServer.headers resp)
                               Protocol.X_PAYMENT_RESPONSE_HEADER
     = Some (Examples.receipt_text
               (Py.PyDict
                  [("txHash", ResourceServer.val_or_none (Py.dict_get d "txHash"));
                   ("networkId",
                    ResourceServer.val_or_none (Py.dict_get d "networkId"))])) \/
     ResourceServer.truthy_opt (Py.dict_get d "txHash") = false /\
     resp = ResourceServer.response_of_view
              (ResourceServer.ViewTuple (Py.PyDict [("temperature", Py.PyInt 21)]) 203)).
Proof.
  apply (paid_response_passes_through
           Examples.config Examples.pow10_unused Examples.settling_facilitator
           Examples.receipt_text "$0.01" "Current weather information"
           Examples.paid_request
           (ResourceServer.ViewTuple (Py.PyDict [("temperature", Py.PyInt 21)]) 203)).
  vm_compute. reflexivity.
Defined.

(** ** The requirements that the resource server mints *)

Section Minted.
Import Py Protocol EthUtils EthAccount ResourceServer.











End Minted.



(** ** The client on the network *)

(** [request_resource] pays at most once.  It makes one request; only
    when that is answered 402 and [auto_pay] is set does it make a second
    one, which carries under [X-PAYMENT] the payment created for the
    first of the accepted requirements, and whose answer is returned as
    it is, a further 402 included.  A payment that cannot be made raises
    "Payment failed" after the one request.  A [headers] dict given by
    the caller is changed by the payment. *)
Theorem request_resource_pays_once
        (W : World) (C : Client.ClientEnv) (H : ClientHTTP.Http)
        (url : string) (auto_pay : bool) (method : string)
        (h : option ClientHTTP.headers) :
  let first := {| ClientHTTP.call_method := method; ClientHTTP.call_url := url;
                  ClientHTTP.call_headers := h |} in
  let run := ClientHTTP.request_resource W C H url auto_pay method h in
  (auto_pay = false ->
   run = (ClientHTTP.requests_request H 0 first, [first], h)) /\
  ((snd (fst run) = [first] /\ snd run = h /\
    (fst (fst run) = ClientHTTP.requests_request H 0 first \/
     exists e, fst (fst run) = Raise (Exn OtherError ("Payment failed: " ++ exn_str e))))
   \/
   exists response req rest payment_header,
     auto_pay = true /\
     ClientHTTP.requests_request H 0 first = Return response /\
     ClientHTTP.status_code response = 402 /\
     ClientHTTP.accepts_of_json H (ClientHTTP.text response) = Return (req :: rest) /\
     Client.create_payment W C req 300 = Return payment_header /\
     let paid := ClientHTTP.headers_set (match h with Some x => x | None => [] end)
                                        Protocol.X_PAYMENT_HEADER payment_header in
     let second := {| ClientHTTP.call_method := method; ClientHTTP.call_url := url;
                      ClientHTTP.call_headers := Some paid |} in
     snd (fst run) = [first; second] /\
     snd run = match h with Some _ => Some paid | None => None end /\
     fst (fst run)
     = match ClientHTTP.requests_request H 1 second with
       | Return response' => Return response'
       | Raise e => Raise (Exn OtherError ("Payment failed: " ++ exn_str e))
       end).
Proof.
  intros first run. subst run. unfold ClientHTTP.request_resource. fold first.
  split.
  - intros ->. destruct (ClientHTTP.requests_request H 0 first) as [response | e];
      [ | reflexivity ].
    rewrite andb_false_r. reflexivity.
  - destruct (ClientHTTP.requests_request H 0 first) as [response | e] eqn:Hfirst;
      [ | left; repeat split; left; reflexivity ].
    destruct (ClientHTTP.status_code response =? 402) eqn:Hstatus;
      [ | left; repeat split; left; reflexivity ].
    destruct auto_pay; [ | left; repeat split; left; reflexivity ].
    cbn [andb]. apply Z.eqb_eq in Hstatus.
    unfold ClientHTTP.payment_for.
    destruct (ClientHTTP.accepts_of_json H (ClientHTTP.text response))
      as [[ | req rest] | e] eqn:Haccepts; cbn [bind].
    + left. repeat split. right. eexists. reflexivity.
    + destruct (Client.create_payment W C req 300) as [payment_header | e] eqn:Hpay.
      * right. exists response, req, rest, payment_header.
        repeat apply conj; try assumption; try reflexivity.
        -- destruct (ClientHTTP.requests_request H 1 _); reflexivity.
        -- destruct (ClientHTTP.requests_request H 1 _); reflexivity.
        -- destruct (ClientHTTP.requests_request H 1 _); reflexivity.
      * left. repeat split. right. eexists. reflexivity.
    + left. repeat split. right. eexists. reflexivity.
Qed.
